(** * d8s_ip_addresses: a shallow embedding of [ip_addresses.py]

    The module is a set of thin wrappers around CPython's [ipaddress]
    standard-library module, [str] methods, [int] and one regular expression.
    The embedding has three layers:

    - [Py]: the [str] / [int] builtins the code calls;
    - [ipaddress]: the parts of the standard-library module (CPython 3.11,
      [Lib/ipaddress.py]) that the wrappers reach: address and network
      parsing, formatting, host enumeration and the classification
      properties;
    - the functions of [ip_addresses.py] themselves, under their own names.

    Python integers are [Z]; a Python string is the [string] of the bytes of
    its UTF-8 encoding.  The [str] methods and the pattern of the code look
    for ASCII characters only, each a single byte that occurs in the
    encoding of no other character, and lengths are taken of ASCII text
    only; [int] decodes the bytes.  A call that may raise returns a
    [result]. *)

From Stdlib Require Import ZArith List String Ascii Bool Lia.
Import ListNotations.

Local Open Scope string_scope.
Local Open Scope Z_scope.

(** ** Exceptions and results *)

(** The exception classes that can leave the functions modelled here.
    [AddressValueError] and [NetmaskValueError] are the two subclasses of
    [ValueError] that [ipaddress] declares. *)
Inductive exn : Type :=
| ValueError
| AddressValueError
| NetmaskValueError
| NotImplementedError.

(** [isinstance(e, ValueError)]. *)
Definition is_ValueError (e : exn) : bool :=
  match e with
  | ValueError | AddressValueError | NetmaskValueError => true
  | NotImplementedError => false
  end.

(** [isinstance(e, (AddressValueError, NetmaskValueError))]. *)
Definition is_address_or_netmask_error (e : exn) : bool :=
  match e with
  | AddressValueError | NetmaskValueError => true
  | _ => false
  end.

Inductive result (A : Type) : Type :=
| Ok (a : A)
| Raise (e : exn).

Arguments Ok {A} a.
Arguments Raise {A} e.

Definition bind {A B : Type} (r : result A) (k : A -> result B) : result B :=
  match r with
  | Ok a => k a
  | Raise e => Raise e
  end.

Notation "x <- r ;; k" := (bind r (fun x => k))
  (at level 61, r at next level, right associativity).

(** [try: r  except ValueError: raise e' from None]. *)
Definition reraise_ValueError_as {A : Type} (e' : exn) (r : result A) : result A :=
  match r with
  | Ok a => Ok a
  | Raise e => if is_ValueError e then Raise e' else Raise e
  end.

(** [[f(x) for x in l]], stopping at the first element on which [f] raises. *)
Fixpoint mapM {A B : Type} (f : A -> result B) (l : list A) : result (list B) :=
  match l with
  | [] => Ok []
  | x :: l' => y <- f x ;; ys <- mapM f l' ;; Ok (y :: ys)
  end.

(** ** Python builtins *)

Module Py.

Definition ord (c : ascii) : Z := Z.of_N (N_of_ascii c).
Definition chr (n : Z) : ascii := ascii_of_N (Z.to_N n).

(** A character of ['0'..'9']. *)
Definition is_digit (c : ascii) : bool := (48 <=? ord c) && (ord c <=? 57).

Definition digit_value (c : ascii) : Z := ord c - 48.

(** Membership in [frozenset('0123456789ABCDEFabcdef')]. *)
Definition is_hex_digit (c : ascii) : bool :=
  is_digit c
  || ((65 <=? ord c) && (ord c <=? 70))
  || ((97 <=? ord c) && (ord c <=? 102)).

Definition hex_digit_value (c : ascii) : Z :=
  if is_digit c then ord c - 48
  else if (65 <=? ord c) && (ord c <=? 70) then ord c - 55
  else ord c - 87.

Fixpoint all_chars (p : ascii -> bool) (s : string) : bool :=
  match s with
  | EmptyString => true
  | String c r => p c && all_chars p r
  end.

(** [c in s] for a one-character [c]. *)
Fixpoint contains (c : ascii) (s : string) : bool :=
  match s with
  | EmptyString => false
  | String c' r => Ascii.eqb c' c || contains c r
  end.

(** [s[0] == c] for a non-empty [s]. *)
Definition first_char_is (c : ascii) (s : string) : bool :=
  match s with String c' _ => Ascii.eqb c' c | EmptyString => false end.

Definition len (s : string) : Z := Z.of_nat (String.length s).

(** [not s]: the empty string is the only falsy one. *)
Definition is_empty (s : string) : bool :=
  match s with EmptyString => true | _ => false end.

(** [s.isascii() and s.isdigit()]: non-empty and made of ['0'..'9']. *)
Definition isascii_isdigit (s : string) : bool :=
  negb (is_empty s) && all_chars is_digit s.

(** [s.split(sep)] for a one-character separator: always at least one
    field, empty fields kept. *)
Fixpoint split (sep : ascii) (s : string) : list string :=
  match s with
  | EmptyString => [EmptyString]
  | String c r =>
      if Ascii.eqb c sep then EmptyString :: split sep r
      else match split sep r with
           | h :: t => String c h :: t
           | [] => [String c EmptyString]
           end
  end.

(** [sep.join(parts)]. *)
Definition join (sep : string) (parts : list string) : string :=
  String.concat sep parts.

(** [s.partition(sep)] for a one-character separator. *)
Fixpoint partition (sep : ascii) (s : string) : string * string * string :=
  match s with
  | EmptyString => (EmptyString, EmptyString, EmptyString)
  | String c r =>
      if Ascii.eqb c sep then (EmptyString, String sep EmptyString, r)
      else let '(a, m, b) := partition sep r in (String c a, m, b)
  end.

(** [s.lstrip(chars)] for a one-character [chars]. *)
Fixpoint lstrip (c : ascii) (s : string) : string :=
  match s with
  | EmptyString => EmptyString
  | String c' r => if Ascii.eqb c' c then lstrip c r else s
  end.

(** [s.replace(old, new)] for a non-empty [old]: the occurrences are found
    from left to right and do not overlap.  [skip] counts the characters of
    a matched occurrence that are still to be dropped. *)
Fixpoint replace_from (old new : string) (skip : nat) (s : string) : string :=
  match s with
  | EmptyString => EmptyString
  | String c r =>
      match skip with
      | S k => replace_from old new k r
      | O =>
          if String.prefix old s
          then new ++ replace_from old new (Nat.pred (String.length old)) r
          else String c (replace_from old new O r)
      end
  end.

(** With an empty [old] Python puts [new] before every character and at
    the end. *)
Fixpoint intersperse (new : string) (s : string) : string :=
  match s with
  | EmptyString => new
  | String c r => new ++ String c (intersperse new r)
  end.

Definition replace (old new : string) (s : string) : string :=
  if is_empty old then intersperse new s else replace_from old new O s.

(** The value of a string of decimal digits, most significant first. *)
Definition int_of_digits (base : Z) (value : ascii -> Z) (s : string) : Z :=
  fold_left (fun acc c => acc * base + value c) (list_ascii_of_string s) 0.

(** The digits of a non-negative [n], least significant first, at least
    one.  [fuel] bounds the number of digits. *)
Fixpoint digits_rev (base : Z) (fuel : nat) (n : Z) : list Z :=
  match fuel with
  | O => []
  | S f =>
      n mod base :: (if n / base =? 0 then [] else digits_rev base f (n / base))
  end.

Definition digits (base : Z) (n : Z) : list Z :=
  rev (digits_rev base (S (Z.to_nat (Z.log2 n))) n).

Definition digit_char (d : Z) : ascii :=
  if d <? 10 then chr (48 + d) else chr (87 + d).

(** [str(n)] for [n >= 0]. *)
Definition str (n : Z) : string :=
  string_of_list_ascii (map digit_char (digits 10 n)).

(** ['%x' % n] for [n >= 0]. *)
Definition format_x (n : Z) : string :=
  string_of_list_ascii (map digit_char (digits 16 n)).

(** [s.zfill]-style left padding with ['0'] to [width] characters. *)
Definition pad0 (width : nat) (s : string) : string :=
  string_of_list_ascii (repeat "0"%char (width - String.length s)) ++ s.

(** ['%032x' % n] for [n >= 0]. *)
Definition format_032x (n : Z) : string := pad0 32 (format_x n).

(** *** [int] on a text

    A text is held as the bytes of its UTF-8 encoding.  [int(s)] goes
    through [PyLong_FromUnicodeObject]: the code points are first turned
    into ASCII ([_PyUnicode_TransformDecimalAndSpaceToASCII]), then read by
    [PyLong_FromString]. *)

(** A continuation byte of a UTF-8 sequence. *)
Definition is_continuation (b : Z) : bool := (128 <=? b) && (b <=? 191).

(** The code points of a text from its bytes; [None] for bytes that no text
    encodes to (stray or missing continuation bytes, overlong forms,
    surrogates, anything above U+10FFFF). *)
Fixpoint utf8_decode (l : list ascii) : option (list Z) :=
  match l with
  | [] => Some []
  | c0 :: r0 =>
      let b0 := ord c0 in
      if b0 <? 128 then option_map (cons b0) (utf8_decode r0)
      else
        match r0 with
        | [] => None
        | c1 :: r1 =>
            let b1 := ord c1 in
            if (192 <=? b0) && (b0 <=? 223) then
              let cp := (b0 - 192) * 64 + (b1 - 128) in
              if is_continuation b1 && (128 <=? cp)
              then option_map (cons cp) (utf8_decode r1)
              else None
            else
              match r1 with
              | [] => None
              | c2 :: r2 =>
                  let b2 := ord c2 in
                  if (224 <=? b0) && (b0 <=? 239) then
                    let cp := (b0 - 224) * 4096 + (b1 - 128) * 64 + (b2 - 128) in
                    if is_continuation b1 && is_continuation b2
                       && (2048 <=? cp)
                       && negb ((55296 <=? cp) && (cp <=? 57343))
                    then option_map (cons cp) (utf8_decode r2)
                    else None
                  else
                    match r2 with
                    | [] => None
                    | c3 :: r3 =>
                        let b3 := ord c3 in
                        let cp := (b0 - 240) * 262144 + (b1 - 128) * 4096
                                  + (b2 - 128) * 64 + (b3 - 128) in
                        if (240 <=? b0) && (b0 <=? 247)
                           && is_continuation b1 && is_continuation b2
                           && is_continuation b3
                           && (65536 <=? cp) && (cp <=? 1114111)
                        then option_map (cons cp) (utf8_decode r3)
                        else None
                    end
              end
        end
  end.

(** [Py_UNICODE_ISSPACE] on the code points from 128 on. *)
Definition unicode_isspace (cp : Z) : bool :=
  (cp =? 133) || (cp =? 160) || (cp =? 5760)
  || ((8192 <=? cp) && (cp <=? 8202))
  || (cp =? 8232) || (cp =? 8233) || (cp =? 8239) || (cp =? 8287)
  || (cp =? 12288).

(** The decimal digits of the Unicode database of the interpreter (version
    14.0.0), as runs (first code point, length): a run starts at a digit
    zero and goes through the digits 0 to 9 in order, once or several
    times. *)
Definition decimal_digit_runs : list (Z * Z) :=
  [ (48, 10); (1632, 10); (1776, 10); (1984, 10); (2406, 10); (2534, 10);
    (2662, 10); (2790, 10); (2918, 10); (3046, 10); (3174, 10); (3302, 10);
    (3430, 10); (3558, 10); (3664, 10); (3792, 10); (3872, 10); (4160, 10);
    (4240, 10); (6112, 10); (6160, 10); (6470, 10); (6608, 10); (6784, 10);
    (6800, 10); (6992, 10); (7088, 10); (7232, 10); (7248, 10);
    (42528, 10); (43216, 10); (43264, 10); (43472, 10); (43504, 10);
    (43600, 10); (44016, 10); (65296, 10); (66720, 10); (68912, 10);
    (69734, 10); (69872, 10); (69942, 10); (70096, 10); (70384, 10);
    (70736, 10); (70864, 10); (71248, 10); (71360, 10); (71472, 10);
    (71904, 10); (72016, 10); (72784, 10); (73040, 10); (73120, 10);
    (92768, 10); (92864, 10); (93008, 10); (120782, 50); (123200, 10);
    (123632, 10); (125264, 10); (130032, 10) ].

(** [Py_UNICODE_TODECIMAL]: the value of a decimal digit, [None] for any
    other code point. *)
Definition unicode_todecimal (cp : Z) : option Z :=
  match
    find (fun run => (fst run <=? cp) && (cp <? fst run + snd run))
         decimal_digit_runs
  with
  | Some run => Some ((cp - fst run) mod 10)
  | None => None
  end.

(** [_PyUnicode_TransformDecimalAndSpaceToASCII]: a code point below 127
    stays, a space becomes [' '], a decimal digit becomes its ASCII digit;
    at any other code point the result ends with ['?']. *)
Fixpoint transform_decimal_and_space_to_ascii (cps : list Z) : list ascii :=
  match cps with
  | [] => []
  | cp :: r =>
      if cp <? 127 then chr cp :: transform_decimal_and_space_to_ascii r
      else if unicode_isspace cp
      then " "%char :: transform_decimal_and_space_to_ascii r
      else
        match unicode_todecimal cp with
        | Some d => chr (48 + d) :: transform_decimal_and_space_to_ascii r
        | None => [ "?"%char ]
        end
  end.

(** [Py_ISSPACE]: the characters [PyLong_FromString] skips at both ends. *)
Definition is_space (c : ascii) : bool :=
  (ord c =? 32) || ((9 <=? ord c) && (ord c <=? 13)).

Fixpoint lstrip_space (l : list ascii) : list ascii :=
  match l with
  | c :: r => if is_space c then lstrip_space r else l
  | [] => []
  end.

Definition strip_space (l : list ascii) : list ascii :=
  rev (lstrip_space (rev (lstrip_space l))).

(** Digits with single underscores between them: [None] when the text is
    not of that shape, else the digit characters in order. *)
Fixpoint digits_with_underscores (prev_digit : bool) (l : list ascii)
  : option (list ascii) :=
  match l with
  | [] => if prev_digit then Some [] else None
  | c :: r =>
      if is_digit c then
        option_map (cons c) (digits_with_underscores true r)
      else if Ascii.eqb c "_" && prev_digit then
        digits_with_underscores false r
      else None
  end.

(** [sys.get_int_max_str_digits()] at its default. *)
Definition int_max_str_digits : nat := 4300.

(** [PyLong_FromString(buffer, &end, 10)] with the check that the whole
    buffer was read: surrounding whitespace, one optional sign, decimal
    digits with single underscores inside; more digit characters than
    [int_max_str_digits] raise as well. *)
Definition int_of_ascii (buffer : list ascii) : result Z :=
  let body := strip_space buffer in
  let '(negative, unsigned) :=
    match body with
    | c :: r =>
        if Ascii.eqb c "-" then (true, r)
        else if Ascii.eqb c "+" then (false, r)
        else (false, body)
    | [] => (false, body)
    end in
  match digits_with_underscores false unsigned with
  | None => Raise ValueError
  | Some ds =>
      if Nat.ltb int_max_str_digits (List.length ds) then Raise ValueError
      else
        let v := fold_left (fun acc c => acc * 10 + digit_value c) ds 0 in
        Ok (if negative then - v else v)
  end.

(** [int(s)] for a text [s]: Unicode spaces and decimal digits count as
    their ASCII counterparts.  Bytes that are no text have no [int]; the
    model raises [ValueError] on them. *)
Definition int (s : string) : result Z :=
  match utf8_decode (list_ascii_of_string s) with
  | None => Raise ValueError
  | Some cps => int_of_ascii (transform_decimal_and_space_to_ascii cps)
  end.

End Py.

(** ** The standard-library module [ipaddress] (CPython 3.11) *)

Module ipaddress.

Inductive version : Type := v4 | v6.

Definition version_number (v : version) : Z :=
  match v with v4 => 4 | v6 => 6 end.

Definition version_eqb (a b : version) : bool :=
  match a, b with
  | v4, v4 | v6, v6 => true
  | _, _ => false
  end.

(** [_max_prefixlen] and [_ALL_ONES] of [_BaseV4] / [_BaseV6]. *)
Definition _max_prefixlen (v : version) : Z :=
  match v with v4 => 32 | v6 => 128 end.

Definition _ALL_ONES (v : version) : Z := 2 ^ _max_prefixlen v - 1.

(** An [IPv4Address] or [IPv6Address] object: the integer [_ip] and, for
    version 6, the [_scope_id] ([None] when the text had no ['%'] part). *)
Record address : Type := mkAddress {
  addr_version : version;
  _ip : Z;
  _scope_id : option string
}.

(** [_address_class(x)] for an integer [x]: no scope id. *)
Definition _address_class (v : version) (x : Z) : address :=
  mkAddress v x None.

(** *** IPv4 text *)

Module _BaseV4.

Definition _parse_octet (octet_str : string) : result Z :=
  if Py.is_empty octet_str then Raise ValueError
  else if negb (Py.isascii_isdigit octet_str) then Raise ValueError
  else if 3 <? Py.len octet_str then Raise ValueError
  else if negb (String.eqb octet_str "0")
          && Py.first_char_is "0" octet_str
       then Raise ValueError
  else
    let octet_int := Py.int_of_digits 10 Py.digit_value octet_str in
    if 255 <? octet_int then Raise ValueError else Ok octet_int.

(** [int.from_bytes(octets, 'big')]. *)
Definition int_from_bytes (octets : list Z) : Z :=
  fold_left (fun acc b => acc * 256 + b) octets 0.

Definition _ip_int_from_string (ip_str : string) : result Z :=
  if Py.is_empty ip_str then Raise AddressValueError
  else
    let octets := Py.split "." ip_str in
    if negb (Z.of_nat (List.length octets) =? 4) then Raise AddressValueError
    else
      reraise_ValueError_as AddressValueError
        (bs <- mapM _parse_octet octets ;; Ok (int_from_bytes bs)).

(** [ip_int.to_bytes(4, 'big')]. *)
Definition to_bytes4 (ip_int : Z) : list Z :=
  [ (ip_int / 16777216) mod 256; (ip_int / 65536) mod 256;
    (ip_int / 256) mod 256; ip_int mod 256 ].

Definition _string_from_ip_int (ip_int : Z) : string :=
  Py.join "." (map Py.str (to_bytes4 ip_int)).

End _BaseV4.

(** [IPv4Address(address)] for a string argument. *)
Definition IPv4Address (addr_str : string) : result address :=
  if Py.contains "/" addr_str then Raise AddressValueError
  else
    ip <- _BaseV4._ip_int_from_string addr_str ;;
    Ok (mkAddress v4 ip None).

(** *** IPv6 text *)

Module _BaseV6.

Definition _HEXTET_COUNT : Z := 8.

Definition _parse_hextet (hextet_str : string) : result Z :=
  if negb (Py.all_chars Py.is_hex_digit hextet_str) then Raise ValueError
  else if 4 <? Py.len hextet_str then Raise ValueError
  else if Py.is_empty hextet_str then Raise ValueError
  else Ok (Py.int_of_digits 16 Py.hex_digit_value hextet_str).

(** The loop that looks for the one empty part strictly between the two
    ends: [parts] are the parts at indexes [i], [i+1], ... still to be
    inspected. *)
Fixpoint find_skip_index (parts : list string) (i : Z) (skip_index : option Z)
  : result (option Z) :=
  match parts with
  | [] => Ok skip_index
  | p :: rest =>
      if Py.is_empty p then
        match skip_index with
        | Some _ => Raise AddressValueError
        | None => find_skip_index rest (i + 1) (Some i)
        end
      else find_skip_index rest (i + 1) skip_index
  end.

(** [ip_int <<= 16; ip_int |= _parse_hextet(part)] over [parts]. *)
Fixpoint parse_hextets (parts : list string) (ip_int : Z) : result Z :=
  match parts with
  | [] => Ok ip_int
  | p :: rest =>
      h <- _parse_hextet p ;;
      parse_hextets rest (Z.lor (Z.shiftl ip_int 16) h)
  end.

(** [parts[lo:hi]] for [0 <= lo <= hi]. *)
Definition slice (parts : list string) (lo hi : Z) : list string :=
  firstn (Z.to_nat (hi - lo)) (skipn (Z.to_nat lo) parts).

Definition _ip_int_from_string (ip_str : string) : result Z :=
  if Py.is_empty ip_str then Raise AddressValueError
  else
    let parts := Py.split ":" ip_str in
    if Z.of_nat (List.length parts) <? 3 then Raise AddressValueError
    else
      (* an IPv4-style suffix is turned into two hextets *)
      parts <-
        (if Py.contains "." (last parts "")
         then
           (* [except AddressValueError] re-raises the same class *)
           a <- IPv4Address (last parts "") ;;
           Ok (removelast parts
               ++ [ Py.format_x (Z.land (Z.shiftr (_ip a) 16) 65535);
                    Py.format_x (Z.land (_ip a) 65535) ])%list
         else Ok parts) ;;
      let n := Z.of_nat (List.length parts) in
      if _HEXTET_COUNT + 1 <? n then Raise AddressValueError
      else
        skip_index <- find_skip_index (slice parts 1 (n - 1)) 1 None ;;
        counts <-
          match skip_index with
          | Some skip_index =>
              let parts_hi := skip_index in
              let parts_lo := n - skip_index - 1 in
              parts_hi <-
                (if Py.is_empty (nth 0 parts "")
                 then if negb (parts_hi - 1 =? 0)
                      then Raise AddressValueError else Ok (parts_hi - 1)
                 else Ok parts_hi) ;;
              parts_lo <-
                (if Py.is_empty (last parts "")
                 then if negb (parts_lo - 1 =? 0)
                      then Raise AddressValueError else Ok (parts_lo - 1)
                 else Ok parts_lo) ;;
              let parts_skipped := _HEXTET_COUNT - (parts_hi + parts_lo) in
              if parts_skipped <? 1 then Raise AddressValueError
              else Ok (parts_hi, parts_lo, parts_skipped)
          | None =>
              if negb (n =? _HEXTET_COUNT) then Raise AddressValueError
              else if Py.is_empty (nth 0 parts "") then Raise AddressValueError
              else if Py.is_empty (last parts "") then Raise AddressValueError
              else Ok (n, 0, 0)
          end ;;
        let '(parts_hi, parts_lo, parts_skipped) := counts in
        reraise_ValueError_as AddressValueError
          (ip_int <- parse_hextets (slice parts 0 parts_hi) 0 ;;
           let ip_int := Z.shiftl ip_int (16 * parts_skipped) in
           parse_hextets (slice parts (n - parts_lo) n) ip_int).



(** [_compress_hextets]: the scan for the longest run of ["0"] hextets.
    The state is (best_doublecolon_start, best_doublecolon_len,
    doublecolon_start, doublecolon_len). *)
Definition scan_step (st : Z * Z * Z * Z) (ih : Z * string) : Z * Z * Z * Z :=
  let '(best_start, best_len, start, len) := st in
  let '(index, hextet) := ih in
  if String.eqb hextet "0" then
    let len := len + 1 in
    let start := if start =? -1 then index else start in
    if best_len <? len then (start, len, start, len)
    else (best_start, best_len, start, len)
  else (best_start, best_len, -1, 0).

(** [enumerate(l)] starting at [i]. *)
Fixpoint enumerate_from {A : Type} (i : Z) (l : list A) : list (Z * A) :=
  match l with
  | [] => []
  | x :: r => (i, x) :: enumerate_from (i + 1) r
  end.

Definition _compress_hextets (hextets : list string) : list string :=
  let '(best_doublecolon_start, best_doublecolon_len, _, _) :=
    fold_left scan_step (enumerate_from 0 hextets) (-1, 0, -1, 0) in
  if 1 <? best_doublecolon_len then
    let best_doublecolon_end := best_doublecolon_start + best_doublecolon_len in
    let hextets :=
      if best_doublecolon_end =? Z.of_nat (List.length hextets)
      then (hextets ++ [""])%list else hextets in
    let hextets :=
      (firstn (Z.to_nat best_doublecolon_start) hextets
       ++ [""] ++ skipn (Z.to_nat best_doublecolon_end) hextets)%list in
    if best_doublecolon_start =? 0 then "" :: hextets else hextets
  else hextets.

(** [[hex_str[x:x+4] for x in range(0, 32, 4)]]. *)
Definition chunks4 (hex_str : string) : list string :=
  map (fun x => String.substring x 4 hex_str) [0; 4; 8; 12; 16; 20; 24; 28]%nat.

(** [_string_from_ip_int], for [0 <= ip_int <= _ALL_ONES]; the guard that
    raises on a larger integer is never reached from an address object
    (see [address_in_range]). *)
Definition _string_from_ip_int (ip_int : Z) : string :=
  let hex_str := Py.format_032x ip_int in
  let hextets :=
    map (fun c => Py.format_x (Py.int_of_digits 16 Py.hex_digit_value c))
        (chunks4 hex_str) in
  Py.join ":" (_compress_hextets hextets).

Definition _split_scope_id (ip_str : string) : result (string * option string) :=
  let '(addr, sep, scope_id) := Py.partition "%" ip_str in
  if Py.is_empty sep then Ok (addr, None)
  else if Py.is_empty scope_id || Py.contains "%" scope_id
       then Raise AddressValueError
  else Ok (addr, Some scope_id).

End _BaseV6.

(** [IPv6Address(address)] for a string argument. *)
Definition IPv6Address (addr_str : string) : result address :=
  if Py.contains "/" addr_str then Raise AddressValueError
  else
    split <- _BaseV6._split_scope_id addr_str ;;
    let '(addr_str, scope_id) := split in
    ip <- _BaseV6._ip_int_from_string addr_str ;;
    Ok (mkAddress v6 ip scope_id).

(** [str(a)]: [_BaseAddress.__str__], extended by [IPv6Address.__str__]
    with the scope id. *)
Definition str (a : address) : string :=
  match addr_version a with
  | v4 => _BaseV4._string_from_ip_int (_ip a)
  | v6 =>
      let ip_str := _BaseV6._string_from_ip_int (_ip a) in
      match _scope_id a with
      | Some scope_id =>
          if Py.is_empty scope_id then ip_str
          else ip_str ++ "%" ++ scope_id
      | None => ip_str
      end
  end.

(** The [compressed] property. *)
Definition compressed (a : address) : string := str a.

(** The [exploded] property: [_explode_shorthand_ip_string].  For version 6
    the text of [str(self)], scope id included, is parsed again. *)
Definition exploded (a : address) : result string :=
  match addr_version a with
  | v4 => Ok (str a)
  | v6 =>
      let ip_str := str a in
      ip_int <- _BaseV6._ip_int_from_string ip_str ;;
      let hex_str := Py.format_032x ip_int in
      Ok (Py.join ":" (_BaseV6.chunks4 hex_str))
  end.

(** [try: r  except (AddressValueError, NetmaskValueError): pass], then
    [otherwise]. *)
Definition try_or_else {A : Type} (r : result A) (otherwise : result A) : result A :=
  match r with
  | Ok a => Ok a
  | Raise e => if is_address_or_netmask_error e then otherwise else Raise e
  end.

Definition ip_address (addr_str : string) : result address :=
  try_or_else (IPv4Address addr_str)
    (try_or_else (IPv6Address addr_str) (Raise ValueError)).


(** *** Networks *)

(** An [IPv4Network] or [IPv6Network] object.  The netmask is determined
    by the prefix length (see [netmask]). *)
Record network : Type := mkNetwork {
  net_version : version;
  network_address : address;
  _prefixlen : Z
}.

(** [_ip_int_from_prefix]. *)
Definition _ip_int_from_prefix (v : version) (prefixlen : Z) : Z :=
  Z.lxor (_ALL_ONES v) (Z.shiftr (_ALL_ONES v) prefixlen).

(** [int(self.netmask)], [int(self.hostmask)], [int(self.broadcast_address)]. *)
Definition netmask (n : network) : Z :=
  _ip_int_from_prefix (net_version n) (_prefixlen n).

Definition hostmask (n : network) : Z :=
  Z.lxor (netmask n) (_ALL_ONES (net_version n)).

Definition broadcast_int (n : network) : Z :=
  Z.lor (_ip (network_address n)) (hostmask n).

Definition broadcast_address (n : network) : address :=
  _address_class (net_version n) (broadcast_int n).

Definition num_addresses (n : network) : Z :=
  broadcast_int n - _ip (network_address n) + 1.

(** [x.bit_length()]. *)
Definition bit_length (x : Z) : Z :=
  if x =? 0 then 0 else Z.log2 (Z.abs x) + 1.

Definition _count_righthand_zero_bits (number bits : Z) : Z :=
  if number =? 0 then bits
  else Z.min bits (bit_length (Z.land (Z.lnot number) (number - 1))).

Definition _prefix_from_ip_int (v : version) (ip_int : Z) : result Z :=
  let trailing_zeroes := _count_righthand_zero_bits ip_int (_max_prefixlen v) in
  let prefixlen := _max_prefixlen v - trailing_zeroes in
  let leading_ones := Z.shiftr ip_int trailing_zeroes in
  let all_ones := Z.shiftl 1 prefixlen - 1 in
  if negb (leading_ones =? all_ones) then Raise ValueError
  else Ok prefixlen.

Definition _prefix_from_prefix_string (v : version) (prefixlen_str : string)
  : result Z :=
  if negb (Py.isascii_isdigit prefixlen_str) then Raise NetmaskValueError
  else
    prefixlen <- reraise_ValueError_as NetmaskValueError (Py.int prefixlen_str) ;;
    if negb ((0 <=? prefixlen) && (prefixlen <=? _max_prefixlen v))
    then Raise NetmaskValueError
    else Ok prefixlen.

(** [_prefix_from_ip_string], reached for version 4 only: the text is a
    netmask or, failing that, a hostmask in dotted-quad form. *)
Definition _prefix_from_ip_string (ip_str : string) : result Z :=
  match _BaseV4._ip_int_from_string ip_str with
  | Raise e =>
      if is_address_or_netmask_error e then Raise NetmaskValueError else Raise e
  | Ok ip_int =>
      match _prefix_from_ip_int v4 ip_int with
      | Ok prefixlen => Ok prefixlen
      | Raise _ =>
          let ip_int := Z.lxor ip_int (_ALL_ONES v4) in
          reraise_ValueError_as NetmaskValueError (_prefix_from_ip_int v4 ip_int)
      end
  end.

(** [_make_netmask(arg)]: [arg] is [None] when the text had no ['/'] part
    (the caller then passes the integer [_max_prefixlen]).  The result is
    the prefix length; [_netmask_cache] only memoises it. *)
Definition _make_netmask (v : version) (arg : option string) : result Z :=
  match arg with
  | None => Ok (_max_prefixlen v)
  | Some arg =>
      match v with
      | v4 =>
          match _prefix_from_prefix_string v4 arg with
          | Ok prefixlen => Ok prefixlen
          | Raise NetmaskValueError => _prefix_from_ip_string arg
          | Raise e => Raise e
          end
      | v6 => _prefix_from_prefix_string v6 arg
      end
  end.

(** [_split_addr_prefix] on a string, through [_split_optional_netmask]. *)
Definition _split_addr_prefix (address_str : string)
  : result (string * option string) :=
  match Py.split "/" address_str with
  | [addr] => Ok (addr, None)
  | [addr; mask] => Ok (addr, Some mask)
  | _ => Raise AddressValueError
  end.

(** [IPv4Network(address)] and [IPv6Network(address)] with [strict=True]. *)
Definition make_network (v : version) (address_str : string) : result network :=
  split <- _split_addr_prefix address_str ;;
  let '(addr, mask) := split in
  network_address <-
    (match v with v4 => IPv4Address addr | v6 => IPv6Address addr end) ;;
  prefixlen <- _make_netmask v mask ;;
  let packed := _ip network_address in
  if negb (Z.land packed (_ip_int_from_prefix v prefixlen) =? packed)
  then Raise ValueError
  else Ok (mkNetwork v network_address prefixlen).

Definition IPv4Network : string -> result network := make_network v4.
Definition IPv6Network : string -> result network := make_network v6.

Definition ip_network (address_str : string) : result network :=
  try_or_else (IPv4Network address_str)
    (try_or_else (IPv6Network address_str) (Raise ValueError)).

(** [other in self] for an address [other]: [_BaseNetwork.__contains__]. *)
Definition contains (n : network) (other : address) : bool :=
  version_eqb (net_version n) (addr_version other)
  && (Z.land (_ip other) (netmask n) =? _ip (network_address n)).

(** *** Iterating over hosts *)

(** What [hosts()] returns, as an iterator: a generator over
    [range(next, stop)] that builds [_address_class(x)], or the iterator of
    a list of addresses. *)
Inductive iterator : Type :=
| range_iterator (v : version) (next stop : Z)
| list_iterator (items : list address).

(** [next(it)]: [None] is [StopIteration]. *)
Definition iterator_next (it : iterator) : option (address * iterator) :=
  match it with
  | range_iterator v next stop =>
      if next <? stop
      then Some (_address_class v next, range_iterator v (next + 1) stop)
      else None
  | list_iterator [] => None
  | list_iterator (a :: rest) => Some (a, list_iterator rest)
  end.

(** [self.hosts()].  The constructor rebinds [hosts] for the two longest
    prefixes: [__iter__] for [_max_prefixlen - 1], and the one-element list
    [[IPvNAddress(addr)]] for [_max_prefixlen], whose element is the object
    [network_address] was built as. *)
Definition hosts (n : network) : iterator :=
  let v := net_version n in
  let network := _ip (network_address n) in
  let broadcast := broadcast_int n in
  if _prefixlen n =? _max_prefixlen v - 1 then
    range_iterator v network (broadcast + 1)
  else if _prefixlen n =? _max_prefixlen v then
    list_iterator [network_address n]
  else
    match v with
    | v4 => range_iterator v (network + 1) broadcast
    | v6 => range_iterator v (network + 1) (broadcast + 1)
    end.

(** *** Classification properties *)

(** A network constant written as a literal in the module. *)
Definition literal (v : version) (s : string) : network :=
  match make_network v s with
  | Ok n => n
  | Raise _ => mkNetwork v (mkAddress v 0 None) (_max_prefixlen v)
  end.

Module _IPv4Constants.
Definition _multicast_network : network := literal v4 "224.0.0.0/4".
Definition _private_networks : list network :=
  map (literal v4)
    [ "0.0.0.0/8"; "10.0.0.0/8"; "127.0.0.0/8"; "169.254.0.0/16";
      "172.16.0.0/12"; "192.0.0.0/24"; "192.0.0.170/31"; "192.0.2.0/24";
      "192.168.0.0/16"; "198.18.0.0/15"; "198.51.100.0/24";
      "203.0.113.0/24"; "240.0.0.0/4"; "255.255.255.255/32" ].
Definition _private_networks_exceptions : list network :=
  map (literal v4) [ "192.0.0.9/32"; "192.0.0.10/32" ].
Definition _reserved_network : network := literal v4 "240.0.0.0/4".
End _IPv4Constants.

Module _IPv6Constants.
Definition _multicast_network : network := literal v6 "ff00::/8".
Definition _private_networks : list network :=
  map (literal v6)
    [ "::1/128"; "::/128"; "::ffff:0:0/96"; "64:ff9b:1::/48"; "100::/64";
      "2001::/23"; "2001:db8::/32"; "2002::/16"; "fc00::/7"; "fe80::/10" ].
Definition _private_networks_exceptions : list network :=
  map (literal v6)
    [ "2001:1::1/128"; "2001:1::2/128"; "2001:3::/32"; "2001:4:112::/48";
      "2001:20::/28"; "2001:30::/28" ].
Definition _reserved_networks : list network :=
  map (literal v6)
    [ "::/8"; "100::/8"; "200::/7"; "400::/6"; "800::/5"; "1000::/4";
      "4000::/3"; "6000::/3"; "8000::/3"; "A000::/3"; "C000::/3";
      "E000::/4"; "F000::/5"; "F800::/6"; "FE00::/9" ].
End _IPv6Constants.

(** [any(self in net for net in nets)]. *)
Definition in_any (a : address) (nets : list network) : bool :=
  existsb (fun net => contains net a) nets.

(** The [ipv4_mapped] property of a version 6 address. *)
Definition ipv4_mapped (a : address) : option address :=
  if negb (Z.shiftr (_ip a) 32 =? 65535) then None
  else Some (mkAddress v4 (Z.land (_ip a) 4294967295) None).

Definition is_private_v4 (a : address) : bool :=
  in_any a _IPv4Constants._private_networks
  && negb (in_any a _IPv4Constants._private_networks_exceptions).

Definition is_private (a : address) : bool :=
  match addr_version a with
  | v4 => is_private_v4 a
  | v6 =>
      match ipv4_mapped a with
      | Some mapped => is_private_v4 mapped
      | None =>
          in_any a _IPv6Constants._private_networks
          && negb (in_any a _IPv6Constants._private_networks_exceptions)
      end
  end.

Definition is_multicast (a : address) : bool :=
  match addr_version a with
  | v4 => contains _IPv4Constants._multicast_network a
  | v6 => contains _IPv6Constants._multicast_network a
  end.

Definition is_reserved (a : address) : bool :=
  match addr_version a with
  | v4 => contains _IPv4Constants._reserved_network a
  | v6 => in_any a _IPv6Constants._reserved_networks
  end.

(** The [version] property. *)
Definition version_of (a : address) : Z := version_number (addr_version a).

End ipaddress.

(** ** The functions of [ip_addresses.py] *)

Definition ip_is_private (ip : string) : result bool :=
  a <- ipaddress.ip_address ip ;; Ok (ipaddress.is_private a).

Definition ip_is_multicast (ip : string) : result bool :=
  a <- ipaddress.ip_address ip ;; Ok (ipaddress.is_multicast a).

Definition ip_is_public (ip : string) : result bool :=
  ip <- ipaddress.ip_address ip ;;
  Ok (negb (ipaddress.is_multicast ip) && negb (ipaddress.is_private ip)).

(** [try: ... except ValueError: return False  else: return True]. *)
Definition is_ip_address (text : string) : result bool :=
  match ipaddress.ip_address text with
  | Ok _ => Ok true
  | Raise e => if is_ValueError e then Ok false else Raise e
  end.

Definition ip_is_reserved (ip : string) : result bool :=
  a <- ipaddress.ip_address ip ;; Ok (ipaddress.is_reserved a).

Definition ip_version (ip : string) : result Z :=
  a <- ipaddress.ip_address ip ;; Ok (ipaddress.version_of a).

Definition ip_network_block_first_address (network_block : string) : result string :=
  ip_network <- ipaddress.ip_network network_block ;;
  Ok (ipaddress.str (ipaddress.network_address ip_network)).

Definition ip_network_block_last_address (network_block : string) : result string :=
  ip_network <- ipaddress.ip_network network_block ;;
  Ok (ipaddress.str (ipaddress.broadcast_address ip_network)).

Definition ip_network_block_ip_count (network_block_string : string) : result Z :=
  ip <- ipaddress.ip_network network_block_string ;;
  Ok (ipaddress.num_addresses ip).

Definition ip_network_block_to_range (network_block_string : string) : result string :=
  ip <- ipaddress.ip_network network_block_string ;;
  Ok (ipaddress.str (ipaddress.network_address ip) ++ " - "
      ++ ipaddress.str (ipaddress.broadcast_address ip)).

(** *** The generator [ip_network_block_enumerate]

    Calling the function runs none of its body: it returns a generator
    object.  The object is modelled by the point at which its body is
    suspended; [generator_next] is one call of [next()] on it. *)

Inductive generator : Type :=
| gen_created (network_block_string : string)
    (* not started *)
| gen_at_network (ip : ipaddress.network)
    (* suspended at [yield str(ip.network_address)] *)
| gen_in_hosts (ip : ipaddress.network) (it : ipaddress.iterator)
    (* suspended inside [yield from (str(ip) for ip in ip.hosts())] *)
| gen_at_broadcast
    (* suspended at [yield str(ip.broadcast_address)] *)
| gen_finished.

Inductive outcome : Type :=
| Yielded (value : string)
| StopIteration
| Raised (e : exn).

Definition ip_network_block_enumerate (network_block_string : string) : generator :=
  gen_created network_block_string.

(** Resuming inside [yield from]: the next host, or, when the hosts are
    exhausted, on to the last [yield]. *)
Definition resume_hosts (ip : ipaddress.network) (it : ipaddress.iterator)
  : outcome * generator :=
  match ipaddress.iterator_next it with
  | Some (a, it') => (Yielded (ipaddress.str a), gen_in_hosts ip it')
  | None => (Yielded (ipaddress.str (ipaddress.broadcast_address ip)), gen_at_broadcast)
  end.

Definition generator_next (g : generator) : outcome * generator :=
  match g with
  | gen_created network_block_string =>
      match ipaddress.ip_network network_block_string with
      | Raise e => (Raised e, gen_finished)
      | Ok ip => (Yielded (ipaddress.str (ipaddress.network_address ip)), gen_at_network ip)
      end
  | gen_at_network ip => resume_hosts ip (ipaddress.hosts ip)
  | gen_in_hosts ip it => resume_hosts ip it
  | gen_at_broadcast => (StopIteration, gen_finished)
  | gen_finished => (StopIteration, gen_finished)
  end.

(** The number of elements an iterator still has. *)
Definition iterator_size (it : ipaddress.iterator) : nat :=
  match it with
  | ipaddress.range_iterator _ next stop => Z.to_nat (stop - next)
  | ipaddress.list_iterator items => List.length items
  end.

(** The number of [next()] calls a generator takes until it stops or raises:
    the bound the two consuming loops below run under. *)
Definition steps_left (g : generator) : nat :=
  match g with
  | gen_created network_block_string =>
      match ipaddress.ip_network network_block_string with
      | Raise _ => 1
      | Ok ip => 3 + iterator_size (ipaddress.hosts ip)
      end
  | gen_at_network ip => 2 + iterator_size (ipaddress.hosts ip)
  | gen_in_hosts _ it => 2 + iterator_size it
  | gen_at_broadcast => 1
  | gen_finished => 1
  end.

(** [list(g)]: [None] only if [fuel] calls of [next()] did not end the
    iteration. *)
Fixpoint collect (fuel : nat) (g : generator) : option (result (list string)) :=
  match fuel with
  | O => None
  | S fuel =>
      match generator_next g with
      | (Yielded v, g') =>
          match collect fuel g' with
          | Some (Ok l) => Some (Ok (v :: l))
          | other => other
          end
      | (StopIteration, _) => Some (Ok [])
      | (Raised e, _) => Some (Raise e)
      end
  end.

Definition list_of (g : generator) : option (result (list string)) :=
  collect (steps_left g) g.

(** [x in g] on a generator: [next()] until an element equal to [x] is
    found (then [True], the rest is not consumed) or the generator stops. *)
Fixpoint scan (fuel : nat) (x : string) (g : generator) : option (result bool) :=
  match fuel with
  | O => None
  | S fuel =>
      match generator_next g with
      | (Yielded v, g') => if String.eqb x v then Some (Ok true) else scan fuel x g'
      | (StopIteration, _) => Some (Ok false)
      | (Raised e, _) => Some (Raise e)
      end
  end.

Definition ip_in_network_block (ip_address network_block : string)
  : option (result bool) :=
  let addresses := ip_network_block_enumerate network_block in
  scan (steps_left addresses) ip_address addresses.

Definition ip_range_to_network_block (ip_range_string : string) : result string :=
  Raise NotImplementedError.

Definition ipv6_expand (ip_v6 : string) : result string :=
  a <- ipaddress.IPv6Address ip_v6 ;; ipaddress.exploded a.

Definition ipv6_compress (ip_v6 : string) : result string :=
  a <- ipaddress.IPv6Address ip_v6 ;; Ok (ipaddress.compressed a).

Definition ipv6_threatconnect_form (ip_v6 : string) : result string :=
  expanded <- ipv6_expand ip_v6 ;;
  let address_sections :=
    map (fun section => Py.lstrip "0" (Py.replace "0000" "xxxx" section))
        (Py.split ":" expanded) in
  let formatted_address_sections := Py.join ":" address_sections in
  Ok (Py.replace "xxxx" "0" formatted_address_sections).

Definition ipv4_sum (ipv4_address : string) : result Z :=
  sections <- mapM Py.int (Py.split "." ipv4_address) ;;
  Ok (fold_left Z.add sections 0).

(** *** The pattern [(?<![0-9.])[0-9]{1,2}\.[0-2]\.] *)

Module version_pattern.

(** The lookbehind [(?<![0-9.])]: [prev] is the character before the
    position, [None] at the start of the text. *)
Definition lookbehind (prev : option ascii) : bool :=
  match prev with
  | None => true
  | Some c => negb (Py.is_digit c || Ascii.eqb c ".")
  end.

(** [\.[0-2]\.] at the head of [s]. *)
Definition tail_at (s : string) : bool :=
  match s with
  | String a (String b (String c _)) =>
      Ascii.eqb a "." && ((48 <=? Py.ord b) && (Py.ord b <=? 50)) && Ascii.eqb c "."
  | _ => false
  end.

(** [[0-9]{1,2}\.[0-2]\.] at the head of [s]: the length of the match,
    two digits tried before one. *)
Definition match_at (s : string) : option nat :=
  match s with
  | String d r =>
      if Py.is_digit d then
        match r with
        | String d2 r2 =>
            if Py.is_digit d2 && tail_at r2 then Some 5%nat
            else if tail_at r then Some 4%nat else None
        | EmptyString => None
        end
      else None
  | EmptyString => None
  end.

(** [re.findall(pattern, s)]: the matches from left to right, the search
    resuming after the end of each match.  [skip] counts the characters of
    the last match still to be passed over. *)
Fixpoint findall_from (skip : nat) (prev : option ascii) (s : string)
  : list string :=
  match s with
  | EmptyString => []
  | String c r =>
      match skip with
      | S k => findall_from k (Some c) r
      | O =>
          match (if lookbehind prev then match_at s else None) with
          | Some n => String.substring 0 n s :: findall_from (Nat.pred n) (Some c) r
          | None => findall_from O (Some c) r
          end
      end
  end.

Definition findall (s : string) : list string := findall_from O None s.

End version_pattern.

Definition ipv4_is_possible_version_number (ipv4_address : string) : result bool :=
  match version_pattern.findall ipv4_address with
  | _ :: _ => Ok true
  | [] =>
      sum <- ipv4_sum ipv4_address ;;
      if sum <? 30 then Ok true else Ok false
  end.

(** * Properties *)

(** ** What the parsers can raise *)

Lemma try_or_else_raise {A : Type} (r otherwise : result A) (e : exn) :
  ipaddress.try_or_else r otherwise = Raise e ->
  (r = Raise e /\ is_address_or_netmask_error e = false)
  \/ ((exists e', r = Raise e' /\ is_address_or_netmask_error e' = true)
      /\ otherwise = Raise e).
Proof.
  unfold ipaddress.try_or_else.
  destruct r as [a | e0]; [discriminate |].
  destruct (is_address_or_netmask_error e0) eqn:He0; intros H.
  - right. split; [exists e0; auto | exact H].
  - left. inversion H; subst. auto.
Qed.

Lemma reraise_only {A : Type} (e' : exn) (r : result A) (e : exn) :
  reraise_ValueError_as e' r = Raise e ->
  e = e' \/ (r = Raise e /\ is_ValueError e = false).
Proof.
  unfold reraise_ValueError_as. destruct r as [a | e0]; [discriminate |].
  destruct (is_ValueError e0) eqn:He0; intros H; inversion H; subst; auto.
Qed.

Lemma mapM_raise {A B : Type} (f : A -> result B) (l : list A) (e : exn) :
  mapM f l = Raise e -> exists x, In x l /\ f x = Raise e.
Proof.
  induction l as [| x l IH]; simpl; [discriminate |].
  destruct (f x) as [y | e0] eqn:Hfx; simpl.
  - destruct (mapM f l) as [ys | e1]; simpl; [discriminate |].
    intros H; inversion H; subst.
    destruct (IH eq_refl) as [x' [Hin Hx']]. exists x'; auto.
  - intros H; inversion H; subst. exists x; auto.
Qed.

Lemma parse_octet_raises (s : string) (e : exn) :
  ipaddress._BaseV4._parse_octet s = Raise e -> e = ValueError.
Proof.
  unfold ipaddress._BaseV4._parse_octet.
  repeat match goal with
         | |- context [if ?b then _ else _] => destruct b
         end; intros H; inversion H; reflexivity.
Qed.

Lemma v4_ip_int_from_string_raises (s : string) (e : exn) :
  ipaddress._BaseV4._ip_int_from_string s = Raise e -> e = AddressValueError.
Proof.
  unfold ipaddress._BaseV4._ip_int_from_string.
  destruct (Py.is_empty s); [intros H; inversion H; reflexivity |].
  destruct (negb _); [intros H; inversion H; reflexivity |].
  intros H. apply reraise_only in H. destruct H as [H | [H Hv]]; [exact H |].
  exfalso.
  destruct (mapM ipaddress._BaseV4._parse_octet (Py.split "." s)) as [bs | e0] eqn:Hm;
    simpl in H; [discriminate |].
  inversion H; subst e0.
  apply mapM_raise in Hm. destruct Hm as [x [_ Hx]].
  apply parse_octet_raises in Hx. subst e. discriminate.
Qed.

Lemma IPv4Address_raises (s : string) (e : exn) :
  ipaddress.IPv4Address s = Raise e -> e = AddressValueError.
Proof.
  unfold ipaddress.IPv4Address.
  destruct (Py.contains "/" s); [intros H; inversion H; reflexivity |].
  destruct (ipaddress._BaseV4._ip_int_from_string s) as [ip | e0] eqn:Hp; simpl;
    [discriminate |].
  intros H; inversion H; subst. eapply v4_ip_int_from_string_raises; eauto.
Qed.

Lemma parse_hextet_raises (s : string) (e : exn) :
  ipaddress._BaseV6._parse_hextet s = Raise e -> e = ValueError.
Proof.
  unfold ipaddress._BaseV6._parse_hextet.
  repeat match goal with
         | |- context [if ?b then _ else _] => destruct b
         end; intros H; inversion H; reflexivity.
Qed.

Lemma parse_hextets_raises (parts : list string) (acc : Z) (e : exn) :
  ipaddress._BaseV6.parse_hextets parts acc = Raise e -> e = ValueError.
Proof.
  revert acc. induction parts as [| p parts IH]; simpl; intros acc; [discriminate |].
  destruct (ipaddress._BaseV6._parse_hextet p) as [h | e0] eqn:Hp; simpl.
  - apply IH.
  - intros H; inversion H; subst. eapply parse_hextet_raises; eauto.
Qed.

Lemma find_skip_index_raises (parts : list string) (i : Z) (k : option Z) (e : exn) :
  ipaddress._BaseV6.find_skip_index parts i k = Raise e -> e = AddressValueError.
Proof.
  revert i k. induction parts as [| p parts IH]; simpl; intros i k; [discriminate |].
  destruct (Py.is_empty p); [destruct k |]; try apply IH.
  intros H; inversion H; reflexivity.
Qed.

Lemma v6_ip_int_from_string_raises (s : string) (e : exn) :
  ipaddress._BaseV6._ip_int_from_string s = Raise e -> e = AddressValueError.
Proof.
  unfold ipaddress._BaseV6._ip_int_from_string.
  destruct (Py.is_empty s); [intros H; inversion H; reflexivity |].
  destruct (_ <? 3); [intros H; inversion H; reflexivity |].
  match goal with
  | |- bind ?r _ = _ -> _ => destruct r as [parts | e0] eqn:Hparts; simpl
  end.
  2:{ intros H; inversion H; subst e0.
      destruct (Py.contains "." _); [| discriminate].
      destruct (ipaddress.IPv4Address _) as [a | e1] eqn:H4; simpl in Hparts;
        [discriminate |].
      inversion Hparts; subst. eapply IPv4Address_raises; eauto. }
  destruct (_ <? _); [intros H; inversion H; reflexivity |].
  destruct (ipaddress._BaseV6.find_skip_index _ _ _) as [k | e0] eqn:Hk; simpl.
  2:{ intros H; inversion H; subst. eapply find_skip_index_raises; eauto. }
  match goal with
  | |- bind ?r _ = _ -> _ => destruct r as [[[hi lo] sk] | e0] eqn:Hc; simpl
  end.
  2:{ intros H; inversion H; subst e0. clear H.
      destruct k as [k |].
      - repeat match type of Hc with
               | context [if ?b then _ else _] => destruct b; simpl in Hc
               end; inversion Hc; reflexivity.
      - repeat match type of Hc with
               | context [if ?b then _ else _] => destruct b; simpl in Hc
               end; inversion Hc; reflexivity. }
  intros H. apply reraise_only in H. destruct H as [H | [H Hv]]; [exact H |].
  exfalso.
  destruct (ipaddress._BaseV6.parse_hextets _ 0) as [x | e0] eqn:H1; simpl in H.
  - apply parse_hextets_raises in H. subst e. discriminate.
  - inversion H; subst. apply parse_hextets_raises in H1. subst e. discriminate.
Qed.

Lemma IPv6Address_raises (s : string) (e : exn) :
  ipaddress.IPv6Address s = Raise e -> e = AddressValueError.
Proof.
  unfold ipaddress.IPv6Address.
  destruct (Py.contains "/" s); [intros H; inversion H; reflexivity |].
  destruct (ipaddress._BaseV6._split_scope_id s) as [[addr scope] | e0] eqn:Hs; simpl.
  2:{ intros H; inversion H; subst e0.
      unfold ipaddress._BaseV6._split_scope_id in Hs.
      destruct (Py.partition "%" s) as [[a m] b].
      destruct (Py.is_empty m); [discriminate |].
      destruct (_ || _); inversion Hs; reflexivity. }
  destruct (ipaddress._BaseV6._ip_int_from_string addr) as [ip | e0] eqn:Hp; simpl;
    [discriminate |].
  intros H; inversion H; subst. eapply v6_ip_int_from_string_raises; eauto.
Qed.

(** Whatever does not parse as an address makes [ip_address] raise
    [ValueError] itself (not one of its subclasses). *)
Lemma ip_address_raises (s : string) (e : exn) :
  ipaddress.ip_address s = Raise e -> e = ValueError.
Proof.
  unfold ipaddress.ip_address. intros H.
  apply try_or_else_raise in H. destruct H as [[H Hn] | [_ H]].
  - apply IPv4Address_raises in H. subst e. discriminate.
  - apply try_or_else_raise in H. destruct H as [[H Hn] | [_ H]].
    + apply IPv6Address_raises in H. subst e. discriminate.
    + inversion H; reflexivity.
Qed.

(** ** Classification *)

(** C4.  On a text that does not parse as an IP address, [ip_is_private],
    [ip_is_multicast], [ip_is_public], [ip_is_reserved] and [ip_version] all
    raise [ValueError], while [is_ip_address] returns [False] without
    raising; on a text that does parse, [is_ip_address] returns [True]. *)
Theorem classification_of_unparsable_text (text : string) :
  match ipaddress.ip_address text with
  | Raise _ =>
      ip_is_private text = Raise ValueError
      /\ ip_is_multicast text = Raise ValueError
      /\ ip_is_public text = Raise ValueError
      /\ ip_is_reserved text = Raise ValueError
      /\ ip_version text = Raise ValueError
      /\ is_ip_address text = Ok false
  | Ok _ => is_ip_address text = Ok true
  end.
Proof.
  unfold ip_is_private, ip_is_multicast, ip_is_public, ip_is_reserved,
    ip_version, is_ip_address.
  destruct (ipaddress.ip_address text) as [a | e] eqn:Hp; [reflexivity |].
  apply ip_address_raises in Hp. subst e. simpl. repeat split.
Qed.

(** C9.  On a text that parses as an IP address, [ip_is_public] is true
    exactly when [ip_is_multicast] and [ip_is_private] are both false; it
    does not consult [ip_is_reserved]: ["::ffff:8.8.8.8"] is reserved and
    public. *)
Theorem public_iff_not_multicast_and_not_private (text : string) (a : ipaddress.address) :
  ipaddress.ip_address text = Ok a ->
  (exists multicast private public : bool,
      ip_is_multicast text = Ok multicast
      /\ ip_is_private text = Ok private
      /\ ip_is_public text = Ok public
      /\ (public = true <-> multicast = false /\ private = false))
  /\ ip_is_reserved "::ffff:8.8.8.8" = Ok true
  /\ ip_is_public "::ffff:8.8.8.8" = Ok true.
Proof.
  intros Hp. split; [| split; vm_compute; reflexivity].
  exists (ipaddress.is_multicast a), (ipaddress.is_private a),
    (negb (ipaddress.is_multicast a) && negb (ipaddress.is_private a)).
  unfold ip_is_multicast, ip_is_private, ip_is_public. rewrite Hp. simpl.
  repeat split.
  - destruct (ipaddress.is_multicast a); [discriminate | reflexivity].
  - destruct (ipaddress.is_multicast a), (ipaddress.is_private a);
      try discriminate; reflexivity.
  - intros [-> ->]. reflexivity.
Qed.

Lemma public_iff_not_multicast_and_not_private_witness :
  (exists multicast private public : bool,
      ip_is_multicast "8.8.8.8" = Ok multicast
      /\ ip_is_private "8.8.8.8" = Ok private
      /\ ip_is_public "8.8.8.8" = Ok public
      /\ (public = true <-> multicast = false /\ private = false))
  /\ ip_is_reserved "::ffff:8.8.8.8" = Ok true
  /\ ip_is_public "::ffff:8.8.8.8" = Ok true.
Proof.
  apply (public_iff_not_multicast_and_not_private "8.8.8.8"
           (ipaddress.mkAddress ipaddress.v4 134744072 None)).
  vm_compute. reflexivity.
Defined.

(** ** Range to network block *)

(** C8.  [ip_range_to_network_block] never returns: on every input it
    raises [NotImplementedError]. *)
Theorem ip_range_to_network_block_always_raises (ip_range_string : string) :
  ip_range_to_network_block ip_range_string = Raise NotImplementedError
  /\ (forall v : string, ip_range_to_network_block ip_range_string <> Ok v).
Proof.
  split; [reflexivity | intros v H; discriminate].
Qed.

(** ** Enumeration *)

(** C5.  [ip_network_block_enumerate("192.168.1.0/30")], consumed to its
    end, yields the four addresses of the block in order, both boundary
    addresses included. *)
Theorem enumerate_192_168_1_0_slash_30 :
  list_of (ip_network_block_enumerate "192.168.1.0/30")
  = Some (Ok ["192.168.1.0"; "192.168.1.1"; "192.168.1.2"; "192.168.1.3"]).
Proof.
  vm_compute. reflexivity.
Qed.

(** ** Strict network parsing *)

Lemma ALL_ONES_ones (v : ipaddress.version) :
  ipaddress._ALL_ONES v = Z.ones (ipaddress._max_prefixlen v).
Proof.
  unfold ipaddress._ALL_ONES. rewrite Z.ones_equiv. reflexivity.
Qed.

Lemma max_prefixlen_pos (v : ipaddress.version) : 0 < ipaddress._max_prefixlen v.
Proof. destruct v; reflexivity. Qed.

(** Bit [i] of the netmask of a prefix of length [p]: set exactly on the
    [p] highest of the [_max_prefixlen] positions. *)
Lemma netmask_testbit (v : ipaddress.version) (p i : Z) :
  0 <= p <= ipaddress._max_prefixlen v -> 0 <= i ->
  Z.testbit (ipaddress._ip_int_from_prefix v p) i
  = (ipaddress._max_prefixlen v - p <=? i) && (i <? ipaddress._max_prefixlen v).
Proof.
  intros Hp Hi. unfold ipaddress._ip_int_from_prefix.
  rewrite Z.lxor_spec, Z.shiftr_spec by assumption.
  rewrite ALL_ONES_ones.
  pose proof (max_prefixlen_pos v) as Hm.
  destruct (Z.leb_spec (ipaddress._max_prefixlen v - p) i);
    destruct (Z.ltb_spec i (ipaddress._max_prefixlen v)); simpl.
  - rewrite Z.ones_spec_low, Z.ones_spec_high by lia. reflexivity.
  - rewrite !Z.ones_spec_high by lia. reflexivity.
  - rewrite !Z.ones_spec_low by lia. reflexivity.
  - lia.
Qed.

(** An address with a bit set below the prefix fails the strictness test
    [packed & netmask == packed]. *)
Lemma host_bits_fail_strict_test (v : ipaddress.version) (p ip : Z) :
  0 <= p <= ipaddress._max_prefixlen v ->
  Z.land ip (Z.ones (ipaddress._max_prefixlen v - p)) <> 0 ->
  (Z.land ip (ipaddress._ip_int_from_prefix v p) =? ip) = false.
Proof.
  intros Hp Hne. apply Z.eqb_neq. intros Heq. apply Hne.
  apply Z.bits_inj'. intros i Hi.
  rewrite Z.land_spec, Z.bits_0.
  destruct (Z.ltb_spec i (ipaddress._max_prefixlen v - p)) as [Hlt | Hge].
  - assert (Hb : Z.testbit ip i = false).
    { rewrite <- Heq, Z.land_spec, netmask_testbit by assumption.
      destruct (Z.leb_spec (ipaddress._max_prefixlen v - p) i); [lia |].
      simpl. apply andb_false_r. }
    rewrite Hb. reflexivity.
  - rewrite Z.ones_spec_high by lia. apply andb_false_r.
Qed.

Lemma count_righthand_zero_bits_range (number bits : Z) :
  0 <= bits -> 0 <= ipaddress._count_righthand_zero_bits number bits <= bits.
Proof.
  intros Hb. unfold ipaddress._count_righthand_zero_bits.
  destruct (number =? 0); [lia |].
  assert (0 <= ipaddress.bit_length (Z.land (Z.lnot number) (number - 1))).
  { unfold ipaddress.bit_length.
    destruct (_ =? 0); [lia |].
    pose proof (Z.log2_nonneg (Z.abs (Z.land (Z.lnot number) (number - 1)))). lia. }
  lia.
Qed.

Lemma prefix_from_ip_int_range (v : ipaddress.version) (ip_int p : Z) :
  ipaddress._prefix_from_ip_int v ip_int = Ok p ->
  0 <= p <= ipaddress._max_prefixlen v.
Proof.
  unfold ipaddress._prefix_from_ip_int.
  destruct (negb _); [discriminate |].
  intros H; inversion H; subst.
  pose proof (max_prefixlen_pos v).
  pose proof (count_righthand_zero_bits_range ip_int (ipaddress._max_prefixlen v)).
  lia.
Qed.

Lemma prefix_from_prefix_string_range (v : ipaddress.version) (s : string) (p : Z) :
  ipaddress._prefix_from_prefix_string v s = Ok p ->
  0 <= p <= ipaddress._max_prefixlen v.
Proof.
  unfold ipaddress._prefix_from_prefix_string.
  destruct (negb (Py.isascii_isdigit s)); [discriminate |].
  destruct (reraise_ValueError_as NetmaskValueError (Py.int s)) as [q | e]; simpl;
    [| discriminate].
  destruct ((0 <=? q) && (q <=? ipaddress._max_prefixlen v)) eqn:Hq; simpl;
    [| discriminate].
  intros H; inversion H; subst. apply andb_true_iff in Hq. lia.
Qed.

(** Every prefix length the network parsers accept lies in
    [0 .. _max_prefixlen]. *)
Lemma make_netmask_range (v : ipaddress.version) (mask : option string) (p : Z) :
  ipaddress._make_netmask v mask = Ok p ->
  0 <= p <= ipaddress._max_prefixlen v.
Proof.
  unfold ipaddress._make_netmask.
  destruct mask as [arg |].
  2:{ intros H; inversion H; subst. pose proof (max_prefixlen_pos v). lia. }
  destruct v; [| apply prefix_from_prefix_string_range].
  destruct (ipaddress._prefix_from_prefix_string ipaddress.v4 arg) as [q | e] eqn:Hq.
  - intros H; inversion H; subst.
    exact (prefix_from_prefix_string_range ipaddress.v4 _ _ Hq).
  - destruct e; try discriminate.
    unfold ipaddress._prefix_from_ip_string.
    destruct (ipaddress._BaseV4._ip_int_from_string arg) as [ip | e].
    2:{ destruct (is_address_or_netmask_error e); discriminate. }
    destruct (ipaddress._prefix_from_ip_int ipaddress.v4 ip) as [q | e] eqn:H1.
    + intros H; inversion H; subst.
      exact (prefix_from_ip_int_range ipaddress.v4 _ _ H1).
    + destruct (ipaddress._prefix_from_ip_int ipaddress.v4 (Z.lxor ip _))
        as [q | e'] eqn:H2; simpl.
      * intros H; inversion H; subst.
        exact (prefix_from_ip_int_range ipaddress.v4 _ _ H2).
      * destruct (is_ValueError e'); discriminate.
Qed.

(** *** A text is never both an IPv4 and an IPv6 address *)

Lemma mapM_ok {A B : Type} (f : A -> result B) (l : list A) (ys : list B) :
  mapM f l = Ok ys -> Forall2 (fun x y => f x = Ok y) l ys.
Proof.
  revert ys. induction l as [| x l IH]; simpl; intros ys H.
  - inversion H. constructor.
  - destruct (f x) as [y | e] eqn:Hfx; simpl in H; [| discriminate].
    destruct (mapM f l) as [ys' | e]; simpl in H; [| discriminate].
    inversion H; subst. constructor; auto.
Qed.

Lemma parse_octet_ok_digits (s : string) (b : Z) :
  ipaddress._BaseV4._parse_octet s = Ok b -> Py.all_chars Py.is_digit s = true.
Proof.
  unfold ipaddress._BaseV4._parse_octet.
  destruct (Py.is_empty s); [discriminate |].
  unfold Py.isascii_isdigit.
  destruct (Py.all_chars Py.is_digit s); [reflexivity |].
  rewrite andb_false_r. simpl. discriminate.
Qed.

Lemma all_chars_of_split (p : ascii -> bool) (sep : ascii) (s : string) :
  Forall (fun part => Py.all_chars p part = true) (Py.split sep s) ->
  Py.all_chars (fun c => p c || Ascii.eqb c sep) s = true.
Proof.
  induction s as [| c r IH]; simpl; [reflexivity |].
  destruct (Ascii.eqb c sep) eqn:Hc.
  - intros H. inversion H; subst. rewrite orb_true_r. simpl. auto.
  - destruct (Py.split sep r) as [| h t] eqn:Hs.
    + intros H. inversion H as [| ? ? H1 H2]; subst. simpl in H1.
      apply andb_true_iff in H1. destruct H1 as [H1 _].
      rewrite H1. simpl. apply IH. constructor.
    + intros H. inversion H as [| ? ? H1 H2]; subst. simpl in H1.
      apply andb_true_iff in H1. destruct H1 as [H1 H1'].
      rewrite H1. simpl. apply IH. constructor; assumption.
Qed.

Lemma all_chars_excludes (p : ascii -> bool) (c : ascii) (s : string) :
  Py.all_chars p s = true -> p c = false -> Py.contains c s = false.
Proof.
  intros Hall Hc. induction s as [| c' r IH]; simpl in *; [reflexivity |].
  apply andb_true_iff in Hall. destruct Hall as [H1 H2].
  rewrite (IH H2), orb_false_r.
  destruct (Ascii.eqb_spec c' c); [subst; congruence | reflexivity].
Qed.

Lemma IPv4Address_ok_no_colon (s : string) (a : ipaddress.address) :
  ipaddress.IPv4Address s = Ok a -> Py.contains ":" s = false.
Proof.
  unfold ipaddress.IPv4Address.
  destruct (Py.contains "/" s); [discriminate |].
  unfold ipaddress._BaseV4._ip_int_from_string.
  destruct (Py.is_empty s); [discriminate |].
  destruct (negb _); [discriminate |].
  destruct (mapM ipaddress._BaseV4._parse_octet (Py.split "." s)) as [bs | e] eqn:Hm;
    simpl.
  2:{ destruct (is_ValueError e); discriminate. }
  intros _. apply mapM_ok in Hm.
  apply all_chars_excludes with (p := fun c => Py.is_digit c || Ascii.eqb c ".");
    [| reflexivity].
  apply all_chars_of_split.
  clear - Hm. induction Hm; constructor; auto.
  eapply parse_octet_ok_digits; eauto.
Qed.

Lemma split_without_sep (sep : ascii) (s : string) :
  Py.contains sep s = false -> Py.split sep s = [s].
Proof.
  induction s as [| c r IH]; simpl; [reflexivity |].
  intros H. apply orb_false_iff in H. destruct H as [H1 H2].
  rewrite H1, (IH H2). reflexivity.
Qed.

Lemma partition_head_contains (sep c : ascii) (s : string) :
  Py.contains c (fst (fst (Py.partition sep s))) = true -> Py.contains c s = true.
Proof.
  induction s as [| c' r IH]; simpl; [discriminate |].
  destruct (Ascii.eqb c' sep); simpl; [discriminate |].
  destruct (Py.partition sep r) as [[a m] b]. simpl in *.
  intros H. apply orb_true_iff in H. apply orb_true_iff.
  destruct H; auto.
Qed.

Lemma v6_ip_int_from_string_ok_colon (s : string) (ip : Z) :
  ipaddress._BaseV6._ip_int_from_string s = Ok ip -> Py.contains ":" s = true.
Proof.
  unfold ipaddress._BaseV6._ip_int_from_string.
  destruct (Py.is_empty s); [discriminate |].
  destruct (Py.contains ":" s) eqn:Hc; [reflexivity |].
  rewrite (split_without_sep _ _ Hc). simpl. discriminate.
Qed.

Lemma IPv6Address_ok_colon (s : string) (a : ipaddress.address) :
  ipaddress.IPv6Address s = Ok a -> Py.contains ":" s = true.
Proof.
  unfold ipaddress.IPv6Address.
  destruct (Py.contains "/" s); [discriminate |].
  unfold ipaddress._BaseV6._split_scope_id.
  pose proof (partition_head_contains "%" ":" s) as Hpart.
  destruct (Py.partition "%" s) as [[addr m] scope]. simpl in Hpart.
  assert (Hgoal : forall sc ip,
             ipaddress._BaseV6._ip_int_from_string addr = Ok ip ->
             Ok (ipaddress.mkAddress ipaddress.v6 ip sc) = Ok a ->
             Py.contains ":" s = true).
  { intros sc ip Hip _. apply Hpart. eapply v6_ip_int_from_string_ok_colon; eauto. }
  destruct (Py.is_empty m); simpl.
  - destruct (ipaddress._BaseV6._ip_int_from_string addr) as [ip | e] eqn:Hip; simpl;
      [| discriminate].
    eapply Hgoal; eauto.
  - destruct (_ || _); simpl; [discriminate |].
    destruct (ipaddress._BaseV6._ip_int_from_string addr) as [ip | e] eqn:Hip; simpl;
      [| discriminate].
    eapply Hgoal; eauto.
Qed.

Lemma IPv6Address_ok_not_IPv4 (s : string) (a : ipaddress.address) :
  ipaddress.IPv6Address s = Ok a ->
  ipaddress.IPv4Address s = Raise AddressValueError.
Proof.
  intros H6. apply IPv6Address_ok_colon in H6.
  destruct (ipaddress.IPv4Address s) as [a4 | e] eqn:H4.
  - apply IPv4Address_ok_no_colon in H4. congruence.
  - apply IPv4Address_raises in H4. subst. reflexivity.
Qed.

(** A CIDR text whose address part has bits set below the prefix length:
    its address part and its prefix part are both accepted, as version 4 or
    as version 6, and the address has a one among its [_max_prefixlen - p]
    lowest bits. *)
Definition has_host_bits_set (network_block : string) : Prop :=
  exists (v : ipaddress.version) (addr : string) (mask : option string)
         (a : ipaddress.address) (p : Z),
    ipaddress._split_addr_prefix network_block = Ok (addr, mask)
    /\ match v with
       | ipaddress.v4 => ipaddress.IPv4Address addr
       | ipaddress.v6 => ipaddress.IPv6Address addr
       end = Ok a
    /\ ipaddress._make_netmask v mask = Ok p
    /\ Z.land (ipaddress._ip a) (Z.ones (ipaddress._max_prefixlen v - p)) <> 0.

Lemma make_network_host_bits (v : ipaddress.version) (s addr : string)
      (mask : option string) (a : ipaddress.address) (p : Z) :
  ipaddress._split_addr_prefix s = Ok (addr, mask) ->
  match v with
  | ipaddress.v4 => ipaddress.IPv4Address addr
  | ipaddress.v6 => ipaddress.IPv6Address addr
  end = Ok a ->
  ipaddress._make_netmask v mask = Ok p ->
  Z.land (ipaddress._ip a) (Z.ones (ipaddress._max_prefixlen v - p)) <> 0 ->
  ipaddress.make_network v s = Raise ValueError.
Proof.
  intros Hs Ha Hp Hbits. unfold ipaddress.make_network.
  rewrite Hs. simpl. rewrite Ha. simpl. rewrite Hp. simpl.
  rewrite host_bits_fail_strict_test; auto.
  eapply make_netmask_range; eauto.
Qed.

Lemma ip_network_host_bits (s : string) :
  has_host_bits_set s -> ipaddress.ip_network s = Raise ValueError.
Proof.
  intros (v & addr & mask & a & p & Hs & Ha & Hp & Hbits).
  unfold ipaddress.ip_network, ipaddress.IPv4Network, ipaddress.IPv6Network.
  destruct v.
  - rewrite (make_network_host_bits ipaddress.v4 s addr mask a p); auto.
  - rewrite (make_network_host_bits ipaddress.v6 s addr mask a p); auto.
    unfold ipaddress.make_network at 1. rewrite Hs. simpl.
    rewrite (IPv6Address_ok_not_IPv4 _ _ Ha). reflexivity.
Qed.

(** C10.  On a CIDR text with host bits set, the four eager network-block
    operations raise [ValueError]; the generator of
    [ip_network_block_enumerate] raises it at its first [next()], before
    anything is yielded, so consuming it raises too. *)
Theorem network_block_operations_reject_host_bits (network_block : string) :
  has_host_bits_set network_block ->
  ip_network_block_first_address network_block = Raise ValueError
  /\ ip_network_block_last_address network_block = Raise ValueError
  /\ ip_network_block_ip_count network_block = Raise ValueError
  /\ ip_network_block_to_range network_block = Raise ValueError
  /\ generator_next (ip_network_block_enumerate network_block)
     = (Raised ValueError, gen_finished)
  /\ list_of (ip_network_block_enumerate network_block) = Some (Raise ValueError).
Proof.
  intros H. apply ip_network_host_bits in H.
  unfold ip_network_block_first_address, ip_network_block_last_address,
    ip_network_block_ip_count, ip_network_block_to_range, list_of,
    ip_network_block_enumerate.
  simpl. rewrite H. simpl. rewrite H. repeat split.
Qed.

Lemma network_block_operations_reject_host_bits_witness :
  ip_network_block_first_address "192.168.1.1/24" = Raise ValueError
  /\ ip_network_block_last_address "192.168.1.1/24" = Raise ValueError
  /\ ip_network_block_ip_count "192.168.1.1/24" = Raise ValueError
  /\ ip_network_block_to_range "192.168.1.1/24" = Raise ValueError
  /\ generator_next (ip_network_block_enumerate "192.168.1.1/24")
     = (Raised ValueError, gen_finished)
  /\ list_of (ip_network_block_enumerate "192.168.1.1/24") = Some (Raise ValueError).
Proof.
  apply network_block_operations_reject_host_bits.
  exists ipaddress.v4, "192.168.1.1", (Some "24"),
    (ipaddress.mkAddress ipaddress.v4 3232235777 None), 24.
  repeat split; try (vm_compute; reflexivity).
  vm_compute. discriminate.
Defined.

(** ** What the generator yields *)

(** [range(lo, hi)]. *)
Definition zrange (lo hi : Z) : list Z :=
  map (fun i => lo + Z.of_nat i) (seq 0 (Z.to_nat (hi - lo))).

(** The addresses an iterator still has to give. *)
Definition iterator_items (it : ipaddress.iterator) : list ipaddress.address :=
  match it with
  | ipaddress.range_iterator v next stop =>
      map (ipaddress._address_class v) (zrange next stop)
  | ipaddress.list_iterator items => items
  end.

(** The texts a generator has still to yield when resumed inside
    [yield from]. *)
Definition rest_of_hosts (ip : ipaddress.network) (it : ipaddress.iterator)
  : list string :=
  (map ipaddress.str (iterator_items it)
   ++ [ipaddress.str (ipaddress.broadcast_address ip)])%list.

(** The whole remaining output of a generator, or the exception that ends
    it. *)
Definition yields (g : generator) : result (list string) :=
  match g with
  | gen_created network_block_string =>
      ip <- ipaddress.ip_network network_block_string ;;
      Ok (ipaddress.str (ipaddress.network_address ip)
          :: rest_of_hosts ip (ipaddress.hosts ip))
  | gen_at_network ip => Ok (rest_of_hosts ip (ipaddress.hosts ip))
  | gen_in_hosts ip it => Ok (rest_of_hosts ip it)
  | gen_at_broadcast => Ok []
  | gen_finished => Ok []
  end.

Lemma zrange_empty (lo hi : Z) : hi <= lo -> zrange lo hi = [].
Proof.
  intros H. unfold zrange. replace (Z.to_nat (hi - lo)) with O by lia. reflexivity.
Qed.

Lemma zrange_cons (lo hi : Z) : lo < hi -> zrange lo hi = lo :: zrange (lo + 1) hi.
Proof.
  intros H. unfold zrange.
  replace (Z.to_nat (hi - lo)) with (S (Z.to_nat (hi - (lo + 1)))) by lia.
  simpl. f_equal; [lia |].
  rewrite <- seq_shift, map_map. apply map_ext. intros i. lia.
Qed.

Lemma zrange_length (lo hi : Z) : List.length (zrange lo hi) = Z.to_nat (hi - lo).
Proof. unfold zrange. rewrite length_map, length_seq. reflexivity. Qed.

Lemma iterator_items_length (it : ipaddress.iterator) :
  List.length (iterator_items it) = iterator_size it.
Proof.
  destruct it; simpl; [| reflexivity].
  rewrite length_map. apply zrange_length.
Qed.

(** One [next()] on an iterator gives the head of its items. *)
Lemma iterator_next_items (it : ipaddress.iterator) :
  match ipaddress.iterator_next it with
  | Some (a, it') =>
      iterator_items it = a :: iterator_items it'
      /\ iterator_size it = S (iterator_size it')
  | None => iterator_items it = [] /\ iterator_size it = O
  end.
Proof.
  destruct it as [v next stop | items]; simpl.
  - destruct (Z.ltb_spec next stop).
    + simpl. rewrite zrange_cons by assumption. split; [reflexivity | lia].
    + rewrite zrange_empty by assumption. split; [reflexivity | lia].
  - destruct items; simpl; auto.
Qed.

Lemma collect_in_hosts (ip : ipaddress.network) (n : nat) :
  forall (it : ipaddress.iterator) (fuel : nat),
    iterator_size it = n -> (n + 2 <= fuel)%nat ->
    collect fuel (gen_in_hosts ip it) = Some (Ok (rest_of_hosts ip it)).
Proof.
  induction n as [| n IH]; intros it fuel Hn Hfuel;
    (destruct fuel as [| fuel]; [lia |]); simpl; unfold resume_hosts, rest_of_hosts;
    pose proof (iterator_next_items it) as Hit;
    destruct (ipaddress.iterator_next it) as [[a it'] |];
    destruct Hit as [Hitems Hsize]; try lia.
  - rewrite Hitems. destruct fuel as [| fuel]; [lia |]. reflexivity.
  - rewrite (IH it' fuel) by lia. rewrite Hitems. reflexivity.
Qed.

(** [list(g)] always ends within [steps_left g] calls of [next()], with
    [yields g]. *)
Lemma collect_enough (g : generator) (fuel : nat) :
  (steps_left g <= fuel)%nat -> collect fuel g = Some (yields g).
Proof.
  destruct g as [s | ip | ip it | |]; simpl; intros Hfuel.
  - destruct fuel as [| fuel]; [destruct (ipaddress.ip_network s); lia |].
    simpl. destruct (ipaddress.ip_network s) as [ip | e]; simpl; [| reflexivity].
    destruct fuel as [| fuel]; [lia |].
    change (collect (S fuel) (gen_at_network ip))
      with (collect (S fuel) (gen_in_hosts ip (ipaddress.hosts ip))).
    rewrite (collect_in_hosts ip (iterator_size (ipaddress.hosts ip))) by lia.
    reflexivity.
  - destruct fuel as [| fuel]; [lia |].
    change (collect (S fuel) (gen_at_network ip))
      with (collect (S fuel) (gen_in_hosts ip (ipaddress.hosts ip))).
    apply (collect_in_hosts ip (iterator_size (ipaddress.hosts ip))); lia.
  - apply (collect_in_hosts ip (iterator_size it)); lia.
  - destruct fuel; [lia | reflexivity].
  - destruct fuel; [lia | reflexivity].
Qed.

Lemma list_of_total (g : generator) : list_of g = Some (yields g).
Proof. apply collect_enough. lia. Qed.

(** The outcome of [x in g] read off the remaining output. *)
Definition found_in (x : string) (r : result (list string)) : result bool :=
  l <- r ;; Ok (existsb (String.eqb x) l).

Lemma scan_in_hosts (x : string) (ip : ipaddress.network) (n : nat) :
  forall (it : ipaddress.iterator) (fuel : nat),
    iterator_size it = n -> (n + 2 <= fuel)%nat ->
    scan fuel x (gen_in_hosts ip it)
    = Some (Ok (existsb (String.eqb x) (rest_of_hosts ip it))).
Proof.
  induction n as [| n IH]; intros it fuel Hn Hfuel;
    (destruct fuel as [| fuel]; [lia |]); simpl; unfold resume_hosts, rest_of_hosts;
    pose proof (iterator_next_items it) as Hit;
    destruct (ipaddress.iterator_next it) as [[a it'] |];
    destruct Hit as [Hitems Hsize]; try lia.
  - rewrite Hitems. destruct fuel as [| fuel]; [lia |]. simpl.
    destruct (String.eqb x _); reflexivity.
  - rewrite Hitems. simpl. destruct (String.eqb x (ipaddress.str a)); [reflexivity |].
    rewrite (IH it' fuel) by lia. reflexivity.
Qed.

Lemma scan_enough (x : string) (g : generator) (fuel : nat) :
  (steps_left g <= fuel)%nat -> scan fuel x g = Some (found_in x (yields g)).
Proof.
  destruct g as [s | ip | ip it | |]; simpl; intros Hfuel.
  - destruct fuel as [| fuel]; [destruct (ipaddress.ip_network s); lia |].
    simpl. destruct (ipaddress.ip_network s) as [ip | e]; simpl; [| reflexivity].
    destruct (String.eqb x (ipaddress.str (ipaddress.network_address ip)));
      [reflexivity |].
    destruct fuel as [| fuel]; [lia |].
    change (scan (S fuel) x (gen_at_network ip))
      with (scan (S fuel) x (gen_in_hosts ip (ipaddress.hosts ip))).
    rewrite (scan_in_hosts x ip (iterator_size (ipaddress.hosts ip))) by lia.
    reflexivity.
  - destruct fuel as [| fuel]; [lia |].
    change (scan (S fuel) x (gen_at_network ip))
      with (scan (S fuel) x (gen_in_hosts ip (ipaddress.hosts ip))).
    apply (scan_in_hosts x ip (iterator_size (ipaddress.hosts ip))); lia.
  - apply (scan_in_hosts x ip (iterator_size it)); lia.
  - destruct fuel; [lia | reflexivity].
  - destruct fuel; [lia | reflexivity].
Qed.

(** [ip_in_network_block] always returns: it is membership of the text in
    what the enumeration yields. *)
Lemma ip_in_network_block_total (ip_address network_block : string) :
  ip_in_network_block ip_address network_block
  = Some (found_in ip_address (yields (ip_network_block_enumerate network_block))).
Proof. apply scan_enough. lia. Qed.

(** C1.  The enumeration does not yield each address of the block exactly
    once.  The body yields the network address, then every element of
    [hosts()], then the broadcast address, on the ground (its comment) that
    [hosts()] leaves those two out; [hosts()] does not leave them out for
    the prefix lengths [_max_prefixlen] and [_max_prefixlen - 1], nor the
    last address for any IPv6 block.  So a /32 block is enumerated as three
    copies of its one address, a /31 block as each of its two addresses
    twice, and an IPv6 block with its last address twice, while
    [ip_network_block_ip_count] counts 1, 2 and 4. *)
Theorem enumerate_repeats_boundary_addresses :
  list_of (ip_network_block_enumerate "192.168.1.0/32")
  = Some (Ok ["192.168.1.0"; "192.168.1.0"; "192.168.1.0"])
  /\ ip_network_block_ip_count "192.168.1.0/32" = Ok 1
  /\ list_of (ip_network_block_enumerate "192.168.1.0/31")
     = Some (Ok ["192.168.1.0"; "192.168.1.0"; "192.168.1.1"; "192.168.1.1"])
  /\ ip_network_block_ip_count "192.168.1.0/31" = Ok 2
  /\ list_of (ip_network_block_enumerate "::/126")
     = Some (Ok ["::"; "::1"; "::2"; "::3"; "::3"])
  /\ ip_network_block_ip_count "::/126" = Ok 4.
Proof.
  repeat split; vm_compute; reflexivity.
Qed.

(** C2.  The scan compares texts, so an address written otherwise than
    [str] writes it is not found in a block that contains it:
    ["0:0:0:0:0:0:0:1"] parses to the address 1, which lies in ["::/127"],
    and ["2001:DB8::1"] lies in ["2001:db8::/126"], yet
    [ip_in_network_block] returns [False] for both. *)
Theorem ip_in_network_block_misses_other_spellings :
  ip_in_network_block "0:0:0:0:0:0:0:1" "::/127" = Some (Ok false)
  /\ (exists a n,
         ipaddress.ip_address "0:0:0:0:0:0:0:1" = Ok a
         /\ ipaddress.ip_network "::/127" = Ok n
         /\ ipaddress.contains n a = true)
  /\ ip_in_network_block "2001:DB8::1" "2001:db8::/126" = Some (Ok false)
  /\ (exists a n,
         ipaddress.ip_address "2001:DB8::1" = Ok a
         /\ ipaddress.ip_network "2001:db8::/126" = Ok n
         /\ ipaddress.contains n a = true)
  /\ ip_in_network_block "::1" "::/127" = Some (Ok true).
Proof.
  split; [vm_compute; reflexivity |].
  split.
  { exists (ipaddress.mkAddress ipaddress.v6 1 None),
      (ipaddress.mkNetwork ipaddress.v6 (ipaddress.mkAddress ipaddress.v6 0 None) 127).
    repeat split; vm_compute; reflexivity. }
  split; [vm_compute; reflexivity |].
  split; [| vm_compute; reflexivity].
  exists (ipaddress.mkAddress ipaddress.v6 42540766411282592856903984951653826561 None),
    (ipaddress.mkNetwork ipaddress.v6
       (ipaddress.mkAddress ipaddress.v6 42540766411282592856903984951653826560 None)
       126).
  repeat split; vm_compute; reflexivity.
Qed.

(** ** The ThreatConnect form *)

(** The algorithm as the specification words it, written without the
    [str] methods of the implementation. *)
Module threatconnect_spec.

Definition placeholder : string := "xxxx".

(** Every run of four [c] characters, found from left to right, becomes
    [new]. *)
Fixpoint substitute_runs_of_four (c : ascii) (new : string) (s : string) : string :=
  match s with
  | EmptyString => EmptyString
  | String a1 r1 =>
      match r1 with
      | String a2 (String a3 (String a4 r4)) =>
          if Ascii.eqb a1 c && Ascii.eqb a2 c && Ascii.eqb a3 c && Ascii.eqb a4 c
          then new ++ substitute_runs_of_four c new r4
          else String a1 (substitute_runs_of_four c new r1)
      | _ => String a1 (substitute_runs_of_four c new r1)
      end
  end.

(** "replace each run of four zero digits with a placeholder" *)
Definition mark_zero_runs (segment : string) : string :=
  substitute_runs_of_four "0" placeholder segment.

(** "strip leading zeros" *)
Fixpoint strip_leading_zeros (segment : string) : string :=
  match segment with
  | String c r => if Ascii.eqb c "0" then strip_leading_zeros r else segment
  | EmptyString => EmptyString
  end.

(** "replace each placeholder with a single zero digit" *)
Definition unmark (s : string) : string :=
  substitute_runs_of_four "x" "0" s.

(** "join the segments with colons" *)
Fixpoint join_with_colons (segments : list string) : string :=
  match segments with
  | [] => EmptyString
  | [s] => s
  | s :: rest => s ++ ":" ++ join_with_colons rest
  end.

(** "expand the address to its fully written form": the eight 16-bit
    groups of the address, the most significant first, each written with
    four lowercase hexadecimal digits, and colons between the groups. *)
Definition hex_digit (d : Z) : ascii :=
  nth (Z.to_nat d) (list_ascii_of_string "0123456789abcdef") "0"%char.

Definition group (address : Z) (i : Z) : Z :=
  (address / 2 ^ (16 * (7 - i))) mod 2 ^ 16.

Definition four_digits (g : Z) : string :=
  String (hex_digit ((g / 4096) mod 16))
    (String (hex_digit ((g / 256) mod 16))
       (String (hex_digit ((g / 16) mod 16))
          (String (hex_digit (g mod 16)) EmptyString))).

Definition fully_written (address : Z) : string :=
  join_with_colons
    (map (fun i => four_digits (group address i)) [0; 1; 2; 3; 4; 5; 6; 7]).

(** "split it on colons": [current] is the segment being read. *)
Fixpoint split_at_colons (current : string) (s : string) : list string :=
  match s with
  | EmptyString => [current]
  | String c r =>
      if Ascii.eqb c ":" then current :: split_at_colons EmptyString r
      else split_at_colons (current ++ String c EmptyString) r
  end.

Definition split_on_colons (s : string) : list string :=
  split_at_colons EmptyString s.

(** The whole algorithm, on the address. *)
Definition threatconnect_form (address : Z) : string :=
  let segments := split_on_colons (fully_written address) in
  let segments := map mark_zero_runs segments in
  let segments := map strip_leading_zeros segments in
  unmark (join_with_colons segments).

End threatconnect_spec.

Lemma prefix_four (c : ascii) (a1 a2 a3 a4 : ascii) (r : string) :
  String.prefix (String c (String c (String c (String c EmptyString))))
                (String a1 (String a2 (String a3 (String a4 r))))
  = Ascii.eqb a1 c && Ascii.eqb a2 c && Ascii.eqb a3 c && Ascii.eqb a4 c.
Proof.
  assert (Hnil : forall t : string, String.prefix EmptyString t = true)
    by (intros [| ? ?]; reflexivity).
  cbn [String.prefix].
  repeat match goal with
         | |- context [ascii_dec ?x ?y] =>
             destruct (ascii_dec x y) as [<- | Hne];
             [rewrite Ascii.eqb_refl
             | assert (Ascii.eqb y x = false) as ->
                 by (apply Ascii.eqb_neq; congruence)]; cbn [andb]
         end; rewrite ?Hnil; reflexivity.
Qed.

Lemma prefix_four_short (c : ascii) (s : string) :
  (String.length s < 4)%nat ->
  String.prefix (String c (String c (String c (String c EmptyString)))) s = false.
Proof.
  destruct s as [| a1 [| a2 [| a3 [| a4 r]]]]; simpl; intros H; try lia;
    repeat (destruct (ascii_dec _ _); try reflexivity).
Qed.

Lemma substitute_runs_of_four_unfold (c : ascii) (new : string)
      (a1 a2 a3 a4 : ascii) (r4 : string) :
  threatconnect_spec.substitute_runs_of_four c new
    (String a1 (String a2 (String a3 (String a4 r4))))
  = if Ascii.eqb a1 c && Ascii.eqb a2 c && Ascii.eqb a3 c && Ascii.eqb a4 c
    then (new ++ threatconnect_spec.substitute_runs_of_four c new r4)%string
    else String a1 (threatconnect_spec.substitute_runs_of_four c new
                      (String a2 (String a3 (String a4 r4)))).
Proof. reflexivity. Qed.

(** [str.replace] of a run of four equal characters is the left-to-right
    substitution of the specification. *)
Lemma replace_runs_of_four (c : ascii) (new : string) (s : string) :
  Py.replace (String c (String c (String c (String c EmptyString)))) new s
  = threatconnect_spec.substitute_runs_of_four c new s.
Proof.
  unfold Py.replace. simpl Py.is_empty. cbv iota.
  remember (String.length s) as n eqn:Hn.
  assert (Hle : (String.length s <= n)%nat) by lia. clear Hn.
  revert s Hle. induction n as [| n IH]; intros s Hle.
  - destruct s; [reflexivity | simpl in Hle; lia].
  - destruct s as [| a1 r1]; [reflexivity |].
    destruct r1 as [| a2 [| a3 [| a4 r4]]].
    + cbn [Py.replace_from threatconnect_spec.substitute_runs_of_four].
      rewrite prefix_four_short by (simpl; lia). reflexivity.
    + cbn [Py.replace_from threatconnect_spec.substitute_runs_of_four].
      rewrite !prefix_four_short by (simpl; lia). reflexivity.
    + cbn [Py.replace_from threatconnect_spec.substitute_runs_of_four].
      rewrite !prefix_four_short by (simpl; lia). reflexivity.
    + rewrite substitute_runs_of_four_unfold.
      rewrite <- (IH r4) by (simpl in Hle; lia).
      rewrite <- (IH (String a2 (String a3 (String a4 r4)))) by (simpl in *; lia).
      cbn [Py.replace_from]. rewrite prefix_four.
      destruct (Ascii.eqb a1 c && Ascii.eqb a2 c && Ascii.eqb a3 c && Ascii.eqb a4 c);
        reflexivity.
Qed.

Lemma lstrip_zeros (s : string) :
  Py.lstrip "0" s = threatconnect_spec.strip_leading_zeros s.
Proof.
  induction s as [| c r IH]; simpl; [reflexivity |].
  rewrite IH. reflexivity.
Qed.

Lemma join_colons (l : list string) :
  Py.join ":" l = threatconnect_spec.join_with_colons l.
Proof.
  unfold Py.join. induction l as [| s [| s' r] IH]; try reflexivity.
  change (String.concat ":" (s :: s' :: r))
    with (s ++ ":" ++ String.concat ":" (s' :: r))%string.
  rewrite IH. reflexivity.
Qed.

(** The steps [ipv6_threatconnect_form] applies to the expanded text are
    the steps of the specification. *)
Lemma threatconnect_pipeline (expanded : string) :
  Py.replace "xxxx" "0"
    (Py.join ":"
       (map (fun section => Py.lstrip "0" (Py.replace "0000" "xxxx" section))
            (Py.split ":" expanded)))
  = threatconnect_spec.unmark
      (threatconnect_spec.join_with_colons
         (map threatconnect_spec.strip_leading_zeros
            (map threatconnect_spec.mark_zero_runs (Py.split ":" expanded)))).
Proof.
  change "xxxx" with (String "x" (String "x" (String "x" (String "x" EmptyString)))).
  rewrite replace_runs_of_four. unfold threatconnect_spec.unmark. f_equal.
  rewrite join_colons. f_equal.
  rewrite map_map. apply map_ext. intros segment.
  rewrite lstrip_zeros. f_equal.
  apply (replace_runs_of_four "0" "xxxx" segment).
Qed.

(** ** The version-number heuristic *)

(** Where the pattern [(?<![0-9.])[0-9]{1,2}\.[0-2]\.] matches, said
    without the search procedure. *)
Module version_pattern_spec.

Definition is_0_to_2 (c : ascii) : bool :=
  (48 <=? Py.ord c) && (Py.ord c <=? 50).

(** [after] starts with one or two digits, a dot, a character of
    ['0'..'2'] and a dot. *)
Inductive body : string -> Prop :=
| body_one_digit (d t : ascii) (rest : string) :
    Py.is_digit d = true -> is_0_to_2 t = true ->
    body (String d (String "." (String t (String "." rest))))
| body_two_digits (d1 d2 t : ascii) (rest : string) :
    Py.is_digit d1 = true -> Py.is_digit d2 = true -> is_0_to_2 t = true ->
    body (String d1 (String d2 (String "." (String t (String "." rest))))).

(** The last character of [before], or [prev] when [before] is empty. *)
Fixpoint last_char (prev : option ascii) (before : string) : option ascii :=
  match before with
  | EmptyString => prev
  | String c r => last_char (Some c) r
  end.

(** The pattern matches somewhere in [s]: at a position that is not
    preceded by a digit or a dot. *)
Definition occurs (s : string) : Prop :=
  exists before after : string,
    s = (before ++ after)%string
    /\ version_pattern.lookbehind (last_char None before) = true
    /\ body after.

End version_pattern_spec.

Lemma match_at_body (s : string) :
  version_pattern.match_at s <> None <-> version_pattern_spec.body s.
Proof.
  unfold version_pattern.match_at. split.
  - destruct s as [| d r]; [congruence |].
    destruct (Py.is_digit d) eqn:Hd; [| congruence].
    destruct r as [| d2 r2]; [congruence |].
    destruct (Py.is_digit d2 && version_pattern.tail_at r2) eqn:H2.
    + intros _. apply andb_true_iff in H2. destruct H2 as [Hd2 Ht].
      destruct r2 as [| a [| b [| c rest]]]; simpl in Ht; try discriminate.
      apply andb_true_iff in Ht. destruct Ht as [Ht Hc].
      apply andb_true_iff in Ht. destruct Ht as [Ha Hb].
      apply Ascii.eqb_eq in Ha, Hc. subst.
      apply version_pattern_spec.body_two_digits; assumption.
    + destruct (version_pattern.tail_at (String d2 r2)) eqn:Ht; [| congruence].
      intros _.
      destruct r2 as [| b [| c rest]]; simpl in Ht; try discriminate.
      apply andb_true_iff in Ht. destruct Ht as [Ht Hc].
      apply andb_true_iff in Ht. destruct Ht as [Ha Hb].
      apply Ascii.eqb_eq in Ha, Hc. subst.
      apply version_pattern_spec.body_one_digit; assumption.
  - intros Hb. destruct Hb as [d t rest Hd Ht | d1 d2 t rest Hd1 Hd2 Ht].
    + rewrite Hd. change (Py.is_digit ".") with false. cbn [andb].
      unfold version_pattern.tail_at.
      unfold version_pattern_spec.is_0_to_2 in Ht. rewrite Ht.
      rewrite !Ascii.eqb_refl. simpl. congruence.
    + rewrite Hd1, Hd2.
      unfold version_pattern.tail_at at 1.
      unfold version_pattern_spec.is_0_to_2 in Ht. rewrite Ht.
      rewrite !Ascii.eqb_refl. simpl. congruence.
Qed.

Lemma findall_from_occurs (s : string) :
  forall prev : option ascii,
    version_pattern.findall_from O prev s <> []
    <-> exists before after : string,
        s = (before ++ after)%string
        /\ version_pattern.lookbehind (version_pattern_spec.last_char prev before) = true
        /\ version_pattern_spec.body after.
Proof.
  induction s as [| c r IH]; intros prev.
  - simpl. split; [congruence |].
    intros (before & after & Hs & _ & Hb).
    destruct before; simpl in Hs; [| discriminate].
    subst after. inversion Hb.
  - cbn [version_pattern.findall_from].
    destruct (version_pattern.lookbehind prev) eqn:Hl.
    + destruct (version_pattern.match_at (String c r)) as [n |] eqn:Hm.
      * split; [| congruence]. intros _.
        exists EmptyString, (String c r). repeat split; [exact Hl |].
        apply match_at_body. congruence.
      * rewrite IH. split.
        -- intros (before & after & Hs & Hlb & Hb).
           exists (String c before), after. subst r. repeat split; assumption.
        -- intros (before & after & Hs & Hlb & Hb).
           destruct before as [| c' before].
           ++ simpl in Hs. subst after. apply match_at_body in Hb. congruence.
           ++ simpl in Hs. inversion Hs; subst. exists before, after.
              repeat split; assumption.
    + rewrite IH. split.
      * intros (before & after & Hs & Hlb & Hb).
        exists (String c before), after. subst r. repeat split; assumption.
      * intros (before & after & Hs & Hlb & Hb).
        destruct before as [| c' before].
        -- simpl in Hlb. congruence.
        -- simpl in Hs. inversion Hs; subst. exists before, after.
           repeat split; assumption.
Qed.

(** [re.findall] finds something exactly when the pattern matches
    somewhere. *)
Lemma findall_nonempty_iff_occurs (s : string) :
  version_pattern.findall s <> [] <-> version_pattern_spec.occurs s.
Proof. apply findall_from_occurs. Qed.

Lemma mapM_total {A B : Type} (f : A -> result B) (l : list A) :
  Forall (fun x => exists y, f x = Ok y) l ->
  exists ys, mapM f l = Ok ys /\ Forall2 (fun x y => f x = Ok y) l ys.
Proof.
  induction 1 as [| x l [y Hy] _ [ys [Hys HF]]]; simpl.
  - exists []. split; [reflexivity | constructor].
  - exists (y :: ys). rewrite Hy, Hys. split; [reflexivity |].
    constructor; assumption.
Qed.

Lemma fold_left_add (l : list Z) (acc : Z) :
  fold_left Z.add l acc = acc + fold_right Z.add 0 l.
Proof.
  revert acc. induction l as [| x l IH]; simpl; intros acc; [lia |].
  rewrite IH. lia.
Qed.

(** [int] reads the decimal digits and strips the spaces of every script:
    on the Arabic-Indic digit three (U+0663) followed by [".1.1.1"]
    [ipv4_sum] returns 6, and a no-break space (U+00A0) after ["8.8.8.8"]
    does not keep [ipv4_is_possible_version_number] from returning
    [False]. *)
Lemma ipv4_sum_reads_unicode_digits :
  ipv4_sum (String "217"%char (String "163"%char ".1.1.1")) = Ok 6
  /\ ipv4_is_possible_version_number
       ("8.8.8.8" ++ String "194"%char (String "160"%char EmptyString))
     = Ok false.
Proof. split; vm_compute; reflexivity. Qed.

(** C7.  When every dot-separated section of the text parses as an
    integer, [ipv4_sum] is the sum of those integers (whatever their size)
    and [ipv4_is_possible_version_number] returns [True] exactly when the
    pattern matches somewhere in the text or that sum is below 30, and
    [False] otherwise. *)
Theorem ipv4_is_possible_version_number_signals (ipv4_address : string) :
  Forall (fun section => exists v, Py.int section = Ok v) (Py.split "." ipv4_address) ->
  exists (values : list Z) (answer : bool),
    Forall2 (fun section v => Py.int section = Ok v) (Py.split "." ipv4_address) values
    /\ ipv4_sum ipv4_address = Ok (fold_right Z.add 0 values)
    /\ ipv4_is_possible_version_number ipv4_address = Ok answer
    /\ (answer = true
        <-> version_pattern_spec.occurs ipv4_address
            \/ fold_right Z.add 0 values < 30).
Proof.
  intros Hsections.
  destruct (mapM_total Py.int _ Hsections) as [values [Hm HF]].
  assert (Hsum : ipv4_sum ipv4_address = Ok (fold_right Z.add 0 values)).
  { unfold ipv4_sum. rewrite Hm. simpl. rewrite fold_left_add. reflexivity. }
  exists values.
  unfold ipv4_is_possible_version_number. rewrite Hsum. simpl.
  pose proof (findall_nonempty_iff_occurs ipv4_address) as Hocc.
  destruct (version_pattern.findall ipv4_address) as [| m ms].
  - destruct (Z.ltb_spec (fold_right Z.add 0 values) 30) as [Hlt | Hge].
    + exists true. repeat split; auto.
    + exists false. repeat split; auto.
      * discriminate.
      * intros [Ho | Hlt]; [| lia]. apply Hocc in Ho. congruence.
  - exists true. repeat split; auto.
    intros _. left. apply Hocc. discriminate.
Qed.

Lemma ipv4_is_possible_version_number_signals_witness :
  exists (values : list Z) (answer : bool),
    Forall2 (fun section v => Py.int section = Ok v) (Py.split "." "8.8.8.8") values
    /\ ipv4_sum "8.8.8.8" = Ok (fold_right Z.add 0 values)
    /\ ipv4_is_possible_version_number "8.8.8.8" = Ok answer
    /\ (answer = true
        <-> version_pattern_spec.occurs "8.8.8.8"
            \/ fold_right Z.add 0 values < 30).
Proof.
  apply ipv4_is_possible_version_number_signals.
  repeat constructor; eexists; vm_compute; reflexivity.
Defined.

(** ** IPv6 text round trips *)

(** *** Hexadecimal digits *)

Lemma small_cases (d : Z) :
  0 <= d < 16 ->
  d = 0 \/ d = 1 \/ d = 2 \/ d = 3 \/ d = 4 \/ d = 5 \/ d = 6 \/ d = 7
  \/ d = 8 \/ d = 9 \/ d = 10 \/ d = 11 \/ d = 12 \/ d = 13 \/ d = 14 \/ d = 15.
Proof. lia. Qed.

Ltac by_digit H :=
  apply small_cases in H;
  repeat (destruct H as [H | H]; [subst; reflexivity |]);
  subst; reflexivity.

Lemma hex_digit_value_digit_char (d : Z) :
  0 <= d < 16 -> Py.hex_digit_value (Py.digit_char d) = d.
Proof. intros H. by_digit H. Qed.

Lemma is_hex_digit_digit_char (d : Z) :
  0 <= d < 16 -> Py.is_hex_digit (Py.digit_char d) = true.
Proof. intros H. by_digit H. Qed.

Lemma digit_char_not_colon (d : Z) :
  0 <= d < 16 -> Ascii.eqb (Py.digit_char d) ":" = false.
Proof. intros H. by_digit H. Qed.

Lemma digit_char_not_dot (d : Z) :
  0 <= d < 16 -> Ascii.eqb (Py.digit_char d) "." = false.
Proof. intros H. by_digit H. Qed.

Lemma hex_digit_value_range (c : ascii) :
  Py.is_hex_digit c = true -> 0 <= Py.hex_digit_value c < 16.
Proof.
  unfold Py.is_hex_digit, Py.hex_digit_value, Py.is_digit.
  intros H.
  destruct ((48 <=? Py.ord c) && (Py.ord c <=? 57)) eqn:H1.
  - apply andb_true_iff in H1. lia.
  - simpl in H.
    destruct ((65 <=? Py.ord c) && (Py.ord c <=? 70)) eqn:H2.
    + apply andb_true_iff in H2. lia.
    + simpl in H. apply andb_true_iff in H. lia.
Qed.

(** *** Fixed-width digits *)

(** The [w] lowest hexadecimal digits of [n], least significant first. *)
Fixpoint fixed_rev (w : nat) (n : Z) : list Z :=
  match w with
  | O => []
  | S w' => n mod 16 :: fixed_rev w' (n / 16)
  end.

(** The number whose hexadecimal digits, least significant first, are [ds]. *)
Fixpoint value_rev (ds : list Z) : Z :=
  match ds with
  | [] => 0
  | d :: r => d + 16 * value_rev r
  end.

Lemma fixed_rev_zero (w : nat) : fixed_rev w 0 = repeat 0 w.
Proof.
  induction w as [| w IH]; [reflexivity |].
  cbn [fixed_rev repeat]. change (0 / 16) with 0. change (0 mod 16) with 0.
  rewrite IH. reflexivity.
Qed.

Lemma fixed_rev_spec (w : nat) :
  forall n : Z,
    0 <= n < 16 ^ Z.of_nat w ->
    List.length (fixed_rev w n) = w
    /\ Forall (fun d => 0 <= d < 16) (fixed_rev w n)
    /\ value_rev (fixed_rev w n) = n.
Proof.
  induction w as [| w IH]; intros n Hn.
  - simpl in *. repeat split; [constructor | lia].
  - rewrite Nat2Z.inj_succ, Z.pow_succ_r in Hn by lia.
    assert (Hq : 0 <= n / 16 < 16 ^ Z.of_nat w).
    { split; [apply Z.div_pos; lia | apply Z.div_lt_upper_bound; lia]. }
    destruct (IH (n / 16) Hq) as (Hlen & Hall & Hval).
    cbn [fixed_rev value_rev List.length]. repeat split.
    + rewrite Hlen. reflexivity.
    + constructor; [apply Z.mod_pos_bound; lia | exact Hall].
    + rewrite Hval. pose proof (Z.div_mod n 16 ltac:(lia)). lia.
Qed.

(** With enough fuel, the digits of [n] padded with zeros to width [w] are
    its [w] lowest digits. *)
Lemma digits_rev_pad (fuel : nat) :
  forall (w : nat) (n : Z),
    0 <= n < 2 ^ Z.of_nat fuel -> n < 16 ^ Z.of_nat w ->
    (1 <= fuel)%nat -> (1 <= w)%nat ->
    (List.length (Py.digits_rev 16 fuel n) <= w)%nat
    /\ (Py.digits_rev 16 fuel n
        ++ repeat 0 (w - List.length (Py.digits_rev 16 fuel n)))%list
       = fixed_rev w n.
Proof.
  induction fuel as [| fuel IH]; intros w n Hn Hw Hf Hw1; [lia |].
  destruct w as [| w]; [lia |].
  cbn [Py.digits_rev fixed_rev].
  destruct (Z.eqb_spec (n / 16) 0) as [Hz | Hnz].
  - rewrite Hz, fixed_rev_zero. simpl. rewrite Nat.sub_0_r.
    split; [lia | reflexivity].
  - assert (H16 : 16 <= n).
    { destruct (Z.lt_ge_cases n 16) as [Hlt | Hge]; [| exact Hge].
      exfalso. apply Hnz. apply Z.div_small. lia. }
    rewrite Nat2Z.inj_succ, Z.pow_succ_r in Hn, Hw by lia.
    assert (Hfuel : (1 <= fuel)%nat).
    { destruct fuel; [simpl in Hn; lia | lia]. }
    assert (Hw' : (1 <= w)%nat).
    { destruct w; [simpl in Hw; lia | lia]. }
    assert (Hq : 0 <= n / 16 < 2 ^ Z.of_nat fuel).
    { split; [apply Z.div_pos; lia |].
      apply Z.div_lt_upper_bound; [lia |].
      assert (0 < 2 ^ Z.of_nat fuel) by (apply Z.pow_pos_nonneg; lia). lia. }
    assert (Hq' : n / 16 < 16 ^ Z.of_nat w).
    { apply Z.div_lt_upper_bound; lia. }
    destruct (IH w (n / 16) Hq Hq' Hfuel Hw') as [Hlen Hpad].
    simpl. split; [lia |]. rewrite Hpad. reflexivity.
Qed.

Lemma string_of_list_ascii_app (l1 l2 : list ascii) :
  string_of_list_ascii (l1 ++ l2)
  = (string_of_list_ascii l1 ++ string_of_list_ascii l2)%string.
Proof. induction l1 as [| c l1 IH]; simpl; [reflexivity |]. rewrite IH. reflexivity. Qed.

Lemma string_of_list_ascii_length (l : list ascii) :
  String.length (string_of_list_ascii l) = List.length l.
Proof. induction l as [| c l IH]; simpl; [reflexivity |]. rewrite IH. reflexivity. Qed.

Lemma rev_repeat {A : Type} (x : A) (k : nat) : rev (repeat x k) = repeat x k.
Proof.
  induction k as [| k IH]; simpl; [reflexivity |].
  rewrite IH. clear IH. induction k as [| k IH]; simpl; [reflexivity |].
  rewrite IH. reflexivity.
Qed.

(** ['%032x' % n] is the 32 lowest hexadecimal digits of [n] when [n] fits
    in 128 bits. *)
Lemma format_032x_fixed (n : Z) :
  0 <= n < 2 ^ 128 ->
  Py.format_032x n
  = string_of_list_ascii (map Py.digit_char (rev (fixed_rev 32 n))).
Proof.
  intros Hn. unfold Py.format_032x, Py.pad0, Py.format_x, Py.digits.
  set (fuel := S (Z.to_nat (Z.log2 n))).
  assert (Hfuel : 0 <= n < 2 ^ Z.of_nat fuel).
  { split; [lia |]. unfold fuel.
    rewrite Nat2Z.inj_succ, Z2Nat.id by apply Z.log2_nonneg.
    destruct (Z.eq_dec n 0) as [-> | Hnz]; [reflexivity |].
    apply Z.log2_spec. lia. }
  destruct (digits_rev_pad fuel 32 n Hfuel) as [Hlen Hpad];
    [change (16 ^ Z.of_nat 32) with (2 ^ 128); lia | unfold fuel; lia | lia |].
  rewrite <- Hpad, rev_app_distr, rev_repeat, map_app, string_of_list_ascii_app.
  rewrite string_of_list_ascii_length, length_map, length_rev.
  f_equal. f_equal.
  generalize (32 - List.length (Py.digits_rev 16 fuel n))%nat as k.
  induction k as [| k IH]; simpl; [reflexivity |]. rewrite IH. reflexivity.
Qed.

(** *** Hextets *)

(** [f] holds on [v], [v + 1], ..., [v + n - 1]. *)
Fixpoint holds_from (f : Z -> bool) (n : nat) (v : Z) : bool :=
  match n with
  | O => true
  | S n' => f v && holds_from f n' (v + 1)
  end.

Lemma holds_from_spec (f : Z -> bool) (n : nat) :
  forall v : Z,
    holds_from f n v = true ->
    forall k : Z, v <= k < v + Z.of_nat n -> f k = true.
Proof.
  induction n as [| n IH]; intros v H k Hk; [lia |].
  simpl in H. apply andb_true_iff in H. destruct H as [Hv Hrest].
  destruct (Z.eq_dec k v) as [-> | Hne]; [exact Hv |].
  apply (IH (v + 1) Hrest). lia.
Qed.

Lemma value_rev_app_zeros (ds : list Z) (k : nat) :
  value_rev (ds ++ repeat 0 k) = value_rev ds.
Proof.
  induction ds as [| d ds IH]; cbn [app value_rev].
  - induction k as [| k IHk]; cbn [repeat value_rev]; lia.
  - rewrite IH. reflexivity.
Qed.

(** The digits [Py.digits_rev] produces: at least one, each below 16, and
    they are the digits of [n]. *)
Lemma digits_rev_spec (w : nat) (n : Z) :
  0 <= n < 16 ^ Z.of_nat w -> (1 <= w)%nat ->
  let ds := Py.digits_rev 16 (S (Z.to_nat (Z.log2 n))) n in
  (1 <= List.length ds <= w)%nat
  /\ Forall (fun d => 0 <= d < 16) ds
  /\ value_rev ds = n.
Proof.
  intros Hn Hw ds.
  assert (Hfuel : 0 <= n < 2 ^ Z.of_nat (S (Z.to_nat (Z.log2 n)))).
  { split; [lia |].
    rewrite Nat2Z.inj_succ, Z2Nat.id by apply Z.log2_nonneg.
    destruct (Z.eq_dec n 0) as [-> | Hnz]; [reflexivity |].
    apply Z.log2_spec. lia. }
  destruct (digits_rev_pad _ w n Hfuel) as [Hlen Hpad]; [lia | lia | lia |].
  fold ds in Hlen, Hpad.
  destruct (fixed_rev_spec w n Hn) as (_ & Hall & Hval).
  rewrite <- Hpad in Hall, Hval.
  apply Forall_app in Hall. destruct Hall as [Hall _].
  rewrite value_rev_app_zeros in Hval.
  repeat split; try assumption.
  subst ds. cbn [Py.digits_rev List.length]. lia.
Qed.

Lemma int_of_digits_rev (ds : list Z) :
  Forall (fun d => 0 <= d < 16) ds ->
  Py.int_of_digits 16 Py.hex_digit_value
    (string_of_list_ascii (map Py.digit_char (rev ds)))
  = value_rev ds.
Proof.
  unfold Py.int_of_digits. rewrite list_ascii_of_string_of_list_ascii.
  intros Hall. induction Hall as [| d ds Hd Hall IH]; [reflexivity |].
  cbn [rev value_rev]. rewrite map_app, fold_left_app, IH.
  cbn [map fold_left]. rewrite hex_digit_value_digit_char by assumption. lia.
Qed.

Lemma all_hex_digit_chars (ds : list Z) :
  Forall (fun d => 0 <= d < 16) ds ->
  Py.all_chars Py.is_hex_digit (string_of_list_ascii (map Py.digit_char ds)) = true.
Proof.
  induction 1 as [| d ds Hd Hall IH]; [reflexivity |].
  cbn [map string_of_list_ascii Py.all_chars].
  rewrite is_hex_digit_digit_char by assumption. exact IH.
Qed.

(** ['%x' % v] parses back to [v] as a hextet. *)
Lemma parse_hextet_format_x (v : Z) :
  0 <= v < 65536 -> ipaddress._BaseV6._parse_hextet (Py.format_x v) = Ok v.
Proof.
  intros Hv.
  destruct (digits_rev_spec 4 v) as (Hlen & Hall & Hval);
    [change (16 ^ Z.of_nat 4) with 65536; lia | lia |].
  unfold ipaddress._BaseV6._parse_hextet, Py.format_x, Py.digits.
  set (ds := Py.digits_rev 16 (S (Z.to_nat (Z.log2 v))) v) in *.
  assert (Hrev : Forall (fun d => 0 <= d < 16) (rev ds)).
  { apply Forall_forall. intros d Hd. apply in_rev in Hd.
    revert d Hd. apply Forall_forall. exact Hall. }
  rewrite all_hex_digit_chars by exact Hrev. cbn [negb].
  unfold Py.len. rewrite string_of_list_ascii_length, length_map, length_rev.
  destruct (Z.ltb_spec 4 (Z.of_nat (List.length ds))); [lia |].
  assert (Hne : Py.is_empty (string_of_list_ascii (map Py.digit_char (rev ds)))
                = false).
  { destruct (rev ds) as [| d r] eqn:Hr; [| reflexivity].
    apply (f_equal (@List.length Z)) in Hr. rewrite length_rev in Hr.
    simpl in Hr. lia. }
  rewrite Hne, int_of_digits_rev by exact Hall. rewrite Hval. reflexivity.
Qed.

(** What an accepted hextet text is made of. *)
Lemma parse_hextet_ok (h : string) (v : Z) :
  ipaddress._BaseV6._parse_hextet h = Ok v ->
  Py.is_empty h = false
  /\ Py.all_chars Py.is_hex_digit h = true
  /\ (String.length h <= 4)%nat
  /\ v = Py.int_of_digits 16 Py.hex_digit_value h.
Proof.
  unfold ipaddress._BaseV6._parse_hextet.
  destruct (Py.all_chars Py.is_hex_digit h); simpl; [| discriminate].
  destruct (Z.ltb_spec 4 (Py.len h)); [discriminate |].
  destruct (Py.is_empty h); [discriminate |].
  intros H'; inversion H'; subst. unfold Py.len in *. repeat split. lia.
Qed.

Lemma all_hex_no (c : ascii) (h : string) :
  Py.is_hex_digit c = false ->
  Py.all_chars Py.is_hex_digit h = true -> Py.contains c h = false.
Proof. intros Hc Hall. eapply all_chars_excludes; eauto. Qed.

Lemma parse_hextet_range (h : string) (v : Z) :
  ipaddress._BaseV6._parse_hextet h = Ok v -> 0 <= v < 65536.
Proof.
  intros H. apply parse_hextet_ok in H. destruct H as (_ & Hall & Hlen & ->).
  unfold Py.int_of_digits.
  destruct h as [| c1 [| c2 [| c3 [| c4 [| c5 r]]]]]; simpl in *; try lia;
    repeat match goal with
           | H : _ && _ = true |- _ => apply andb_true_iff in H; destruct H
           | H : Py.is_hex_digit ?c = true |- _ =>
               apply hex_digit_value_range in H
           end; lia.
Qed.

(** * Further properties of the module *)

(** ** Address version and the IPv6 formatters *)

Lemma IPv4Address_version (s : string) (a : ipaddress.address) :
  ipaddress.IPv4Address s = Ok a -> ipaddress.addr_version a = ipaddress.v4.
Proof.
  unfold ipaddress.IPv4Address.
  destruct (Py.contains "/" s); [discriminate |].
  destruct (ipaddress._BaseV4._ip_int_from_string s); simpl; [| discriminate].
  intros H; inversion H; reflexivity.
Qed.

Lemma IPv6Address_version (s : string) (a : ipaddress.address) :
  ipaddress.IPv6Address s = Ok a -> ipaddress.addr_version a = ipaddress.v6.
Proof.
  unfold ipaddress.IPv6Address.
  destruct (Py.contains "/" s); [discriminate |].
  destruct (ipaddress._BaseV6._split_scope_id s) as [[addr scope] |]; simpl;
    [| discriminate].
  destruct (ipaddress._BaseV6._ip_int_from_string addr); simpl; [| discriminate].
  intros H; inversion H; reflexivity.
Qed.

(** How [ip_address] chooses: the IPv4 reading when there is one, else the
    IPv6 reading. *)
Lemma ip_address_ok (s : string) (a : ipaddress.address) :
  ipaddress.ip_address s = Ok a ->
  ipaddress.IPv4Address s = Ok a
  \/ (ipaddress.IPv4Address s = Raise AddressValueError
      /\ ipaddress.IPv6Address s = Ok a).
Proof.
  unfold ipaddress.ip_address, ipaddress.try_or_else.
  destruct (ipaddress.IPv4Address s) as [a4 | e4] eqn:H4.
  - intros H; inversion H; subst. left. reflexivity.
  - apply IPv4Address_raises in H4. subst e4. simpl.
    destruct (ipaddress.IPv6Address s) as [a6 | e6] eqn:H6.
    + intros H; inversion H; subst. right. split; reflexivity.
    + apply IPv6Address_raises in H6. subst e6. simpl. discriminate.
Qed.

(** X1.  On every text that parses as an address, [ip_version] is decided
    by the presence of a colon: 6 when the text contains [':'], 4 when it
    does not. *)
Theorem ip_version_by_colon (ip : string) (a : ipaddress.address) :
  ipaddress.ip_address ip = Ok a ->
  ip_version ip = Ok (if Py.contains ":" ip then 6 else 4).
Proof.
  intros Hp. unfold ip_version. rewrite Hp. simpl.
  unfold ipaddress.version_of.
  destruct (ip_address_ok ip a Hp) as [H4 | [_ H6]].
  - rewrite (IPv4Address_ok_no_colon _ _ H4), (IPv4Address_version _ _ H4).
    reflexivity.
  - rewrite (IPv6Address_ok_colon _ _ H6), (IPv6Address_version _ _ H6).
    reflexivity.
Qed.

Lemma ip_version_by_colon_witness :
  ip_version "8.8.8.8" = Ok (if Py.contains ":" "8.8.8.8" then 6 else 4).
Proof.
  apply (ip_version_by_colon "8.8.8.8"
           (ipaddress.mkAddress ipaddress.v4 134744072 None)).
  vm_compute. reflexivity.
Defined.

Lemma IPv6Address_needs_colon (s : string) :
  Py.contains ":" s = false -> ipaddress.IPv6Address s = Raise AddressValueError.
Proof.
  intros Hc. destruct (ipaddress.IPv6Address s) as [a | e] eqn:H6.
  - apply IPv6Address_ok_colon in H6. congruence.
  - apply IPv6Address_raises in H6. subst. reflexivity.
Qed.

(** X2.  The three IPv6 formatters do not go through [ip_address]: on
    every text that is a valid IPv4 address they raise
    [AddressValueError]. *)
Theorem ipv6_formatters_reject_ipv4_text (ip_v6 : string) :
  ip_version ip_v6 = Ok 4 ->
  ipv6_expand ip_v6 = Raise AddressValueError
  /\ ipv6_compress ip_v6 = Raise AddressValueError
  /\ ipv6_threatconnect_form ip_v6 = Raise AddressValueError.
Proof.
  unfold ip_version. intros Hv.
  destruct (ipaddress.ip_address ip_v6) as [a | e] eqn:Hp; simpl in Hv;
    [| discriminate].
  assert (Hc : Py.contains ":" ip_v6 = false).
  { destruct (ip_address_ok ip_v6 a Hp) as [H4 | [_ H6]].
    - eapply IPv4Address_ok_no_colon; eauto.
    - apply IPv6Address_version in H6. unfold ipaddress.version_of in Hv.
      rewrite H6 in Hv. simpl in Hv. inversion Hv. }
  unfold ipv6_threatconnect_form, ipv6_expand, ipv6_compress.
  rewrite (IPv6Address_needs_colon _ Hc). simpl. repeat split.
Qed.

Lemma ipv6_formatters_reject_ipv4_text_witness :
  ipv6_expand "192.168.1.1" = Raise AddressValueError
  /\ ipv6_compress "192.168.1.1" = Raise AddressValueError
  /\ ipv6_threatconnect_form "192.168.1.1" = Raise AddressValueError.
Proof.
  apply ipv6_formatters_reject_ipv4_text. vm_compute. reflexivity.
Defined.

(** ** Rejected network blocks *)

Lemma int_raises (s : string) (e : exn) : Py.int s = Raise e -> e = ValueError.
Proof.
  unfold Py.int.
  destruct (Py.utf8_decode (list_ascii_of_string s)) as [cps |];
    [| intros H; inversion H; reflexivity].
  unfold Py.int_of_ascii.
  destruct (match Py.strip_space (Py.transform_decimal_and_space_to_ascii cps) with
            | [] => _ | _ :: _ => _ end) as [negative unsigned].
  destruct (Py.digits_with_underscores false unsigned) as [ds |].
  - destruct (Nat.ltb _ _); intros H; inversion H; reflexivity.
  - intros H; inversion H; reflexivity.
Qed.

Lemma prefix_from_prefix_string_raises (v : ipaddress.version) (s : string) (e : exn) :
  ipaddress._prefix_from_prefix_string v s = Raise e -> e = NetmaskValueError.
Proof.
  unfold ipaddress._prefix_from_prefix_string.
  destruct (negb (Py.isascii_isdigit s)); [intros H; inversion H; reflexivity |].
  destruct (Py.int s) as [p | e0] eqn:Hi; simpl.
  - destruct (negb _); intros H; inversion H; reflexivity.
  - apply int_raises in Hi. subst e0. simpl. intros H; inversion H; reflexivity.
Qed.

Lemma prefix_from_ip_int_raises (v : ipaddress.version) (ip_int : Z) (e : exn) :
  ipaddress._prefix_from_ip_int v ip_int = Raise e -> e = ValueError.
Proof.
  unfold ipaddress._prefix_from_ip_int.
  destruct (negb _); intros H; inversion H; reflexivity.
Qed.

Lemma make_netmask_raises (v : ipaddress.version) (mask : option string) (e : exn) :
  ipaddress._make_netmask v mask = Raise e -> e = NetmaskValueError.
Proof.
  unfold ipaddress._make_netmask.
  destruct mask as [arg |]; [| discriminate].
  destruct v; [| apply prefix_from_prefix_string_raises].
  destruct (ipaddress._prefix_from_prefix_string ipaddress.v4 arg) as [p | e0] eqn:Hp;
    [discriminate |].
  apply prefix_from_prefix_string_raises in Hp. subst e0.
  unfold ipaddress._prefix_from_ip_string.
  destruct (ipaddress._BaseV4._ip_int_from_string arg) as [ip | e0] eqn:Hip.
  - destruct (ipaddress._prefix_from_ip_int ipaddress.v4 ip) as [p | e1];
      [discriminate |].
    destruct (ipaddress._prefix_from_ip_int ipaddress.v4 (Z.lxor ip _))
      as [p | e2] eqn:H2; simpl; [discriminate |].
    apply prefix_from_ip_int_raises in H2. subst e2. simpl.
    intros H; inversion H; reflexivity.
  - apply v4_ip_int_from_string_raises in Hip. subst e0. simpl.
    intros H; inversion H; reflexivity.
Qed.

Lemma make_network_raises (v : ipaddress.version) (s : string) (e : exn) :
  ipaddress.make_network v s = Raise e -> is_ValueError e = true.
Proof.
  unfold ipaddress.make_network.
  destruct (ipaddress._split_addr_prefix s) as [[addr mask] | e0] eqn:Hs; simpl.
  2:{ intros H; inversion H; subst e0. unfold ipaddress._split_addr_prefix in Hs.
      destruct (Py.split "/" s) as [| x [| y [| z r]]]; inversion Hs; reflexivity. }
  match goal with
  | |- bind ?r _ = _ -> _ => destruct r as [a | e0] eqn:Ha; simpl
  end.
  2:{ intros H; inversion H; subst e0.
      destruct v; [apply IPv4Address_raises in Ha | apply IPv6Address_raises in Ha];
        subst; reflexivity. }
  destruct (ipaddress._make_netmask v mask) as [p | e0] eqn:Hm; simpl.
  2:{ intros H; inversion H; subst e0. apply make_netmask_raises in Hm.
      subst. reflexivity. }
  destruct (negb _); intros H; inversion H; reflexivity.
Qed.

(** A rejected network text makes [ip_network] raise [ValueError] itself. *)
Lemma ip_network_raises (s : string) (e : exn) :
  ipaddress.ip_network s = Raise e -> e = ValueError.
Proof.
  unfold ipaddress.ip_network, ipaddress.IPv4Network, ipaddress.IPv6Network.
  intros H.
  apply try_or_else_raise in H. destruct H as [[H Hn] | [_ H]].
  - apply make_network_raises in H. destruct e; try discriminate; reflexivity.
  - apply try_or_else_raise in H. destruct H as [[H Hn] | [_ H]].
    + apply make_network_raises in H. destruct e; try discriminate; reflexivity.
    + inversion H; reflexivity.
Qed.

(** X3.  On every text that is not an accepted network block, the four
    eager operations raise [ValueError], consuming the enumeration raises
    it, and [ip_in_network_block] raises it whatever the address text is
    (it looks at the block before it looks at the address). *)
Theorem rejected_network_block_raises_ValueError (network_block : string) (e : exn) :
  ipaddress.ip_network network_block = Raise e ->
  ip_network_block_first_address network_block = Raise ValueError
  /\ ip_network_block_last_address network_block = Raise ValueError
  /\ ip_network_block_ip_count network_block = Raise ValueError
  /\ ip_network_block_to_range network_block = Raise ValueError
  /\ list_of (ip_network_block_enumerate network_block) = Some (Raise ValueError)
  /\ forall ip_address : string,
      ip_in_network_block ip_address network_block = Some (Raise ValueError).
Proof.
  intros H. pose proof (ip_network_raises _ _ H) as ->.
  unfold ip_network_block_first_address, ip_network_block_last_address,
    ip_network_block_ip_count, ip_network_block_to_range.
  rewrite H. simpl. repeat split.
  - rewrite list_of_total. simpl. rewrite H. reflexivity.
  - intros ip_address. rewrite ip_in_network_block_total. simpl. rewrite H.
    reflexivity.
Qed.

Lemma rejected_network_block_raises_ValueError_witness :
  ip_network_block_first_address "10.0.0.0/33" = Raise ValueError
  /\ ip_network_block_last_address "10.0.0.0/33" = Raise ValueError
  /\ ip_network_block_ip_count "10.0.0.0/33" = Raise ValueError
  /\ ip_network_block_to_range "10.0.0.0/33" = Raise ValueError
  /\ list_of (ip_network_block_enumerate "10.0.0.0/33") = Some (Raise ValueError)
  /\ forall ip_address : string,
      ip_in_network_block ip_address "10.0.0.0/33" = Some (Raise ValueError).
Proof.
  apply (rejected_network_block_raises_ValueError "10.0.0.0/33" ValueError).
  vm_compute. reflexivity.
Defined.

(** ** The version-number heuristic on arbitrary text *)

(** X4.  The pattern is tried first: wherever it matches,
    [ipv4_is_possible_version_number] returns [True] without converting
    any section, so also on text whose sections are not integers. *)
Theorem version_pattern_match_returns_true (ipv4_address : string) :
  version_pattern_spec.occurs ipv4_address ->
  ipv4_is_possible_version_number ipv4_address = Ok true.
Proof.
  intros H. apply findall_nonempty_iff_occurs in H.
  unfold ipv4_is_possible_version_number.
  destruct (version_pattern.findall ipv4_address); [congruence | reflexivity].
Qed.

Lemma version_pattern_match_returns_true_witness :
  ipv4_is_possible_version_number "v1.0.x" = Ok true
  /\ ipv4_sum "v1.0.x" = Raise ValueError.
Proof.
  split; [| vm_compute; reflexivity].
  apply version_pattern_match_returns_true.
  exists "v", "1.0.x". repeat split.
  apply (version_pattern_spec.body_one_digit "1" "0" "x"); reflexivity.
Defined.

(** X5.  Where the pattern matches nowhere and some dot-separated section
    is not an integer, [ipv4_is_possible_version_number] raises
    [ValueError], and so does [ipv4_sum]. *)
Theorem version_number_raises_on_non_integer_section
        (ipv4_address section : string) (e : exn) :
  ~ version_pattern_spec.occurs ipv4_address ->
  In section (Py.split "." ipv4_address) ->
  Py.int section = Raise e ->
  ipv4_sum ipv4_address = Raise ValueError
  /\ ipv4_is_possible_version_number ipv4_address = Raise ValueError.
Proof.
  intros Hno Hin Hraise.
  assert (Hsum : ipv4_sum ipv4_address = Raise ValueError).
  { unfold ipv4_sum.
    destruct (mapM Py.int (Py.split "." ipv4_address)) as [vs | e0] eqn:Hm.
    - exfalso. apply mapM_ok in Hm.
      clear - Hm Hin Hraise.
      induction Hm as [| x y l l' Hxy _ IH]; [inversion Hin |].
      destruct Hin as [-> | Hin]; [congruence | auto].
    - apply mapM_raise in Hm. destruct Hm as [x [_ Hx]].
      apply int_raises in Hx. subst. reflexivity. }
  split; [exact Hsum |].
  unfold ipv4_is_possible_version_number.
  destruct (version_pattern.findall ipv4_address) as [| m ms] eqn:Hf.
  - rewrite Hsum. reflexivity.
  - exfalso. apply Hno. apply findall_nonempty_iff_occurs. congruence.
Qed.

Lemma version_number_raises_on_non_integer_section_witness :
  ipv4_sum "30.x" = Raise ValueError
  /\ ipv4_is_possible_version_number "30.x" = Raise ValueError.
Proof.
  apply (version_number_raises_on_non_integer_section "30.x" "x" ValueError).
  - intros H. apply findall_nonempty_iff_occurs in H. apply H.
    vm_compute. reflexivity.
  - right. left. reflexivity.
  - vm_compute. reflexivity.
Defined.

(** ** The size of a network block *)

(** What every network object built by [ip_network] satisfies. *)
Record network_wf (n : ipaddress.network) : Prop := {
  wf_version :
    ipaddress.addr_version (ipaddress.network_address n) = ipaddress.net_version n;
  wf_prefixlen :
    0 <= ipaddress._prefixlen n <= ipaddress._max_prefixlen (ipaddress.net_version n);
  wf_aligned :
    Z.land (ipaddress._ip (ipaddress.network_address n)) (ipaddress.netmask n)
    = ipaddress._ip (ipaddress.network_address n)
}.

Lemma make_network_wf (v : ipaddress.version) (s : string) (n : ipaddress.network) :
  ipaddress.make_network v s = Ok n -> ipaddress.net_version n = v /\ network_wf n.
Proof.
  unfold ipaddress.make_network.
  destruct (ipaddress._split_addr_prefix s) as [[addr mask] | e0]; simpl;
    [| discriminate].
  match goal with
  | |- bind ?r _ = _ -> _ => destruct r as [a | e0] eqn:Ha; simpl
  end; [| discriminate].
  destruct (ipaddress._make_netmask v mask) as [p | e0] eqn:Hm; simpl;
    [| discriminate].
  destruct (Z.eqb_spec (Z.land (ipaddress._ip a) (ipaddress._ip_int_from_prefix v p))
                       (ipaddress._ip a)) as [Heq | Hne]; simpl; [| discriminate].
  intros H; inversion H; subst. split; [reflexivity |].
  constructor; simpl.
  - destruct v; [eapply IPv4Address_version | eapply IPv6Address_version]; eauto.
  - eapply make_netmask_range; eauto.
  - exact Heq.
Qed.

Lemma ip_network_wf (s : string) (n : ipaddress.network) :
  ipaddress.ip_network s = Ok n -> network_wf n.
Proof.
  unfold ipaddress.ip_network, ipaddress.try_or_else,
    ipaddress.IPv4Network, ipaddress.IPv6Network.
  destruct (ipaddress.make_network ipaddress.v4 s) as [n4 | e4] eqn:H4.
  - intros H; inversion H; subst. eapply make_network_wf; eauto.
  - destruct (is_address_or_netmask_error e4); [| discriminate].
    destruct (ipaddress.make_network ipaddress.v6 s) as [n6 | e6] eqn:H6.
    + intros H; inversion H; subst. eapply make_network_wf; eauto.
    + destruct (is_address_or_netmask_error e6); discriminate.
Qed.

(** The host mask of a prefix of length [p] is the [_max_prefixlen - p]
    lowest bits. *)
Lemma hostmask_ones (n : ipaddress.network) :
  network_wf n ->
  ipaddress.hostmask n
  = Z.ones (ipaddress._max_prefixlen (ipaddress.net_version n) - ipaddress._prefixlen n).
Proof.
  intros [_ Hp _]. unfold ipaddress.hostmask, ipaddress.netmask.
  set (v := ipaddress.net_version n) in *. set (p := ipaddress._prefixlen n) in *.
  apply Z.bits_inj'. intros i Hi.
  rewrite Z.lxor_spec, netmask_testbit, ALL_ONES_ones by assumption.
  rewrite !Z.testbit_ones_nonneg by lia.
  destruct (Z.leb_spec (ipaddress._max_prefixlen v - p) i);
    destruct (Z.ltb_spec i (ipaddress._max_prefixlen v));
    destruct (Z.ltb_spec i (ipaddress._max_prefixlen v - p)); simpl; try reflexivity; lia.
Qed.

Lemma network_and_hostmask_disjoint (n : ipaddress.network) :
  network_wf n ->
  Z.land (ipaddress._ip (ipaddress.network_address n)) (ipaddress.hostmask n) = 0.
Proof.
  intros Hwf. pose proof Hwf as [_ Hp Hal].
  rewrite <- Hal at 1. rewrite hostmask_ones by assumption. unfold ipaddress.netmask.
  apply Z.bits_inj'. intros i Hi.
  rewrite !Z.land_spec, netmask_testbit, Z.bits_0, Z.testbit_ones_nonneg by lia.
  destruct (Z.leb_spec (ipaddress._max_prefixlen (ipaddress.net_version n)
                        - ipaddress._prefixlen n) i);
    destruct (Z.ltb_spec i (ipaddress._max_prefixlen (ipaddress.net_version n)
                            - ipaddress._prefixlen n)); simpl;
    rewrite ?andb_false_r; try reflexivity; lia.
Qed.

(** The broadcast address is the network address plus the host mask. *)
Lemma broadcast_int_add (n : ipaddress.network) :
  network_wf n ->
  ipaddress.broadcast_int n
  = ipaddress._ip (ipaddress.network_address n)
    + (2 ^ (ipaddress._max_prefixlen (ipaddress.net_version n) - ipaddress._prefixlen n)
       - 1).
Proof.
  intros Hwf. unfold ipaddress.broadcast_int.
  pose proof (network_and_hostmask_disjoint n Hwf) as Hd.
  rewrite <- Z.lxor_lor, <- Z.add_nocarry_lxor by exact Hd.
  rewrite hostmask_ones, Z.ones_equiv by assumption. lia.
Qed.

Lemma ip_count_of_block (network_block_string : string) (ip : ipaddress.network) :
  ipaddress.ip_network network_block_string = Ok ip ->
  ip_network_block_ip_count network_block_string
  = Ok (2 ^ (ipaddress._max_prefixlen (ipaddress.net_version ip)
             - ipaddress._prefixlen ip)).
Proof.
  intros Hn. pose proof (ip_network_wf _ _ Hn) as Hwf.
  unfold ip_network_block_ip_count. rewrite Hn. cbn [bind]. f_equal.
  unfold ipaddress.num_addresses. rewrite broadcast_int_add by assumption. lia.
Qed.

(** X6.  The address count of an accepted block is the power of two fixed
    by its prefix length: [2 ^ (32 - p)] for an IPv4 block and
    [2 ^ (128 - p)] for an IPv6 block. *)
Theorem ip_network_block_ip_count_power_of_two
        (network_block_string : string) (ip : ipaddress.network) :
  ipaddress.ip_network network_block_string = Ok ip ->
  0 <= ipaddress._prefixlen ip <= ipaddress._max_prefixlen (ipaddress.net_version ip)
  /\ ip_network_block_ip_count network_block_string
     = Ok (2 ^ (ipaddress._max_prefixlen (ipaddress.net_version ip)
                - ipaddress._prefixlen ip)).
Proof.
  intros Hn. pose proof (ip_network_wf _ _ Hn) as Hwf.
  split; [apply Hwf |].
  unfold ip_network_block_ip_count. rewrite Hn. simpl. f_equal.
  unfold ipaddress.num_addresses. rewrite broadcast_int_add by assumption. lia.
Qed.

Lemma ip_network_block_ip_count_power_of_two_witness :
  0 <= 24 <= 32 /\ ip_network_block_ip_count "10.0.0.0/24" = Ok (2 ^ (32 - 24)).
Proof.
  apply (ip_network_block_ip_count_power_of_two "10.0.0.0/24"
           (ipaddress.mkNetwork ipaddress.v4
              (ipaddress.mkAddress ipaddress.v4 167772160 None) 24)).
  vm_compute. reflexivity.
Defined.

(** ** The shape of the enumeration *)

(** How many elements the enumeration yields beyond the address count. *)
Definition repeated_addresses (ip : ipaddress.network) : Z :=
  let v := ipaddress.net_version ip in
  if ipaddress._max_prefixlen v - ipaddress._prefixlen ip <=? 1 then 2
  else match v with ipaddress.v4 => 0 | ipaddress.v6 => 1 end.

Lemma hosts_size (ip : ipaddress.network) :
  network_wf ip ->
  Z.of_nat (iterator_size (ipaddress.hosts ip)) + 2
  = ipaddress.num_addresses ip + repeated_addresses ip.
Proof.
  intros Hwf. pose proof Hwf as [_ Hp _].
  unfold ipaddress.num_addresses, repeated_addresses, ipaddress.hosts.
  rewrite broadcast_int_add by assumption.
  set (v := ipaddress.net_version ip) in *.
  set (p := ipaddress._prefixlen ip) in *.
  set (net := ipaddress._ip (ipaddress.network_address ip)).
  destruct (Z.eqb_spec p (ipaddress._max_prefixlen v - 1)) as [H31 | H31].
  - replace (ipaddress._max_prefixlen v - p) with 1 by lia.
    change (2 ^ 1) with 2. change (1 <=? 1) with true. cbn [iterator_size]. lia.
  - destruct (Z.eqb_spec p (ipaddress._max_prefixlen v)) as [H32 | H32].
    + replace (ipaddress._max_prefixlen v - p) with 0 by lia.
      change (2 ^ 0) with 1. change (0 <=? 1) with true.
      cbn [iterator_size List.length]. lia.
    + assert (Hk : 2 <= ipaddress._max_prefixlen v - p) by lia.
      destruct (Z.leb_spec (ipaddress._max_prefixlen v - p) 1); [lia |].
      assert (Hpow : 4 <= 2 ^ (ipaddress._max_prefixlen v - p)).
      { change 4 with (2 ^ 2). apply Z.pow_le_mono_r; lia. }
      destruct v; cbn [iterator_size]; lia.
Qed.

(** X7.  For every accepted block the enumeration starts with
    [ip_network_block_first_address], ends with
    [ip_network_block_last_address], and its length exceeds
    [ip_network_block_ip_count] by the number of repeated boundary
    addresses: none for an IPv4 block with a prefix of at most 30, one for
    an IPv6 block with a prefix of at most 126, two for the two longest
    prefixes of either version. *)
Theorem enumerate_boundaries_and_length
        (network_block_string : string) (ip : ipaddress.network) :
  ipaddress.ip_network network_block_string = Ok ip ->
  exists (first last : string) (middle : list string) (count : Z),
    ip_network_block_first_address network_block_string = Ok first
    /\ ip_network_block_last_address network_block_string = Ok last
    /\ ip_network_block_ip_count network_block_string = Ok count
    /\ list_of (ip_network_block_enumerate network_block_string)
       = Some (Ok (first :: middle ++ [last]))
    /\ Z.of_nat (List.length (first :: middle ++ [last]))
       = count + repeated_addresses ip.
Proof.
  intros Hn. pose proof (ip_network_wf _ _ Hn) as Hwf.
  exists (ipaddress.str (ipaddress.network_address ip)),
    (ipaddress.str (ipaddress.broadcast_address ip)),
    (map ipaddress.str (iterator_items (ipaddress.hosts ip))),
    (ipaddress.num_addresses ip).
  unfold ip_network_block_first_address, ip_network_block_last_address,
    ip_network_block_ip_count.
  rewrite Hn, list_of_total. simpl. rewrite Hn. simpl.
  repeat split.
  rewrite <- hosts_size by assumption.
  rewrite length_app, length_map, iterator_items_length. simpl. lia.
Qed.

Lemma enumerate_boundaries_and_length_witness :
  exists (first last : string) (middle : list string) (count : Z),
    ip_network_block_first_address "10.0.0.0/29" = Ok first
    /\ ip_network_block_last_address "10.0.0.0/29" = Ok last
    /\ ip_network_block_ip_count "10.0.0.0/29" = Ok count
    /\ list_of (ip_network_block_enumerate "10.0.0.0/29")
       = Some (Ok (first :: middle ++ [last]))
    /\ Z.of_nat (List.length (first :: middle ++ [last]))
       = count + repeated_addresses
                   (ipaddress.mkNetwork ipaddress.v4
                      (ipaddress.mkAddress ipaddress.v4 167772160 None) 29).
Proof.
  apply enumerate_boundaries_and_length. vm_compute. reflexivity.
Defined.

(** ** IPv4 text round trips *)

Lemma join_cons (sep x y : string) (l : list string) :
  Py.join sep (x :: y :: l) = (x ++ sep ++ Py.join sep (y :: l))%string.
Proof. reflexivity. Qed.

Lemma split_not_nil (sep : ascii) (s : string) : Py.split sep s <> [].
Proof.
  destruct s as [| c r]; simpl; [discriminate |].
  destruct (Ascii.eqb c sep); [discriminate |].
  destruct (Py.split sep r); discriminate.
Qed.

(** Joining what [split] gave back restores the text. *)
Lemma join_split (sep : ascii) (s : string) :
  Py.join (String sep EmptyString) (Py.split sep s) = s.
Proof.
  induction s as [| c r IH]; [reflexivity |].
  cbn [Py.split]. pose proof (split_not_nil sep r) as Hnn.
  destruct (Py.split sep r) as [| h t] eqn:Hs; [congruence |].
  destruct (Ascii.eqb_spec c sep) as [-> | Hne].
  - rewrite join_cons, IH. reflexivity.
  - destruct t as [| h' t'].
    + simpl in IH. simpl. rewrite IH. reflexivity.
    + rewrite join_cons in IH. rewrite join_cons.
      change (String c h ++ ?t)%string with (String c (h ++ t)%string).
      rewrite IH. reflexivity.
Qed.

Lemma split_app_sep (sep : ascii) (x rest : string) :
  Py.contains sep x = false ->
  Py.split sep (x ++ String sep rest) = x :: Py.split sep rest.
Proof.
  induction x as [| c x IH]; intros Hc.
  - simpl. rewrite Ascii.eqb_refl. reflexivity.
  - simpl in Hc. apply orb_false_iff in Hc. destruct Hc as [Hc1 Hc2].
    simpl. rewrite Hc1, (IH Hc2). reflexivity.
Qed.

(** Splitting what [join] built gives the parts back, when no part
    contains the separator. *)
Lemma split_join (sep : ascii) (parts : list string) :
  parts <> [] ->
  Forall (fun p => Py.contains sep p = false) parts ->
  Py.split sep (Py.join (String sep EmptyString) parts) = parts.
Proof.
  intros Hne Hall. induction Hall as [| x l Hx Hl IH]; [congruence |].
  destruct l as [| y l'].
  - simpl. apply split_without_sep. exact Hx.
  - rewrite join_cons. change (String sep "" ++ ?t)%string with (String sep t).
    rewrite split_app_sep by exact Hx. rewrite IH by congruence. reflexivity.
Qed.

(** *** Octets *)

Definition octet_round_trip (b : Z) : bool :=
  match ipaddress._BaseV4._parse_octet (Py.str b) with
  | Ok b' => b' =? b
  | Raise _ => false
  end.

(** [str(b)] parses back to [b] as an octet, for each of the 256 values. *)
Lemma parse_octet_str (b : Z) :
  0 <= b < 256 -> ipaddress._BaseV4._parse_octet (Py.str b) = Ok b.
Proof.
  intros Hb.
  assert (H : holds_from octet_round_trip (Z.to_nat 256) 0 = true)
    by (vm_compute; reflexivity).
  assert (Hk : octet_round_trip b = true).
  { apply (holds_from_spec _ _ _ H). rewrite Z2Nat.id; lia. }
  unfold octet_round_trip in Hk.
  destruct (ipaddress._BaseV4._parse_octet (Py.str b)) as [b' |]; [| discriminate].
  apply Z.eqb_eq in Hk. subst. reflexivity.
Qed.

Lemma is_digit_digit_char (c : ascii) :
  Py.is_digit c = true ->
  0 <= Py.digit_value c < 10 /\ c = Py.digit_char (Py.digit_value c).
Proof.
  unfold Py.is_digit, Py.digit_value, Py.digit_char, Py.chr, Py.ord.
  intros H. apply andb_true_iff in H. destruct H as [H1 H2].
  apply Z.leb_le in H1, H2. split; [lia |].
  destruct (Z.ltb_spec (Z.of_N (N_of_ascii c) - 48) 10); [| lia].
  replace (48 + (Z.of_N (N_of_ascii c) - 48)) with (Z.of_N (N_of_ascii c)) by lia.
  rewrite N2Z.id, ascii_N_embedding. reflexivity.
Qed.

(** An accepted octet text is the decimal writing of its value. *)
Definition octet_text_canonical (s : string) : bool :=
  match ipaddress._BaseV4._parse_octet s with
  | Ok b => String.eqb (Py.str b) s && (0 <=? b) && (b <? 256)
  | Raise _ => true
  end.

Definition digit_text (ds : list Z) : string :=
  string_of_list_ascii (map Py.digit_char ds).

Lemma octet_texts_canonical :
  holds_from (fun d1 => octet_text_canonical (digit_text [d1])
    && holds_from (fun d2 => octet_text_canonical (digit_text [d1; d2])
         && holds_from (fun d3 => octet_text_canonical (digit_text [d1; d2; d3]))
                       (Z.to_nat 10) 0)
                  (Z.to_nat 10) 0)
             (Z.to_nat 10) 0 = true.
Proof. vm_compute. reflexivity. Qed.

Lemma parse_octet_canonical (s : string) (b : Z) :
  ipaddress._BaseV4._parse_octet s = Ok b -> Py.str b = s /\ 0 <= b < 256.
Proof.
  intros Hp.
  assert (Hcan : octet_text_canonical s = true).
  { pose proof Hp as Hshape. unfold ipaddress._BaseV4._parse_octet in Hshape.
    destruct (Py.is_empty s) eqn:He; [discriminate |].
    destruct (Py.isascii_isdigit s) eqn:Hd; [| discriminate]. simpl in Hshape.
    destruct (Z.ltb_spec 3 (Py.len s)) as [| Hlen]; [discriminate |].
    clear Hshape. unfold Py.isascii_isdigit in Hd. rewrite He in Hd. simpl in Hd.
    unfold Py.len in Hlen.
    pose proof octet_texts_canonical as Hall.
    assert (Hten : Z.of_nat (Z.to_nat 10) = 10) by reflexivity.
    destruct s as [| c1 [| c2 [| c3 [| c4 r]]]]; simpl in He, Hlen, Hd;
      try discriminate; try lia;
      repeat match goal with
             | H : _ && _ = true |- _ => apply andb_true_iff in H; destruct H
             | H : Py.is_digit ?c = true |- _ =>
                 apply is_digit_digit_char in H; destruct H
             end.
    - pose proof (holds_from_spec _ _ _ Hall (Py.digit_value c1) ltac:(lia)) as Hq1.
      apply andb_true_iff in Hq1. destruct Hq1 as [Hq1 _].
      unfold digit_text in Hq1. simpl in Hq1. congruence.
    - pose proof (holds_from_spec _ _ _ Hall (Py.digit_value c1) ltac:(lia)) as Hq1.
      apply andb_true_iff in Hq1. destruct Hq1 as [_ Hq1].
      pose proof (holds_from_spec _ _ _ Hq1 (Py.digit_value c2) ltac:(lia)) as Hq2.
      apply andb_true_iff in Hq2. destruct Hq2 as [Hq2 _].
      unfold digit_text in Hq2. simpl in Hq2. congruence.
    - pose proof (holds_from_spec _ _ _ Hall (Py.digit_value c1) ltac:(lia)) as Hq1.
      apply andb_true_iff in Hq1. destruct Hq1 as [_ Hq1].
      pose proof (holds_from_spec _ _ _ Hq1 (Py.digit_value c2) ltac:(lia)) as Hq2.
      apply andb_true_iff in Hq2. destruct Hq2 as [_ Hq2].
      pose proof (holds_from_spec _ _ _ Hq2 (Py.digit_value c3) ltac:(lia)) as Hq3.
      unfold digit_text in Hq3. simpl in Hq3. congruence. }
  unfold octet_text_canonical in Hcan. rewrite Hp in Hcan.
  apply andb_true_iff in Hcan. destruct Hcan as [Hcan H256].
  apply andb_true_iff in Hcan. destruct Hcan as [Heq H0].
  apply String.eqb_eq in Heq. split; [exact Heq | lia].
Qed.

(** *** Whole addresses *)

Lemma to_bytes4_int_from_bytes (b0 b1 b2 b3 : Z) :
  0 <= b0 < 256 -> 0 <= b1 < 256 -> 0 <= b2 < 256 -> 0 <= b3 < 256 ->
  ipaddress._BaseV4.to_bytes4 (ipaddress._BaseV4.int_from_bytes [b0; b1; b2; b3])
  = [b0; b1; b2; b3]
  /\ 0 <= ipaddress._BaseV4.int_from_bytes [b0; b1; b2; b3] < 2 ^ 32.
Proof.
  intros H0 H1 H2 H3.
  unfold ipaddress._BaseV4.int_from_bytes, ipaddress._BaseV4.to_bytes4.
  cbn [fold_left].
  set (ip := (((0 * 256 + b0) * 256 + b1) * 256 + b2) * 256 + b3).
  assert (Hip : ip = b0 * 16777216 + b1 * 65536 + b2 * 256 + b3) by (unfold ip; lia).
  assert (Hq3 : ip / 16777216 = b0).
  { symmetry. apply Z.div_unique with (r := b1 * 65536 + b2 * 256 + b3); lia. }
  assert (Hq2 : ip / 65536 = b0 * 256 + b1).
  { symmetry. apply Z.div_unique with (r := b2 * 256 + b3); lia. }
  assert (Hq1 : ip / 256 = b0 * 65536 + b1 * 256 + b2).
  { symmetry. apply Z.div_unique with (r := b3); lia. }
  rewrite Hq3, Hq2, Hq1.
  assert (Hm3 : b0 mod 256 = b0) by (apply Z.mod_small; lia).
  assert (Hm2 : (b0 * 256 + b1) mod 256 = b1).
  { symmetry. apply Z.mod_unique with (q := b0); lia. }
  assert (Hm1 : (b0 * 65536 + b1 * 256 + b2) mod 256 = b2).
  { symmetry. apply Z.mod_unique with (q := b0 * 256 + b1); lia. }
  assert (Hm0 : ip mod 256 = b3).
  { symmetry. apply Z.mod_unique with (q := b0 * 65536 + b1 * 256 + b2); lia. }
  rewrite Hm3, Hm2, Hm1, Hm0. split; [reflexivity |].
  change (2 ^ 32) with 4294967296. lia.
Qed.

Lemma int_from_bytes_to_bytes4 (ip : Z) :
  0 <= ip < 2 ^ 32 ->
  ipaddress._BaseV4.int_from_bytes (ipaddress._BaseV4.to_bytes4 ip) = ip
  /\ Forall (fun b => 0 <= b < 256) (ipaddress._BaseV4.to_bytes4 ip).
Proof.
  intros Hip. change (2 ^ 32) with 4294967296 in Hip.
  unfold ipaddress._BaseV4.int_from_bytes, ipaddress._BaseV4.to_bytes4.
  cbn [fold_left].
  change 16777216 with (256 * (256 * 256)). change 65536 with (256 * 256).
  rewrite <- !Z.div_div by lia.
  pose proof (Z.div_mod ip 256 ltac:(lia)) as E0.
  pose proof (Z.div_mod (ip / 256) 256 ltac:(lia)) as E1.
  pose proof (Z.div_mod (ip / 256 / 256) 256 ltac:(lia)) as E2.
  pose proof (Z.div_mod (ip / 256 / 256 / 256) 256 ltac:(lia)) as E3.
  pose proof (Z.mod_pos_bound ip 256 ltac:(lia)).
  pose proof (Z.mod_pos_bound (ip / 256) 256 ltac:(lia)).
  pose proof (Z.mod_pos_bound (ip / 256 / 256) 256 ltac:(lia)).
  pose proof (Z.mod_pos_bound (ip / 256 / 256 / 256) 256 ltac:(lia)).
  assert (Hz : ip / 256 / 256 / 256 / 256 = 0).
  { rewrite !Z.div_div by lia. apply Z.div_small. lia. }
  split; [lia | repeat constructor; lia].
Qed.

(** The text of an accepted IPv4 address is what [str] writes for it: the
    parser accepts the canonical dotted quad only. *)
Lemma v4_text_canonical (s : string) (ip : Z) :
  ipaddress._BaseV4._ip_int_from_string s = Ok ip ->
  ipaddress._BaseV4._string_from_ip_int ip = s /\ 0 <= ip < 2 ^ 32.
Proof.
  unfold ipaddress._BaseV4._ip_int_from_string.
  destruct (Py.is_empty s); [discriminate |].
  pose proof (join_split "." s) as Hjoin.
  destruct (Z.eqb_spec (Z.of_nat (List.length (Py.split "." s))) 4) as [Hlen |];
    simpl; [| discriminate].
  destruct (Py.split "." s) as [| o0 [| o1 [| o2 [| o3 [| o4 r]]]]];
    simpl in Hlen; try lia.
  cbn [mapM].
  destruct (ipaddress._BaseV4._parse_octet o0) as [b0 | e] eqn:P0; simpl;
    [| destruct (is_ValueError e); discriminate].
  destruct (ipaddress._BaseV4._parse_octet o1) as [b1 | e] eqn:P1; simpl;
    [| destruct (is_ValueError e); discriminate].
  destruct (ipaddress._BaseV4._parse_octet o2) as [b2 | e] eqn:P2; simpl;
    [| destruct (is_ValueError e); discriminate].
  destruct (ipaddress._BaseV4._parse_octet o3) as [b3 | e] eqn:P3; simpl;
    [| destruct (is_ValueError e); discriminate].
  intros H; inversion H; subst ip. clear H.
  apply parse_octet_canonical in P0, P1, P2, P3.
  destruct P0 as [S0 R0], P1 as [S1 R1], P2 as [S2 R2], P3 as [S3 R3].
  destruct (to_bytes4_int_from_bytes b0 b1 b2 b3 R0 R1 R2 R3) as [Hb Hr].
  split; [| exact Hr].
  unfold ipaddress._BaseV4._string_from_ip_int. rewrite Hb.
  cbn [map]. rewrite S0, S1, S2, S3. exact Hjoin.
Qed.

Lemma str_octet_no_dot (b : Z) :
  0 <= b < 256 ->
  Py.contains "." (Py.str b) = false /\ Py.is_empty (Py.str b) = false.
Proof.
  intros Hb. pose proof (parse_octet_str b Hb) as Hp.
  split.
  - apply parse_octet_ok_digits in Hp.
    eapply all_chars_excludes; [exact Hp | reflexivity].
  - unfold ipaddress._BaseV4._parse_octet in Hp.
    destruct (Py.is_empty (Py.str b)); [discriminate | reflexivity].
Qed.

(** What [str] writes for an IPv4 address parses back to it. *)
Lemma v4_parse_str (ip : Z) :
  0 <= ip < 2 ^ 32 ->
  ipaddress._BaseV4._ip_int_from_string (ipaddress._BaseV4._string_from_ip_int ip)
  = Ok ip.
Proof.
  intros Hip. destruct (int_from_bytes_to_bytes4 ip Hip) as [Hval Hall].
  unfold ipaddress._BaseV4._ip_int_from_string,
    ipaddress._BaseV4._string_from_ip_int.
  unfold ipaddress._BaseV4.to_bytes4 in *.
  set (b0 := (ip / 16777216) mod 256) in *.
  set (b1 := (ip / 65536) mod 256) in *.
  set (b2 := (ip / 256) mod 256) in *.
  set (b3 := ip mod 256) in *.
  assert (R : (0 <= b0 < 256) /\ (0 <= b1 < 256) /\ (0 <= b2 < 256)
              /\ (0 <= b3 < 256)).
  { rewrite !Forall_cons_iff in Hall. tauto. }
  destruct R as (R0 & R1 & R2 & R3).
  destruct (str_octet_no_dot _ R0) as [D0 E0], (str_octet_no_dot _ R1) as [D1 _],
    (str_octet_no_dot _ R2) as [D2 _], (str_octet_no_dot _ R3) as [D3 _].
  assert (Hne : Py.is_empty (Py.join "." (map Py.str [b0; b1; b2; b3])) = false).
  { cbn [map]. rewrite join_cons. destruct (Py.str b0); [discriminate | reflexivity]. }
  rewrite Hne, split_join; [| discriminate | repeat constructor; assumption].
  cbn [map List.length mapM]. simpl (negb _).
  rewrite !parse_octet_str by assumption. simpl. rewrite Hval. reflexivity.
Qed.

(** ** IPv4 blocks *)

Lemma IPv4Address_inv (s : string) (a : ipaddress.address) :
  ipaddress.IPv4Address s = Ok a ->
  a = ipaddress.mkAddress ipaddress.v4 (ipaddress._ip a) None
  /\ ipaddress._BaseV4._ip_int_from_string s = Ok (ipaddress._ip a).
Proof.
  unfold ipaddress.IPv4Address.
  destruct (Py.contains "/" s); [discriminate |].
  destruct (ipaddress._BaseV4._ip_int_from_string s) as [ip | e]; simpl;
    [| discriminate].
  intros H; inversion H; subst. simpl. split; reflexivity.
Qed.

(** For an IPv4 address object, [str] and the parser are inverse of each
    other. *)
Lemma IPv4Address_str (s : string) (a : ipaddress.address) :
  ipaddress.IPv4Address s = Ok a ->
  ipaddress.str a = s /\ 0 <= ipaddress._ip a < 2 ^ 32.
Proof.
  intros H. destruct (IPv4Address_inv _ _ H) as [Ha Hp].
  apply v4_text_canonical in Hp. rewrite Ha. exact Hp.
Qed.

Lemma make_network_inv (v : ipaddress.version) (s : string) (n : ipaddress.network) :
  ipaddress.make_network v s = Ok n ->
  exists (addr : string) (mask : option string),
    ipaddress._split_addr_prefix s = Ok (addr, mask)
    /\ match v with
       | ipaddress.v4 => ipaddress.IPv4Address addr
       | ipaddress.v6 => ipaddress.IPv6Address addr
       end = Ok (ipaddress.network_address n)
    /\ ipaddress._make_netmask v mask = Ok (ipaddress._prefixlen n)
    /\ ipaddress.net_version n = v.
Proof.
  unfold ipaddress.make_network.
  destruct (ipaddress._split_addr_prefix s) as [[addr mask] | e0]; simpl;
    [| discriminate].
  match goal with
  | |- bind ?r _ = _ -> _ => destruct r as [a | e0] eqn:Ha; simpl
  end; [| discriminate].
  destruct (ipaddress._make_netmask v mask) as [p | e0] eqn:Hm; simpl;
    [| discriminate].
  destruct (negb _); [discriminate |].
  intros H; inversion H; subst. exists addr, mask. simpl. auto.
Qed.

Lemma ip_network_inv (s : string) (n : ipaddress.network) :
  ipaddress.ip_network s = Ok n ->
  ipaddress.make_network (ipaddress.net_version n) s = Ok n.
Proof.
  unfold ipaddress.ip_network, ipaddress.try_or_else,
    ipaddress.IPv4Network, ipaddress.IPv6Network.
  destruct (ipaddress.make_network ipaddress.v4 s) as [n4 | e4] eqn:H4.
  - intros H; inversion H; subst.
    destruct (make_network_wf _ _ _ H4) as [-> _]. exact H4.
  - destruct (is_address_or_netmask_error e4); [| discriminate].
    destruct (ipaddress.make_network ipaddress.v6 s) as [n6 | e6] eqn:H6.
    + intros H; inversion H; subst.
      destruct (make_network_wf _ _ _ H6) as [-> _]. exact H6.
    + destruct (is_address_or_netmask_error e6); discriminate.
Qed.

Lemma split_addr_prefix_hd (s addr : string) (mask : option string) :
  ipaddress._split_addr_prefix s = Ok (addr, mask) ->
  hd EmptyString (Py.split "/" s) = addr.
Proof.
  unfold ipaddress._split_addr_prefix.
  destruct (Py.split "/" s) as [| x [| y [| z r]]]; intros H; inversion H;
    reflexivity.
Qed.

(** The network address of an accepted IPv4 block, as an object. *)
Lemma ipv4_network_address (s : string) (n : ipaddress.network) :
  ipaddress.ip_network s = Ok n ->
  ipaddress.net_version n = ipaddress.v4 ->
  ipaddress.str (ipaddress.network_address n) = hd EmptyString (Py.split "/" s)
  /\ 0 <= ipaddress._ip (ipaddress.network_address n) < 2 ^ 32
  /\ ipaddress.network_address n
     = ipaddress._address_class ipaddress.v4 (ipaddress._ip (ipaddress.network_address n)).
Proof.
  intros Hn Hv. apply ip_network_inv in Hn. rewrite Hv in Hn.
  destruct (make_network_inv _ _ _ Hn) as (addr & mask & Hs & Ha & _ & _).
  destruct (IPv4Address_str _ _ Ha) as [Hstr Hr].
  destruct (IPv4Address_inv _ _ Ha) as [Hobj _].
  rewrite (split_addr_prefix_hd _ _ _ Hs). auto.
Qed.

(** X8.  For every accepted IPv4 block, [ip_network_block_first_address]
    returns the text before the slash as it was given (the whole text when
    there is no slash): the IPv4 parser accepts the canonical writing
    only. *)
Theorem ipv4_first_address_is_the_text_before_the_slash
        (network_block : string) (ip_network : ipaddress.network) :
  ipaddress.ip_network network_block = Ok ip_network ->
  ipaddress.net_version ip_network = ipaddress.v4 ->
  ip_network_block_first_address network_block
  = Ok (hd EmptyString (Py.split "/" network_block)).
Proof.
  intros Hn Hv. unfold ip_network_block_first_address. rewrite Hn. simpl.
  destruct (ipv4_network_address _ _ Hn Hv) as [-> _]. reflexivity.
Qed.

Lemma ipv4_first_address_is_the_text_before_the_slash_witness :
  ip_network_block_first_address "172.16.0.0/12"
  = Ok (hd EmptyString (Py.split "/" "172.16.0.0/12")).
Proof.
  apply (ipv4_first_address_is_the_text_before_the_slash "172.16.0.0/12"
           (ipaddress.mkNetwork ipaddress.v4
              (ipaddress.mkAddress ipaddress.v4 2886729728 None) 12)).
  - vm_compute. reflexivity.
  - reflexivity.
Defined.

Lemma testbit_above (a m i : Z) :
  0 <= a < 2 ^ m -> m <= i -> Z.testbit a i = false.
Proof.
  intros Ha Hi. destruct (Z.eq_dec a 0) as [-> | Hnz]; [apply Z.bits_0 |].
  apply Z.bits_above_log2; [lia |].
  assert (Z.log2 a < m) by (apply Z.log2_lt_pow2; lia). lia.
Qed.

(** Masking with the netmask clears the [_max_prefixlen - p] lowest bits. *)
Lemma land_netmask (v : ipaddress.version) (p ip : Z) :
  0 <= p <= ipaddress._max_prefixlen v ->
  0 <= ip < 2 ^ ipaddress._max_prefixlen v ->
  Z.land ip (ipaddress._ip_int_from_prefix v p)
  = 2 ^ (ipaddress._max_prefixlen v - p) * (ip / 2 ^ (ipaddress._max_prefixlen v - p)).
Proof.
  intros Hp Hip. set (k := ipaddress._max_prefixlen v - p).
  assert (Hk : 0 <= k) by (unfold k; lia).
  rewrite <- Z.shiftr_div_pow2, Z.mul_comm, <- Z.shiftl_mul_pow2 by assumption.
  apply Z.bits_inj'. intros i Hi.
  rewrite Z.land_spec, netmask_testbit, Z.shiftl_spec by assumption.
  fold k.
  destruct (Z.leb_spec k i) as [Hki | Hki].
  - rewrite Z.shiftr_spec by lia. replace (i - k + k) with i by lia.
    destruct (Z.ltb_spec i (ipaddress._max_prefixlen v)) as [Him | Him]; simpl.
    + apply andb_true_r.
    + rewrite andb_false_r. symmetry. eapply testbit_above; eauto.
  - simpl. rewrite andb_false_r. symmetry. apply Z.testbit_neg_r. lia.
Qed.

Section Blocks.

Variable n : ipaddress.network.
Hypothesis Hwf : network_wf n.

Let v := ipaddress.net_version n.
Let p := ipaddress._prefixlen n.
Let k := ipaddress._max_prefixlen v - p.
Let net := ipaddress._ip (ipaddress.network_address n).

Hypothesis Hnet : 0 <= net < 2 ^ ipaddress._max_prefixlen v.

Lemma block_size_pos : 0 <= k /\ 0 < 2 ^ k.
Proof.
  destruct Hwf as [_ Hp _]. fold v p in Hp.
  split; [unfold k; lia | apply Z.pow_pos_nonneg; unfold k; lia].
Qed.

(** The network address is a multiple of the block size. *)
Lemma network_aligned : net = 2 ^ k * (net / 2 ^ k).
Proof.
  destruct Hwf as [_ Hp Hal]. fold v p net in Hp, Hal.
  unfold ipaddress.netmask in Hal. fold v p in Hal.
  rewrite land_netmask in Hal by assumption. fold k in Hal. symmetry. exact Hal.
Qed.

Lemma broadcast_int_block : ipaddress.broadcast_int n = net + 2 ^ k - 1.
Proof. rewrite broadcast_int_add by assumption. fold v p k net. lia. Qed.

(** The block does not run over the address space. *)
Lemma block_fits : net + 2 ^ k <= 2 ^ ipaddress._max_prefixlen v.
Proof.
  destruct block_size_pos as [Hk Hpos].
  destruct Hwf as [_ Hp _]. fold v p in Hp.
  pose proof network_aligned as Hal.
  assert (Hsplit : 2 ^ ipaddress._max_prefixlen v = 2 ^ k * 2 ^ p).
  { rewrite <- Z.pow_add_r by lia. f_equal. unfold k. lia. }
  rewrite Hsplit in *.
  assert (Hm : net / 2 ^ k < 2 ^ p).
  { apply Z.div_lt_upper_bound; lia. }
  nia.
Qed.

(** [other in self], arithmetically: the address lies between the network
    address and the broadcast address. *)
Lemma contains_iff_range (a : ipaddress.address) :
  ipaddress.addr_version a = v ->
  0 <= ipaddress._ip a < 2 ^ ipaddress._max_prefixlen v ->
  ipaddress.contains n a = true
  <-> net <= ipaddress._ip a <= ipaddress.broadcast_int n.
Proof.
  intros Hv Ha. destruct block_size_pos as [Hk Hpos].
  destruct Hwf as [_ Hp _]. fold v p in Hp.
  unfold ipaddress.contains. fold v net. rewrite Hv.
  assert (Hvv : ipaddress.version_eqb v v = true) by (destruct v; reflexivity).
  rewrite Hvv. cbn [andb]. rewrite Z.eqb_eq.
  unfold ipaddress.netmask. fold v p.
  rewrite land_netmask by assumption. fold k.
  rewrite broadcast_int_block.
  pose proof network_aligned as Hal.
  pose proof (Z.div_mod (ipaddress._ip a) (2 ^ k) ltac:(lia)) as Hdm.
  pose proof (Z.mod_pos_bound (ipaddress._ip a) (2 ^ k) Hpos) as Hmb.
  split.
  - intros Heq. lia.
  - intros Hrange.
    assert (Hq : ipaddress._ip a / 2 ^ k = net / 2 ^ k).
    { symmetry. apply Z.div_unique with (r := ipaddress._ip a - net); lia. }
    rewrite Hq. symmetry. exact Hal.
Qed.

End Blocks.

Lemma In_zrange (lo hi x : Z) : In x (zrange lo hi) <-> lo <= x < hi.
Proof.
  unfold zrange. rewrite in_map_iff. split.
  - intros (i & <- & Hi). apply in_seq in Hi. lia.
  - intros H. exists (Z.to_nat (x - lo)). split; [lia |]. apply in_seq. lia.
Qed.

Lemma zrange_snoc (lo hi : Z) :
  lo <= hi -> zrange lo (hi + 1) = (zrange lo hi ++ [hi])%list.
Proof.
  intros H. unfold zrange.
  replace (Z.to_nat (hi + 1 - lo)) with (Z.to_nat (hi - lo) + 1)%nat by lia.
  rewrite seq_app, map_app. simpl. f_equal. f_equal. lia.
Qed.

Lemma NoDup_zrange (lo hi : Z) : NoDup (zrange lo hi).
Proof.
  unfold zrange. generalize (Z.to_nat (hi - lo)) as len. intros len.
  assert (H : forall start, NoDup (map (fun i => lo + Z.of_nat i) (seq start len))).
  { induction len as [| len IH]; intros start; simpl; constructor.
    - rewrite in_map_iff. intros (i & Hi & Hin). apply in_seq in Hin. lia.
    - apply IH. }
  apply H.
Qed.

Lemma NoDup_map_on {A B : Type} (f : A -> B) (l : list A) :
  (forall x y, In x l -> In y l -> f x = f y -> x = y) ->
  NoDup l -> NoDup (map f l).
Proof.
  intros Hinj Hnd. induction Hnd as [| x l Hx Hnd IH]; simpl; constructor.
  - rewrite in_map_iff. intros (y & Hy & Hin).
    apply Hx. rewrite (Hinj x y); auto; [left; reflexivity | right; exact Hin].
  - apply IH. intros a b Ha Hb. apply Hinj; right; assumption.
Qed.

(** Two IPv4 addresses written alike are the same address. *)
Lemma v4_string_injective (x y : Z) :
  0 <= x < 2 ^ 32 -> 0 <= y < 2 ^ 32 ->
  ipaddress._BaseV4._string_from_ip_int x = ipaddress._BaseV4._string_from_ip_int y ->
  x = y.
Proof.
  intros Hx Hy Heq.
  pose proof (v4_parse_str x Hx) as Px. pose proof (v4_parse_str y Hy) as Py.
  rewrite Heq in Px. congruence.
Qed.

(** What an accepted IPv4 block yields, as integers: the network address,
    the hosts, the broadcast address. *)
Lemma ipv4_yields (s : string) (n : ipaddress.network) :
  ipaddress.ip_network s = Ok n ->
  ipaddress.net_version n = ipaddress.v4 ->
  let net := ipaddress._ip (ipaddress.network_address n) in
  let broadcast := ipaddress.broadcast_int n in
  exists lo hi : Z,
    yields (ip_network_block_enumerate s)
    = Ok (map ipaddress._BaseV4._string_from_ip_int
              (net :: zrange lo hi ++ [broadcast]))
    /\ 0 <= net /\ net <= broadcast < 2 ^ 32
    /\ net <= lo <= net + 1 /\ broadcast <= hi <= broadcast + 1
    /\ (ipaddress._prefixlen n <= 30 -> lo = net + 1 /\ hi = broadcast).
Proof.
  intros Hn Hv net broadcast.
  pose proof (ip_network_wf _ _ Hn) as Hwf.
  destruct (ipv4_network_address _ _ Hn Hv) as (_ & Hnet & Hobj).
  assert (Hnet' : 0 <= net < 2 ^ ipaddress._max_prefixlen (ipaddress.net_version n))
    by (rewrite Hv; exact Hnet).
  pose proof (block_fits n Hwf Hnet') as Hfit.
  pose proof (broadcast_int_block n Hwf) as Hb.
  destruct (block_size_pos n Hwf) as [Hk Hpos].
  cbv zeta in Hfit, Hb, Hk, Hpos. rewrite Hv in Hfit, Hb, Hk, Hpos.
  fold net broadcast in Hfit, Hb.
  assert (Hstr : forall x, ipaddress.str (ipaddress._address_class ipaddress.v4 x)
                           = ipaddress._BaseV4._string_from_ip_int x)
    by reflexivity.
  assert (Hitems : forall lo hi,
             map ipaddress.str
               (map (ipaddress._address_class ipaddress.v4) (zrange lo hi))
             = map ipaddress._BaseV4._string_from_ip_int (zrange lo hi)).
  { intros lo hi. rewrite map_map. reflexivity. }
  assert (Hshape : forall lo hi,
             iterator_items (ipaddress.hosts n)
             = map (ipaddress._address_class ipaddress.v4) (zrange lo hi) ->
             yields (ip_network_block_enumerate s)
             = Ok (map ipaddress._BaseV4._string_from_ip_int
                       (net :: zrange lo hi ++ [broadcast]))).
  { intros lo hi Hi. simpl. rewrite Hn. simpl. unfold rest_of_hosts.
    rewrite Hi, Hitems, Hobj, Hstr. fold net.
    unfold ipaddress.broadcast_address. rewrite Hv, Hstr. fold broadcast.
    rewrite map_app. reflexivity. }
  unfold ipaddress.hosts in Hshape. rewrite Hv in Hshape. fold net broadcast in Hshape.
  change (ipaddress._max_prefixlen ipaddress.v4) with 32 in *.
  destruct (Z.eqb_spec (ipaddress._prefixlen n) (32 - 1)) as [H31 | H31].
  - exists net, (broadcast + 1). split; [apply Hshape; reflexivity |].
    replace (32 - ipaddress._prefixlen n) with 1 in * by lia.
    change (2 ^ 1) with 2 in *. lia.
  - destruct (Z.eqb_spec (ipaddress._prefixlen n) 32) as [H32 | H32].
    + exists net, (net + 1). split.
      * apply Hshape. rewrite zrange_cons, zrange_empty by lia.
        cbn [iterator_items map]. rewrite Hobj at 1. reflexivity.
      * replace (32 - ipaddress._prefixlen n) with 0 in * by lia.
        change (2 ^ 0) with 1 in *. lia.
    + exists (net + 1), broadcast. split; [apply Hshape; reflexivity |].
      destruct Hwf as [_ Hp _]. rewrite Hv in Hp.
      change (ipaddress._max_prefixlen ipaddress.v4) with 32 in Hp.
      assert (4 <= 2 ^ (32 - ipaddress._prefixlen n)).
      { change 4 with (2 ^ 2). apply Z.pow_le_mono_r; lia. }
      lia.
Qed.

(** X9.  For every accepted IPv4 block with a prefix length of at most 30,
    the enumeration yields the addresses from the network address to the
    broadcast address in increasing order, each exactly once, so that their
    number is [ip_network_block_ip_count]. *)
Theorem ipv4_enumeration_exact (network_block_string : string) (ip : ipaddress.network) :
  ipaddress.ip_network network_block_string = Ok ip ->
  ipaddress.net_version ip = ipaddress.v4 ->
  ipaddress._prefixlen ip <= 30 ->
  let first := ipaddress._ip (ipaddress.network_address ip) in
  let addresses :=
    map ipaddress._BaseV4._string_from_ip_int
        (zrange first (first + 2 ^ (32 - ipaddress._prefixlen ip))) in
  list_of (ip_network_block_enumerate network_block_string) = Some (Ok addresses)
  /\ NoDup addresses
  /\ ip_network_block_ip_count network_block_string
     = Ok (Z.of_nat (List.length addresses)).
Proof.
  intros Hn Hv Hp first addresses.
  pose proof (ip_network_wf _ _ Hn) as Hwf.
  destruct (ipv4_yields _ _ Hn Hv) as (lo & hi & Hy & Hnet & Hb & _ & _ & Hlohi).
  destruct (Hlohi Hp) as [-> ->]. clear Hlohi.
  pose proof (broadcast_int_add ip Hwf) as Hadd. rewrite Hv in Hadd.
  change (ipaddress._max_prefixlen ipaddress.v4) with 32 in Hadd.
  fold first in Hy, Hnet, Hb, Hadd.
  assert (Hpos : 0 < 2 ^ (32 - ipaddress._prefixlen ip)).
  { apply Z.pow_pos_nonneg; [lia |]. destruct Hwf as [_ Hpl _].
    rewrite Hv in Hpl. change (ipaddress._max_prefixlen ipaddress.v4) with 32 in Hpl.
    lia. }
  assert (Hrange : (first :: zrange (first + 1) (ipaddress.broadcast_int ip)
                    ++ [ipaddress.broadcast_int ip])%list
                   = zrange first (first + 2 ^ (32 - ipaddress._prefixlen ip))).
  { replace (first + 2 ^ (32 - ipaddress._prefixlen ip))
      with (ipaddress.broadcast_int ip + 1) by lia.
    rewrite (zrange_cons first) by lia. f_equal.
    destruct (Z.eq_dec first (ipaddress.broadcast_int ip)) as [Heq | Hne].
    - exfalso.
      assert (4 <= 2 ^ (32 - ipaddress._prefixlen ip)).
      { change 4 with (2 ^ 2). apply Z.pow_le_mono_r; lia. }
      lia.
    - symmetry. apply zrange_snoc. lia. }
  rewrite Hrange in Hy. fold addresses in Hy.
  split; [rewrite list_of_total, Hy; reflexivity |].
  split.
  - apply NoDup_map_on; [| apply NoDup_zrange].
    intros x y Hx Hy'. apply In_zrange in Hx, Hy'.
    apply v4_string_injective; lia.
  - pose proof (ip_count_of_block _ _ Hn) as Hc.
    rewrite Hc, Hv. change (ipaddress._max_prefixlen ipaddress.v4) with 32.
    f_equal. unfold addresses. rewrite length_map, zrange_length. lia.
Qed.

Lemma ipv4_enumeration_exact_witness :
  let first := 167772160 in
  let addresses :=
    map ipaddress._BaseV4._string_from_ip_int (zrange first (first + 2 ^ (32 - 29))) in
  list_of (ip_network_block_enumerate "10.0.0.0/29") = Some (Ok addresses)
  /\ NoDup addresses
  /\ ip_network_block_ip_count "10.0.0.0/29" = Ok (Z.of_nat (List.length addresses)).
Proof.
  apply (ipv4_enumeration_exact "10.0.0.0/29"
           (ipaddress.mkNetwork ipaddress.v4
              (ipaddress.mkAddress ipaddress.v4 167772160 None) 29)).
  - vm_compute. reflexivity.
  - reflexivity.
  - simpl. lia.
Defined.

(** X10.  For an IPv4 address text and an IPv4 block, both accepted,
    [ip_in_network_block] returns what arithmetic containment gives:
    [True] exactly when the address lies in the block. *)
Theorem ip_in_network_block_ipv4_is_containment
        (ip_address network_block : string)
        (a : ipaddress.address) (n : ipaddress.network) :
  ipaddress.ip_address ip_address = Ok a ->
  ipaddress.addr_version a = ipaddress.v4 ->
  ipaddress.ip_network network_block = Ok n ->
  ipaddress.net_version n = ipaddress.v4 ->
  ip_in_network_block ip_address network_block = Some (Ok (ipaddress.contains n a)).
Proof.
  intros Ha Hva Hn Hvn.
  assert (H4 : ipaddress.IPv4Address ip_address = Ok a).
  { destruct (ip_address_ok _ _ Ha) as [H4 | [_ H6]]; [exact H4 |].
    apply IPv6Address_version in H6. congruence. }
  destruct (IPv4Address_str _ _ H4) as [Hstr Hrange].
  destruct (IPv4Address_inv _ _ H4) as [Hobj _].
  pose proof (ip_network_wf _ _ Hn) as Hwf.
  destruct (ipv4_yields _ _ Hn Hvn) as (lo & hi & Hy & Hnet & Hb & Hlo & Hhi & _).
  rewrite ip_in_network_block_total, Hy. unfold found_in. cbn [bind].
  f_equal. f_equal.
  set (net := ipaddress._ip (ipaddress.network_address n)) in *.
  set (broadcast := ipaddress.broadcast_int n) in *.
  assert (Hnet' : 0 <= net < 2 ^ ipaddress._max_prefixlen (ipaddress.net_version n)).
  { rewrite Hvn. change (ipaddress._max_prefixlen ipaddress.v4) with 32. lia. }
  pose proof (contains_iff_range n Hwf Hnet' a) as Hc. cbv zeta in Hc.
  rewrite Hvn in Hc. specialize (Hc Hva Hrange). fold net broadcast in Hc.
  apply eq_true_iff_eq. split.
  - intros Hex. apply Hc. apply existsb_exists in Hex.
    destruct Hex as (t & Hin & Heq). apply String.eqb_eq in Heq. subst t.
    apply in_map_iff in Hin. destruct Hin as (x & Hx & Hin).
    assert (Hxr : net <= x <= broadcast).
    { destruct Hin as [<- | Hin]; [lia |].
      apply in_app_iff in Hin. destruct Hin as [Hin | [<- | []]]; [| lia].
      apply In_zrange in Hin. lia. }
    rewrite <- Hstr in Hx. rewrite Hobj in Hx.
    change (ipaddress.str _)
      with (ipaddress._BaseV4._string_from_ip_int (ipaddress._ip a)) in Hx.
    apply v4_string_injective in Hx; lia.
  - intros Hr. apply Hc in Hr. apply existsb_exists.
    exists ip_address. split; [| apply String.eqb_refl].
    apply in_map_iff. exists (ipaddress._ip a). split.
    + rewrite <- Hstr, Hobj. reflexivity.
    + destruct (Z.eq_dec (ipaddress._ip a) net) as [-> | Hne1]; [left; reflexivity |].
      right. apply in_app_iff.
      destruct (Z.eq_dec (ipaddress._ip a) broadcast) as [-> | Hne2];
        [right; left; reflexivity |].
      left. apply In_zrange. lia.
Qed.

Lemma ip_in_network_block_ipv4_is_containment_witness :
  ip_in_network_block "192.168.1.77" "192.168.0.0/16"
  = Some (Ok (ipaddress.contains
                (ipaddress.mkNetwork ipaddress.v4
                   (ipaddress.mkAddress ipaddress.v4 3232235520 None) 16)
                (ipaddress.mkAddress ipaddress.v4 3232235853 None))).
Proof.
  apply ip_in_network_block_ipv4_is_containment.
  - vm_compute. reflexivity.
  - reflexivity.
  - vm_compute. reflexivity.
  - reflexivity.
Defined.

(** ** The heuristics on valid IPv4 addresses *)

(** The four octets behind an accepted IPv4 text: the text is their decimal
    writings separated by dots. *)
Lemma v4_text_octets (s : string) (ip : Z) :
  ipaddress._BaseV4._ip_int_from_string s = Ok ip ->
  exists b0 b1 b2 b3 : Z,
    Py.split "." s = map Py.str [b0; b1; b2; b3]
    /\ ipaddress._BaseV4.to_bytes4 ip = [b0; b1; b2; b3]
    /\ (0 <= b0 < 256) /\ (0 <= b1 < 256) /\ (0 <= b2 < 256) /\ (0 <= b3 < 256).
Proof.
  unfold ipaddress._BaseV4._ip_int_from_string.
  destruct (Py.is_empty s); [discriminate |].
  destruct (Z.eqb_spec (Z.of_nat (List.length (Py.split "." s))) 4) as [Hlen |];
    simpl; [| discriminate].
  destruct (Py.split "." s) as [| o0 [| o1 [| o2 [| o3 [| o4 r]]]]];
    simpl in Hlen; try lia.
  cbn [mapM].
  destruct (ipaddress._BaseV4._parse_octet o0) as [b0 | e] eqn:P0; simpl;
    [| destruct (is_ValueError e); discriminate].
  destruct (ipaddress._BaseV4._parse_octet o1) as [b1 | e] eqn:P1; simpl;
    [| destruct (is_ValueError e); discriminate].
  destruct (ipaddress._BaseV4._parse_octet o2) as [b2 | e] eqn:P2; simpl;
    [| destruct (is_ValueError e); discriminate].
  destruct (ipaddress._BaseV4._parse_octet o3) as [b3 | e] eqn:P3; simpl;
    [| destruct (is_ValueError e); discriminate].
  intros H; inversion H; subst ip. clear H.
  apply parse_octet_canonical in P0, P1, P2, P3.
  destruct P0 as [S0 R0], P1 as [S1 R1], P2 as [S2 R2], P3 as [S3 R3].
  destruct (to_bytes4_int_from_bytes b0 b1 b2 b3 R0 R1 R2 R3) as [Hb _].
  exists b0, b1, b2, b3. cbn [map]. rewrite S0, S1, S2, S3. auto 10.
Qed.

Definition int_of_str_round_trip (b : Z) : bool :=
  match Py.int (Py.str b) with
  | Ok b' => b' =? b
  | Raise _ => false
  end.

(** [int] reads an octet writing as the octet. *)
Lemma int_str_octet (b : Z) : 0 <= b < 256 -> Py.int (Py.str b) = Ok b.
Proof.
  intros Hb.
  assert (H : holds_from int_of_str_round_trip (Z.to_nat 256) 0 = true)
    by (vm_compute; reflexivity).
  assert (Hk : int_of_str_round_trip b = true).
  { apply (holds_from_spec _ _ _ H). rewrite Z2Nat.id; lia. }
  unfold int_of_str_round_trip in Hk.
  destruct (Py.int (Py.str b)) as [b' |]; [| discriminate].
  apply Z.eqb_eq in Hk. subst. reflexivity.
Qed.

Lemma ipv4_sum_of_octets (ipv4_address : string) (a : ipaddress.address) :
  ipaddress.ip_address ipv4_address = Ok a ->
  ipaddress.addr_version a = ipaddress.v4 ->
  ipv4_sum ipv4_address
  = Ok (fold_right Z.add 0 (ipaddress._BaseV4.to_bytes4 (ipaddress._ip a))).
Proof.
  intros Ha Hv.
  assert (H4 : ipaddress.IPv4Address ipv4_address = Ok a).
  { destruct (ip_address_ok _ _ Ha) as [H4 | [_ H6]]; [exact H4 |].
    apply IPv6Address_version in H6. congruence. }
  destruct (IPv4Address_inv _ _ H4) as [_ Hp].
  destruct (v4_text_octets _ _ Hp)
    as (b0 & b1 & b2 & b3 & Hs & Hb & R0 & R1 & R2 & R3).
  rewrite Hb. unfold ipv4_sum. rewrite Hs. cbn [map mapM].
  rewrite !int_str_octet by assumption. simpl. f_equal. lia.
Qed.

(** X11.  On every valid IPv4 address text, [ipv4_sum] returns the sum of
    the four octets of the address, a number between 0 and 1020. *)
Theorem ipv4_sum_of_valid_address (ipv4_address : string) (a : ipaddress.address) :
  ipaddress.ip_address ipv4_address = Ok a ->
  ipaddress.addr_version a = ipaddress.v4 ->
  ipv4_sum ipv4_address
  = Ok (fold_right Z.add 0 (ipaddress._BaseV4.to_bytes4 (ipaddress._ip a)))
  /\ 0 <= fold_right Z.add 0 (ipaddress._BaseV4.to_bytes4 (ipaddress._ip a)) <= 1020.
Proof.
  intros Ha Hv.
  assert (H4 : ipaddress.IPv4Address ipv4_address = Ok a).
  { destruct (ip_address_ok _ _ Ha) as [H4 | [_ H6]]; [exact H4 |].
    apply IPv6Address_version in H6. congruence. }
  destruct (IPv4Address_inv _ _ H4) as [_ Hp].
  destruct (v4_text_octets _ _ Hp)
    as (b0 & b1 & b2 & b3 & Hs & Hb & R0 & R1 & R2 & R3).
  rewrite Hb. unfold ipv4_sum. rewrite Hs. cbn [map mapM].
  rewrite !int_str_octet by assumption. simpl. split; [f_equal; lia | lia].
Qed.

Lemma ipv4_sum_of_valid_address_witness :
  ipv4_sum "8.8.8.8"
  = Ok (fold_right Z.add 0 (ipaddress._BaseV4.to_bytes4 134744072))
  /\ 0 <= fold_right Z.add 0 (ipaddress._BaseV4.to_bytes4 134744072) <= 1020.
Proof.
  apply (ipv4_sum_of_valid_address "8.8.8.8"
           (ipaddress.mkAddress ipaddress.v4 134744072 None)).
  - vm_compute. reflexivity.
  - reflexivity.
Defined.

Definition digit_or_dot (c : ascii) : bool := Py.is_digit c || Ascii.eqb c ".".

(** After a digit or a dot, in a text made of digits and dots, the
    lookbehind never holds again: the search finds nothing more. *)
Lemma findall_after_digit_or_dot (s : string) :
  forall c : ascii,
    digit_or_dot c = true ->
    Py.all_chars digit_or_dot s = true ->
    version_pattern.findall_from O (Some c) s = [].
Proof.
  induction s as [| c' r IH]; intros c Hc Hall; [reflexivity |].
  cbn [Py.all_chars] in Hall. apply andb_true_iff in Hall. destruct Hall as [Hc' Hr].
  cbn [version_pattern.findall_from version_pattern.lookbehind].
  unfold digit_or_dot in Hc. rewrite Hc. cbn [negb]. apply IH; assumption.
Qed.

(** On a text made of digits and dots, the pattern can only match at the
    start. *)
Lemma findall_digits_and_dots (s : string) :
  Py.all_chars digit_or_dot s = true ->
  version_pattern.findall s = []
  <-> version_pattern.match_at s = None.
Proof.
  intros Hall. unfold version_pattern.findall.
  destruct s as [| c r]; [split; reflexivity |].
  cbn [Py.all_chars] in Hall. apply andb_true_iff in Hall. destruct Hall as [Hc Hr].
  cbn [version_pattern.findall_from version_pattern.lookbehind].
  destruct (version_pattern.match_at (String c r)) as [k |].
  - split; discriminate.
  - rewrite (findall_after_digit_or_dot r c Hc Hr). split; reflexivity.
Qed.

(** The writing of an octet: one, two or three digits according to its
    size. *)
Definition octet_shape (b : Z) : bool :=
  match list_ascii_of_string (Py.str b) with
  | [d] => (b <? 10) && Py.is_digit d && (Py.digit_value d =? b)
  | [d1; d2] => (10 <=? b) && (b <? 100) && Py.is_digit d1 && Py.is_digit d2
  | [d1; d2; d3] => (100 <=? b) && Py.is_digit d1 && Py.is_digit d2 && Py.is_digit d3
  | _ => false
  end.

Lemma str_octet_shape (b : Z) :
  0 <= b < 256 ->
  (b < 10 /\ exists d, Py.str b = String d EmptyString
                       /\ Py.is_digit d = true /\ Py.digit_value d = b)
  \/ (10 <= b < 100
      /\ exists d1 d2, Py.str b = String d1 (String d2 EmptyString)
                       /\ Py.is_digit d1 = true /\ Py.is_digit d2 = true)
  \/ (100 <= b
      /\ exists d1 d2 d3, Py.str b = String d1 (String d2 (String d3 EmptyString))
                          /\ Py.is_digit d1 = true /\ Py.is_digit d2 = true
                          /\ Py.is_digit d3 = true).
Proof.
  intros Hb.
  assert (H : holds_from octet_shape (Z.to_nat 256) 0 = true)
    by (vm_compute; reflexivity).
  assert (Hk : octet_shape b = true).
  { apply (holds_from_spec _ _ _ H). rewrite Z2Nat.id; lia. }
  unfold octet_shape in Hk.
  rewrite <- (string_of_list_ascii_of_string (Py.str b)).
  destruct (list_ascii_of_string (Py.str b)) as [| d1 [| d2 [| d3 [| d4 r]]]];
    try discriminate;
    repeat match goal with
           | H : _ && _ = true |- _ => apply andb_true_iff in H; destruct H
           end.
  - left. split; [lia |]. exists d1. simpl. repeat split; [assumption | lia].
  - right. left. split; [lia |]. exists d1, d2. simpl. auto.
  - right. right. split; [lia |]. exists d1, d2, d3. simpl. auto.
Qed.

Lemma digit_not_dot (d : ascii) : Py.is_digit d = true -> Ascii.eqb d "." = false.
Proof.
  intros Hd. destruct (Ascii.eqb_spec d "."); [subst; discriminate | reflexivity].
Qed.

Lemma tail_at_digit (d : ascii) (r : string) :
  Py.is_digit d = true -> version_pattern.tail_at (String d r) = false.
Proof.
  intros Hd. apply digit_not_dot in Hd. unfold version_pattern.tail_at.
  destruct r as [| b [| c r']]; try reflexivity. rewrite Hd. reflexivity.
Qed.

(** [\.[0-2]\.] at the dot that ends the first octet: it matches exactly
    when the second octet is below 3. *)
Lemma tail_at_second_octet (b1 : Z) (rest : string) :
  0 <= b1 < 256 ->
  version_pattern.tail_at (String "." (Py.str b1 ++ String "." rest)) = (b1 <? 3).
Proof.
  intros Hb.
  destruct (str_octet_shape b1 Hb)
    as [[Hlt (d & -> & Hd & Hv)]
       | [[Hr (d1 & d2 & -> & Hd1 & Hd2)]
         | [Hr (d1 & d2 & d3 & -> & Hd1 & Hd2 & Hd3)]]].
  - cbn [append version_pattern.tail_at]. rewrite !Ascii.eqb_refl.
    cbn [andb]. rewrite andb_true_r.
    unfold Py.is_digit, Py.digit_value in *.
    apply andb_true_iff in Hd. destruct Hd as [Hd48 Hd57].
    apply Z.leb_le in Hd48, Hd57. rewrite (proj2 (Z.leb_le _ _) Hd48). cbn [andb].
    destruct (Z.leb_spec (Py.ord d) 50); destruct (Z.ltb_spec b1 3); try reflexivity; lia.
  - cbn [append version_pattern.tail_at]. rewrite (digit_not_dot _ Hd2).
    rewrite andb_false_r. destruct (Z.ltb_spec b1 3); [lia | reflexivity].
  - cbn [append version_pattern.tail_at]. rewrite (digit_not_dot _ Hd2).
    rewrite andb_false_r. destruct (Z.ltb_spec b1 3); [lia | reflexivity].
Qed.

(** At the start of a dotted quad the pattern matches exactly when the
    first octet has at most two digits and the second octet is 0, 1 or 2. *)
Lemma match_at_dotted_quad (b0 b1 : Z) (rest : string) :
  0 <= b0 < 256 -> 0 <= b1 < 256 ->
  version_pattern.match_at (Py.str b0 ++ String "." (Py.str b1 ++ String "." rest))
  = None
  <-> (b0 <? 100) && (b1 <? 3) = false.
Proof.
  intros H0 H1.
  pose proof (tail_at_second_octet b1 rest H1) as Ht.
  destruct (str_octet_shape b0 H0)
    as [[Hlt (d & -> & Hd & Hv)]
       | [[Hr (d1 & d2 & -> & Hd1 & Hd2)]
         | [Hr (d1 & d2 & d3 & -> & Hd1 & Hd2 & Hd3)]]].
  - cbn [append]. unfold version_pattern.match_at. rewrite Hd.
    change (Py.is_digit ".") with false. cbn [andb]. rewrite Ht.
    destruct (Z.ltb_spec b0 100); [| lia]. cbn [andb].
    destruct (b1 <? 3); split; congruence.
  - cbn [append]. unfold version_pattern.match_at. rewrite Hd1, Hd2. cbn [andb].
    rewrite Ht. destruct (Z.ltb_spec b0 100); [| lia]. cbn [andb].
    destruct (b1 <? 3); [split; congruence |].
    rewrite (tail_at_digit _ _ Hd2). split; reflexivity.
  - cbn [append]. unfold version_pattern.match_at. rewrite Hd1, Hd2. cbn [andb].
    destruct (Z.ltb_spec b0 100); [lia |]. cbn [andb].
    rewrite (tail_at_digit _ _ Hd3), (tail_at_digit _ _ Hd2). cbn [andb].
    split; reflexivity.
Qed.

(** X12.  On every valid IPv4 address text,
    [ipv4_is_possible_version_number] returns [True] exactly when the first
    octet is below 100 and the second octet is 0, 1 or 2, or the four
    octets sum to less than 30. *)
Theorem version_number_of_valid_address (ipv4_address : string) (a : ipaddress.address) :
  ipaddress.ip_address ipv4_address = Ok a ->
  ipaddress.addr_version a = ipaddress.v4 ->
  exists b0 b1 b2 b3 : Z,
    ipaddress._BaseV4.to_bytes4 (ipaddress._ip a) = [b0; b1; b2; b3]
    /\ ipv4_is_possible_version_number ipv4_address
       = Ok ((b0 <? 100) && (b1 <? 3) || (b0 + b1 + b2 + b3 <? 30)).
Proof.
  intros Ha Hv.
  pose proof (ipv4_sum_of_octets _ _ Ha Hv) as Hsum.
  assert (H4 : ipaddress.IPv4Address ipv4_address = Ok a).
  { destruct (ip_address_ok _ _ Ha) as [H4 | [_ H6]]; [exact H4 |].
    apply IPv6Address_version in H6. congruence. }
  destruct (IPv4Address_inv _ _ H4) as [_ Hp].
  destruct (v4_text_octets _ _ Hp)
    as (b0 & b1 & b2 & b3 & Hs & Hb & R0 & R1 & R2 & R3).
  exists b0, b1, b2, b3. split; [exact Hb |].
  rewrite Hb in Hsum. cbn [fold_right] in Hsum.
  replace (b0 + (b1 + (b2 + (b3 + 0)))) with (b0 + b1 + b2 + b3) in Hsum by lia.
  assert (Hall : Py.all_chars digit_or_dot ipv4_address = true).
  { apply (all_chars_of_split Py.is_digit "." ipv4_address). rewrite Hs.
    repeat constructor;
      eapply parse_octet_ok_digits; apply parse_octet_str; assumption. }
  assert (Htext : ipv4_address
                  = (Py.str b0 ++ String "." (Py.str b1 ++ String "."
                       (Py.str b2 ++ String "." (Py.str b3))))%string).
  { rewrite <- (join_split "." ipv4_address), Hs. reflexivity. }
  pose proof (findall_digits_and_dots _ Hall) as Hf.
  rewrite Htext in Hf at 2. rewrite match_at_dotted_quad in Hf by assumption.
  unfold ipv4_is_possible_version_number. rewrite Hsum.
  destruct (version_pattern.findall ipv4_address) as [| m ms].
  - rewrite (proj1 Hf eq_refl). simpl.
    destruct (b0 + b1 + b2 + b3 <? 30); reflexivity.
  - destruct ((b0 <? 100) && (b1 <? 3)); [reflexivity |].
    destruct Hf as [_ Hf]. discriminate (Hf eq_refl).
Qed.

Lemma version_number_of_valid_address_witness :
  exists b0 b1 b2 b3 : Z,
    ipaddress._BaseV4.to_bytes4 167772417 = [b0; b1; b2; b3]
    /\ ipv4_is_possible_version_number "10.0.1.1"
       = Ok ((b0 <? 100) && (b1 <? 3) || (b0 + b1 + b2 + b3 <? 30)).
Proof.
  apply (version_number_of_valid_address "10.0.1.1"
           (ipaddress.mkAddress ipaddress.v4 167772417 None)).
  - vm_compute. reflexivity.
  - reflexivity.
Defined.

(** ** IPv6 text round trips *)

(** *** Groups *)

(** The eight 16-bit groups of an IPv6 address, most significant first. *)
Definition hextet_values (ip : Z) : list Z :=
  map (fun i => (ip / 65536 ^ i) mod 65536) [7; 6; 5; 4; 3; 2; 1; 0].

(** A group written with exactly four lowercase hexadecimal digits. *)
Definition hex4 (v : Z) : string :=
  string_of_list_ascii (map Py.digit_char (rev (fixed_rev 4 v))).

(** The number made of the groups [vs], most significant first, after the
    groups already in [acc]. *)
Definition groups_value (vs : list Z) (acc : Z) : Z :=
  fold_left (fun a v => a * 65536 + v) vs acc.

Lemma fixed_rev_mod (w : nat) :
  forall n : Z, fixed_rev w (n mod 16 ^ Z.of_nat w) = fixed_rev w n.
Proof.
  induction w as [| w IH]; intros n; [reflexivity |].
  cbn [fixed_rev]. rewrite Nat2Z.inj_succ, Z.pow_succ_r by lia.
  set (P := 16 ^ Z.of_nat w).
  assert (Hpos : 0 < P) by (apply Z.pow_pos_nonneg; lia).
  assert (Hsplit : n mod (16 * P) = (n / 16) mod P * 16 + n mod 16).
  { rewrite Z.rem_mul_r by lia. lia. }
  pose proof (Z.mod_pos_bound n 16 ltac:(lia)) as Hb.
  rewrite Hsplit. f_equal.
  - rewrite Z.add_comm, Z.mod_add by lia. apply Z.mod_mod. lia.
  - rewrite <- (IH (n / 16)). fold P. f_equal.
    rewrite Z.div_add_l by lia. rewrite (Z.div_small (n mod 16) 16) by lia. lia.
Qed.

Lemma fixed_rev_app (a b : nat) :
  forall n : Z,
    fixed_rev (a + b) n = (fixed_rev a n ++ fixed_rev b (n / 16 ^ Z.of_nat a))%list.
Proof.
  induction a as [| a IH]; intros n.
  - simpl. rewrite Z.div_1_r. reflexivity.
  - cbn [Nat.add fixed_rev app]. rewrite IH. f_equal. f_equal. f_equal.
    rewrite Nat2Z.inj_succ, Z.pow_succ_r by lia.
    rewrite Z.div_div by (try lia; apply Z.pow_pos_nonneg; lia). reflexivity.
Qed.

Lemma hextet_values_range (ip : Z) :
  Forall (fun v => 0 <= v < 65536) (hextet_values ip).
Proof.
  unfold hextet_values. apply Forall_forall. intros v Hv.
  apply in_map_iff in Hv. destruct Hv as (i & <- & _).
  apply Z.mod_pos_bound. lia.
Qed.

Lemma hextet_values_length (ip : Z) : List.length (hextet_values ip) = 8%nat.
Proof. reflexivity. Qed.

(** The groups of an address that fits in 128 bits make the address. *)
Lemma groups_value_hextet_values (ip : Z) :
  0 <= ip < 2 ^ 128 -> groups_value (hextet_values ip) 0 = ip.
Proof.
  intros Hip. unfold groups_value, hextet_values. cbn [map fold_left].
  change (65536 ^ 0) with 1. rewrite Z.div_1_r.
  assert (Hstep : forall k : Z, 0 <= k ->
             ip / 65536 ^ k
             = ip / 65536 ^ (k + 1) * 65536 + (ip / 65536 ^ k) mod 65536).
  { intros k Hk. rewrite Z.pow_add_r by lia. change (65536 ^ 1) with 65536.
    rewrite <- Z.div_div by (try lia; apply Z.pow_pos_nonneg; lia).
    pose proof (Z.div_mod (ip / 65536 ^ k) 65536 ltac:(lia)). lia. }
  assert (Htop : ip / 65536 ^ 7 = (ip / 65536 ^ 7) mod 65536).
  { symmetry. apply Z.mod_small. split; [apply Z.div_pos; lia |].
    apply Z.div_lt_upper_bound; [lia |].
    change (65536 ^ 7 * 65536) with (2 ^ 128). lia. }
  pose proof (Hstep 0 ltac:(lia)) as H0. pose proof (Hstep 1 ltac:(lia)) as H1.
  pose proof (Hstep 2 ltac:(lia)) as H2. pose proof (Hstep 3 ltac:(lia)) as H3.
  pose proof (Hstep 4 ltac:(lia)) as H4. pose proof (Hstep 5 ltac:(lia)) as H5.
  pose proof (Hstep 6 ltac:(lia)) as H6.
  change (0 + 1) with 1 in H0. change (1 + 1) with 2 in H1.
  change (2 + 1) with 3 in H2. change (3 + 1) with 4 in H3.
  change (4 + 1) with 5 in H4. change (5 + 1) with 6 in H5.
  change (6 + 1) with 7 in H6.
  change (65536 ^ 0) with 1 in H0. rewrite Z.div_1_r in H0.
  lia.
Qed.

(** The 32 digits of ['%032x' % ip], cut in fours, are the groups. *)
Lemma chunks4_format_032x (ip : Z) :
  0 <= ip < 2 ^ 128 ->
  ipaddress._BaseV6.chunks4 (Py.format_032x ip) = map hex4 (hextet_values ip).
Proof.
  intros Hip. rewrite format_032x_fixed by exact Hip.
  assert (Hstep : forall (w : nat) (n : Z),
             fixed_rev (4 + w) n
             = (fixed_rev 4 (n mod 65536) ++ fixed_rev w (n / 65536))%list).
  { intros w n. rewrite fixed_rev_app.
    change (16 ^ Z.of_nat 4) with 65536.
    rewrite <- (fixed_rev_mod 4 n). reflexivity. }
  assert (Hdiv : forall k : Z, 0 <= k ->
             ip / 65536 ^ k / 65536 = ip / 65536 ^ (k + 1)).
  { intros k Hk. rewrite Z.pow_add_r by lia. change (65536 ^ 1) with 65536.
    rewrite Z.div_div by (try lia; apply Z.pow_pos_nonneg; lia). reflexivity. }
  change 32%nat with (4 + (4 + (4 + (4 + (4 + (4 + (4 + (4 + 0))))))))%nat.
  rewrite (Hstep _ ip).
  replace (ip mod 65536) with ((ip / 65536 ^ 0) mod 65536)
    by (change (65536 ^ 0) with 1; rewrite Z.div_1_r; reflexivity).
  replace (ip / 65536) with (ip / 65536 ^ 1) by reflexivity.
  rewrite (Hstep _ (ip / 65536 ^ 1)), (Hdiv 1) by lia. change (1 + 1) with 2.
  rewrite (Hstep _ (ip / 65536 ^ 2)), (Hdiv 2) by lia. change (2 + 1) with 3.
  rewrite (Hstep _ (ip / 65536 ^ 3)), (Hdiv 3) by lia. change (3 + 1) with 4.
  rewrite (Hstep _ (ip / 65536 ^ 4)), (Hdiv 4) by lia. change (4 + 1) with 5.
  rewrite (Hstep _ (ip / 65536 ^ 5)), (Hdiv 5) by lia. change (5 + 1) with 6.
  rewrite (Hstep _ (ip / 65536 ^ 6)), (Hdiv 6) by lia. change (6 + 1) with 7.
  rewrite (Hstep _ (ip / 65536 ^ 7)).
  unfold hextet_values, hex4. cbn [map].
  generalize ((ip / 65536 ^ 0) mod 65536) ((ip / 65536 ^ 1) mod 65536)
             ((ip / 65536 ^ 2) mod 65536) ((ip / 65536 ^ 3) mod 65536)
             ((ip / 65536 ^ 4) mod 65536) ((ip / 65536 ^ 5) mod 65536)
             ((ip / 65536 ^ 6) mod 65536) ((ip / 65536 ^ 7) mod 65536).
  intros h0 h1 h2 h3 h4 h5 h6 h7.
  cbn [fixed_rev app rev map string_of_list_ascii Nat.add].
  reflexivity.
Qed.

(** A group in four digits parses back to the group. *)
Lemma int_of_digits_hex4 (v : Z) :
  0 <= v < 65536 -> Py.int_of_digits 16 Py.hex_digit_value (hex4 v) = v.
Proof.
  intros Hv. unfold hex4.
  destruct (fixed_rev_spec 4 v) as (_ & Hall & Hval);
    [change (16 ^ Z.of_nat 4) with 65536; lia |].
  rewrite int_of_digits_rev by exact Hall. exact Hval.
Qed.

Lemma parse_hextet_hex4 (v : Z) :
  0 <= v < 65536 -> ipaddress._BaseV6._parse_hextet (hex4 v) = Ok v.
Proof.
  intros Hv.
  destruct (fixed_rev_spec 4 v) as (Hlen & Hall & Hval);
    [change (16 ^ Z.of_nat 4) with 65536; lia |].
  unfold ipaddress._BaseV6._parse_hextet.
  fold (Py.int_of_digits 16 Py.hex_digit_value (hex4 v)).
  rewrite int_of_digits_hex4 by exact Hv. unfold hex4.
  assert (Hrev : Forall (fun d => 0 <= d < 16) (rev (fixed_rev 4 v))).
  { apply Forall_forall. intros d Hd. apply in_rev in Hd.
    revert d Hd. apply Forall_forall. exact Hall. }
  rewrite all_hex_digit_chars by exact Hrev. reflexivity.
Qed.

(** The groups as [_string_from_ip_int] writes them before compression. *)
Lemma hextets_of_format_032x (ip : Z) :
  0 <= ip < 2 ^ 128 ->
  map (fun c => Py.format_x (Py.int_of_digits 16 Py.hex_digit_value c))
      (ipaddress._BaseV6.chunks4 (Py.format_032x ip))
  = map Py.format_x (hextet_values ip).
Proof.
  intros Hip. rewrite chunks4_format_032x by exact Hip. rewrite map_map.
  apply map_ext_in. intros v Hv.
  rewrite int_of_digits_hex4; [reflexivity |].
  pose proof (hextet_values_range ip) as Hall.
  rewrite Forall_forall in Hall. apply Hall. exact Hv.
Qed.

(** [ip_int <<= 16; ip_int |= h] is [ip_int * 65536 + h]. *)
Lemma shift_or_hextet (acc h : Z) :
  0 <= h < 65536 -> Z.lor (Z.shiftl acc 16) h = acc * 65536 + h.
Proof.
  intros Hh. rewrite Z.shiftl_mul_pow2 by lia. change (2 ^ 16) with 65536.
  assert (Hland : Z.land (acc * 65536) h = 0).
  { apply Z.bits_inj'. intros i Hi. rewrite Z.land_spec, Z.bits_0.
    destruct (Z.lt_ge_cases i 16) as [Hlt | Hge].
    - change 65536 with (2 ^ 16). rewrite Z.mul_pow2_bits_low by lia. reflexivity.
    - replace (Z.testbit h i) with false; [apply andb_false_r |].
      symmetry. destruct (Z.eq_dec h 0) as [-> | Hnz]; [apply Z.bits_0 |].
      apply Z.bits_above_log2; [lia |].
      apply Z.log2_lt_pow2; [lia |].
      assert (2 ^ 16 <= 2 ^ i) by (apply Z.pow_le_mono_r; lia).
      change (2 ^ 16) with 65536 in *. lia. }
  rewrite <- Z.lxor_lor by exact Hland.
  symmetry. apply Z.add_nocarry_lxor. exact Hland.
Qed.

(** *** The parser on a list of parts *)

(** The second half of [_BaseV6._ip_int_from_string]: what it computes from
    the parts once an IPv4-style suffix has been replaced by two hextets. *)
Definition _ip_int_from_parts (parts : list string) : result Z :=
  let n := Z.of_nat (List.length parts) in
  if ipaddress._BaseV6._HEXTET_COUNT + 1 <? n then Raise AddressValueError
  else
    skip_index <-
      ipaddress._BaseV6.find_skip_index
        (ipaddress._BaseV6.slice parts 1 (n - 1)) 1 None ;;
    counts <-
      match skip_index with
      | Some skip_index =>
          let parts_hi := skip_index in
          let parts_lo := n - skip_index - 1 in
          parts_hi <-
            (if Py.is_empty (nth 0 parts "")
             then if negb (parts_hi - 1 =? 0)
                  then Raise AddressValueError else Ok (parts_hi - 1)
             else Ok parts_hi) ;;
          parts_lo <-
            (if Py.is_empty (last parts "")
             then if negb (parts_lo - 1 =? 0)
                  then Raise AddressValueError else Ok (parts_lo - 1)
             else Ok parts_lo) ;;
          let parts_skipped :=
            ipaddress._BaseV6._HEXTET_COUNT - (parts_hi + parts_lo) in
          if parts_skipped <? 1 then Raise AddressValueError
          else Ok (parts_hi, parts_lo, parts_skipped)
      | None =>
          if negb (n =? ipaddress._BaseV6._HEXTET_COUNT)
          then Raise AddressValueError
          else if Py.is_empty (nth 0 parts "") then Raise AddressValueError
          else if Py.is_empty (last parts "") then Raise AddressValueError
          else Ok (n, 0, 0)
      end ;;
    let '(parts_hi, parts_lo, parts_skipped) := counts in
    reraise_ValueError_as AddressValueError
      (ip_int <-
         ipaddress._BaseV6.parse_hextets
           (ipaddress._BaseV6.slice parts 0 parts_hi) 0 ;;
       let ip_int := Z.shiftl ip_int (16 * parts_skipped) in
       ipaddress._BaseV6.parse_hextets
         (ipaddress._BaseV6.slice parts (n - parts_lo) n) ip_int).

Lemma ip_int_from_string_parts (ip_str : string) :
  ipaddress._BaseV6._ip_int_from_string ip_str
  = if Py.is_empty ip_str then Raise AddressValueError
    else
      let parts := Py.split ":" ip_str in
      if Z.of_nat (List.length parts) <? 3 then Raise AddressValueError
      else
        parts <-
          (if Py.contains "." (last parts "")
           then
             a <- ipaddress.IPv4Address (last parts "") ;;
             Ok (removelast parts
                 ++ [ Py.format_x (Z.land (Z.shiftr (ipaddress._ip a) 16) 65535);
                      Py.format_x (Z.land (ipaddress._ip a) 65535) ])%list
           else Ok parts) ;;
        _ip_int_from_parts parts.
Proof. reflexivity. Qed.

(** A part that is not the empty string. *)
Definition nonempty (p : string) : Prop := Py.is_empty p = false.

(** A part that [_parse_hextet] accepts, with its value. *)
Definition parsed (p : string) (v : Z) : Prop :=
  ipaddress._BaseV6._parse_hextet p = Ok v.

Lemma parsed_nonempty (p : string) (v : Z) : parsed p v -> nonempty p.
Proof. intros H. apply parse_hextet_ok in H. apply H. Qed.

Lemma parsed_list_nonempty (ps : list string) (vs : list Z) :
  Forall2 parsed ps vs -> Forall nonempty ps.
Proof.
  induction 1 as [| p v ps vs Hp _ IH]; constructor;
    [eapply parsed_nonempty; eauto | exact IH].
Qed.

Lemma parsed_list_length (ps : list string) (vs : list Z) :
  Forall2 parsed ps vs -> List.length vs = List.length ps.
Proof. induction 1; simpl; congruence. Qed.

Lemma parsed_map (text : Z -> string) (vs : list Z) :
  (forall v, 0 <= v < 65536 -> parsed (text v) v) ->
  Forall (fun v => 0 <= v < 65536) vs -> Forall2 parsed (map text vs) vs.
Proof.
  intros Ht. induction 1 as [| v vs Hv _ IH]; simpl; constructor; auto.
Qed.

Lemma parse_hextets_parsed (ps : list string) (vs : list Z) :
  Forall2 parsed ps vs ->
  forall acc : Z, ipaddress._BaseV6.parse_hextets ps acc = Ok (groups_value vs acc).
Proof.
  induction 1 as [| p v ps vs Hp _ IH]; intros acc; [reflexivity |].
  cbn [ipaddress._BaseV6.parse_hextets]. rewrite Hp. cbn [bind].
  rewrite shift_or_hextet by (eapply parse_hextet_range; exact Hp).
  apply IH.
Qed.

(** The converse: where the loop succeeds, every part was accepted. *)
Lemma parse_hextets_ok (ps : list string) :
  forall (acc r : Z),
    ipaddress._BaseV6.parse_hextets ps acc = Ok r ->
    exists vs, Forall2 parsed ps vs /\ r = groups_value vs acc.
Proof.
  induction ps as [| p ps IH]; intros acc r H.
  - inversion H; subst. exists []. split; [constructor | reflexivity].
  - cbn [ipaddress._BaseV6.parse_hextets] in H.
    destruct (ipaddress._BaseV6._parse_hextet p) as [v |] eqn:Hp;
      cbn [bind] in H; [| discriminate].
    destruct (IH _ _ H) as (vs & Hall & ->).
    exists (v :: vs). split; [constructor; assumption |].
    cbn [groups_value fold_left].
    rewrite shift_or_hextet by (eapply parse_hextet_range; exact Hp). reflexivity.
Qed.

Lemma find_skip_index_nonempty (X : list string) :
  Forall nonempty X ->
  forall (i : Z) (k : option Z),
    ipaddress._BaseV6.find_skip_index X i k = Ok k.
Proof.
  induction 1 as [| p X Hp _ IH]; intros i k; [reflexivity |].
  cbn [ipaddress._BaseV6.find_skip_index]. rewrite Hp. apply IH.
Qed.

Lemma find_skip_index_gap (X1 X2 : list string) :
  Forall nonempty X1 -> Forall nonempty X2 ->
  forall i : Z,
    ipaddress._BaseV6.find_skip_index (X1 ++ "" :: X2)%list i None
    = Ok (Some (i + Z.of_nat (List.length X1))).
Proof.
  intros H1 H2. induction H1 as [| p X1 Hp _ IH]; intros i.
  - cbn [app ipaddress._BaseV6.find_skip_index Py.is_empty List.length].
    rewrite find_skip_index_nonempty by exact H2.
    f_equal. f_equal. simpl. lia.
  - cbn [app ipaddress._BaseV6.find_skip_index]. rewrite Hp, IH.
    f_equal. f_equal. rewrite length_cons. lia.
Qed.

Lemma is_empty_spec (p : string) : Py.is_empty p = true -> p = "".
Proof. destruct p; [reflexivity | discriminate]. Qed.

(** What the loop has seen when it succeeds: no empty part, or exactly
    one. *)
Lemma find_skip_index_ok (X : list string) :
  forall (i : Z) (k r : option Z),
    ipaddress._BaseV6.find_skip_index X i k = Ok r ->
    (r = k /\ Forall nonempty X)
    \/ (k = None
        /\ exists X1 X2,
             X = (X1 ++ "" :: X2)%list
             /\ Forall nonempty X1 /\ Forall nonempty X2
             /\ r = Some (i + Z.of_nat (List.length X1))).
Proof.
  induction X as [| p X IH]; intros i k r H.
  - inversion H; subst. left. split; [reflexivity | constructor].
  - cbn [ipaddress._BaseV6.find_skip_index] in H.
    destruct (Py.is_empty p) eqn:Hp.
    + apply is_empty_spec in Hp. subst p.
      destruct k as [k |]; [discriminate |].
      destruct (IH _ _ _ H) as [[-> Hall] | [Hk _]]; [| discriminate].
      right. split; [reflexivity |]. exists [], X.
      repeat split; [constructor | exact Hall | simpl; f_equal; lia].
    + destruct (IH _ _ _ H) as [[-> Hall] | (-> & X1 & X2 & -> & H1 & H2 & ->)].
      * left. split; [reflexivity | constructor; assumption].
      * right. split; [reflexivity |]. exists (p :: X1), X2.
        repeat split; [constructor; assumption | exact H2 |].
        f_equal. rewrite length_cons. lia.
Qed.

(** *** Slices of a list of parts *)

Lemma slice_middle (p0 pl : string) (M : list string) :
  let parts := (p0 :: M ++ [pl])%list in
  ipaddress._BaseV6.slice parts 1 (Z.of_nat (List.length parts) - 1) = M.
Proof.
  cbn zeta. unfold ipaddress._BaseV6.slice.
  rewrite length_cons, length_app. cbn [List.length].
  replace (Z.to_nat (Z.of_nat (S (List.length M + 1)) - 1 - 1))
    with (List.length M + 0)%nat by lia.
  change (Z.to_nat 1) with 1%nat. cbn [skipn].
  rewrite firstn_app_2. cbn [firstn]. apply app_nil_r.
Qed.

Lemma slice_head (l r : list string) (k : Z) :
  k = Z.of_nat (List.length l) ->
  ipaddress._BaseV6.slice (l ++ r) 0 k = l.
Proof.
  intros ->. unfold ipaddress._BaseV6.slice. cbn [Z.to_nat skipn].
  rewrite Z.sub_0_r, Nat2Z.id.
  replace (List.length l) with (List.length l + 0)%nat at 1 by lia.
  rewrite firstn_app_2. cbn [firstn]. apply app_nil_r.
Qed.

Lemma slice_tail (l r : list string) (lo hi : Z) :
  lo = Z.of_nat (List.length l) ->
  hi = Z.of_nat (List.length (l ++ r)) ->
  ipaddress._BaseV6.slice (l ++ r) lo hi = r.
Proof.
  intros -> ->. unfold ipaddress._BaseV6.slice.
  rewrite Nat2Z.id, skipn_app, skipn_all, Nat.sub_diag. cbn [skipn app].
  rewrite length_app.
  replace (Z.to_nat (Z.of_nat (List.length l + List.length r)
                     - Z.of_nat (List.length l)))
    with (List.length r) by lia.
  apply firstn_all.
Qed.

Lemma slice_empty (l : list string) (lo hi : Z) :
  hi <= lo -> ipaddress._BaseV6.slice l lo hi = [].
Proof.
  intros H. unfold ipaddress._BaseV6.slice.
  replace (Z.to_nat (hi - lo)) with 0%nat by lia. reflexivity.
Qed.

Definition is_nil {A : Type} (l : list A) : bool :=
  match l with [] => true | _ => false end.

Lemma is_nil_length {A : Type} (l : list A) :
  is_nil l = (Z.of_nat (List.length l) =? 0).
Proof. destruct l; reflexivity. Qed.

(** The parser on parts with exactly one empty part strictly inside: the
    parts before it and after it are the high and the low hextets, an empty
    first or last part being allowed only next to the inner empty one. *)
Lemma ip_int_from_parts_gap (p0 pl : string) (X1 X2 : list string) :
  Forall nonempty X1 -> Forall nonempty X2 ->
  _ip_int_from_parts (p0 :: X1 ++ "" :: X2 ++ [pl])%list
  = if 6 <? Z.of_nat (List.length X1) + Z.of_nat (List.length X2)
    then Raise AddressValueError
    else if Py.is_empty p0 && negb (is_nil X1) then Raise AddressValueError
    else if Py.is_empty pl && negb (is_nil X2) then Raise AddressValueError
    else
      let hi := if Py.is_empty p0 then [] else p0 :: X1 in
      let lo := if Py.is_empty pl then [] else (X2 ++ [pl])%list in
      let parts_skipped :=
        8 - (Z.of_nat (List.length hi) + Z.of_nat (List.length lo)) in
      if parts_skipped <? 1 then Raise AddressValueError
      else
        reraise_ValueError_as AddressValueError
          (ip_int <- ipaddress._BaseV6.parse_hextets hi 0 ;;
           ipaddress._BaseV6.parse_hextets lo
             (Z.shiftl ip_int (16 * parts_skipped))).
Proof.
  intros H1 H2. unfold _ip_int_from_parts.
  replace (p0 :: X1 ++ "" :: X2 ++ [pl])%list
    with (p0 :: (X1 ++ "" :: X2) ++ [pl])%list
    by (rewrite <- app_assoc; reflexivity).
  rewrite (slice_middle p0 pl (X1 ++ "" :: X2)).
  rewrite find_skip_index_gap by assumption. cbn [bind].
  set (parts := (p0 :: (X1 ++ "" :: X2) ++ [pl])%list).
  assert (Hn : Z.of_nat (List.length parts)
               = Z.of_nat (List.length X1) + Z.of_nat (List.length X2) + 3).
  { unfold parts. rewrite length_cons, !length_app, length_cons.
    cbn [List.length]. lia. }
  assert (Hlast : last parts "" = pl).
  { unfold parts. rewrite app_comm_cons. apply last_last. }
  assert (Hhi : forall lo hi : Z,
             lo = 0 -> hi = 1 + Z.of_nat (List.length X1) ->
             ipaddress._BaseV6.slice parts lo hi = p0 :: X1).
  { intros lo hi -> ->. unfold parts.
    replace (p0 :: (X1 ++ "" :: X2) ++ [pl])%list
      with ((p0 :: X1) ++ "" :: X2 ++ [pl])%list
      by (cbn [app]; rewrite <- app_assoc; reflexivity).
    apply slice_head. rewrite length_cons. lia. }
  assert (Hlo : forall lo hi : Z,
             lo = Z.of_nat (List.length X1) + 2 ->
             hi = Z.of_nat (List.length X1) + Z.of_nat (List.length X2) + 3 ->
             ipaddress._BaseV6.slice parts lo hi = (X2 ++ [pl])%list).
  { intros lo hi -> ->. unfold parts.
    replace (p0 :: (X1 ++ "" :: X2) ++ [pl])%list
      with ((p0 :: X1 ++ [""]) ++ X2 ++ [pl])%list
      by (cbn [app]; rewrite <- !app_assoc; reflexivity).
    apply slice_tail.
    - rewrite length_cons, length_app. cbn [List.length]. lia.
    - rewrite length_app, length_cons, !length_app. cbn [List.length]. lia. }
  rewrite Hn, Hlast. change (nth 0 parts "") with p0.
  unfold ipaddress._BaseV6._HEXTET_COUNT.
  rewrite !is_nil_length.
  assert (Hlen_hi : Z.of_nat (List.length (p0 :: X1))
                    = 1 + Z.of_nat (List.length X1))
    by (rewrite length_cons; lia).
  assert (Hlen_lo : Z.of_nat (List.length (X2 ++ [pl])%list)
                    = Z.of_nat (List.length X2) + 1)
    by (rewrite length_app; cbn [List.length]; lia).
  pose proof (Nat2Z.is_nonneg (List.length X1)) as Ha.
  pose proof (Nat2Z.is_nonneg (List.length X2)) as Hb.
  revert Hhi Hlo Hlen_hi Hlen_lo Ha Hb.
  generalize (Z.of_nat (List.length X1)) as a.
  generalize (Z.of_nat (List.length X2)) as b.
  intros b a Hhi Hlo Hlen_hi Hlen_lo Ha Hb.
  replace (a + b + 3 - (1 + a) - 1) with (b + 1) by lia.
  replace (1 + a - 1) with a by lia. replace (b + 1 - 1) with b by lia.
  destruct (Z.ltb_spec (8 + 1) (a + b + 3)); destruct (Z.ltb_spec 6 (a + b));
    try lia; [reflexivity |].
  destruct (Py.is_empty p0) eqn:E0, (Py.is_empty pl) eqn:El;
    destruct (Z.eqb_spec a 0) as [Ea | Ea];
    destruct (Z.eqb_spec b 0) as [Eb | Eb];
    cbn [negb andb bind]; try reflexivity;
    cbv zeta; rewrite ?Hlen_hi, ?Hlen_lo; cbn [List.length];
    change (Z.of_nat 0) with 0;
    match goal with
    | |- (_ <- (if ?x <? 1 then _ else _) ;; _) = (if ?y <? 1 then _ else _) =>
        replace y with x by lia; destruct (x <? 1); cbn [bind];
        [reflexivity |]
    end;
    repeat match goal with
      | |- context [ipaddress._BaseV6.slice parts ?lo ?hi] =>
          first [ rewrite (slice_empty parts lo hi) by lia
                | rewrite (Hhi lo hi) by lia
                | rewrite (Hlo lo hi) by lia ]
      end;
    reflexivity.
Qed.

(** The parser on parts none of which is empty strictly inside. *)
Lemma ip_int_from_parts_nogap (p0 pl : string) (M : list string) :
  Forall nonempty M ->
  _ip_int_from_parts (p0 :: M ++ [pl])%list
  = if negb (Z.of_nat (List.length M) =? 6) then Raise AddressValueError
    else if Py.is_empty p0 then Raise AddressValueError
    else if Py.is_empty pl then Raise AddressValueError
    else
      reraise_ValueError_as AddressValueError
        (ipaddress._BaseV6.parse_hextets (p0 :: M ++ [pl])%list 0).
Proof.
  intros HM. unfold _ip_int_from_parts.
  rewrite (slice_middle p0 pl M).
  rewrite find_skip_index_nonempty by assumption. cbn [bind].
  set (parts := (p0 :: M ++ [pl])%list).
  assert (Hn : Z.of_nat (List.length parts) = Z.of_nat (List.length M) + 2).
  { unfold parts. rewrite length_cons, !length_app.
    cbn [List.length]. lia. }
  assert (Hlast : last parts "" = pl).
  { unfold parts. rewrite app_comm_cons. apply last_last. }
  rewrite Hlast. change (nth 0 parts "") with p0.
  unfold ipaddress._BaseV6._HEXTET_COUNT.
  destruct (Z.eqb_spec (Z.of_nat (List.length M)) 6) as [E6 | E6];
    destruct (Z.eqb_spec (Z.of_nat (List.length parts)) 8) as [E8 | E8];
    try lia; cbn [negb].
  2:{ destruct (_ <? _); reflexivity. }
  rewrite E8. change (8 + 1 <? 8) with false. cbv iota.
  destruct (Py.is_empty p0); [reflexivity |].
  destruct (Py.is_empty pl); [reflexivity |]. cbn [bind].
  rewrite (slice_empty parts (8 - 0) 8) by lia.
  replace (ipaddress._BaseV6.slice parts 0 8) with parts.
  2:{ symmetry. rewrite <- (app_nil_r parts) at 1. apply slice_head.
      rewrite E8. reflexivity. }
  destruct (ipaddress._BaseV6.parse_hextets parts 0) as [r | e]; reflexivity.
Qed.

(** *** The parser on a text made by joining parts *)

Lemma is_empty_app_sep (x : string) (c : ascii) (r : string) :
  Py.is_empty (x ++ String c r) = false.
Proof. destruct x; reflexivity. Qed.

Lemma is_empty_join (sep : ascii) (parts : list string) :
  (2 <= List.length parts)%nat ->
  Py.is_empty (Py.join (String sep EmptyString) parts) = false.
Proof.
  destruct parts as [| x [| y l]]; simpl List.length; try lia. intros _.
  rewrite join_cons. apply is_empty_app_sep.
Qed.

Lemma ip_int_from_joined_parts (parts : list string) :
  (3 <= List.length parts)%nat ->
  Forall (fun p => Py.contains ":" p = false) parts ->
  Py.contains "." (last parts "") = false ->
  ipaddress._BaseV6._ip_int_from_string (Py.join ":" parts)
  = _ip_int_from_parts parts.
Proof.
  intros Hlen Hcolon Hdot. rewrite ip_int_from_string_parts.
  rewrite is_empty_join by lia.
  assert (Hne : parts <> []) by (destruct parts; simpl in *; [lia | congruence]).
  rewrite split_join by assumption.
  cbv zeta. destruct (Z.ltb_spec (Z.of_nat (List.length parts)) 3); [lia |].
  rewrite Hdot. reflexivity.
Qed.

Lemma parsed_no_colon (p : string) (v : Z) :
  parsed p v -> Py.contains ":" p = false.
Proof.
  intros H. apply parse_hextet_ok in H. destruct H as (_ & Hall & _).
  apply all_hex_no; [reflexivity | exact Hall].
Qed.

Lemma parsed_no_dot (p : string) (v : Z) :
  parsed p v -> Py.contains "." p = false.
Proof.
  intros H. apply parse_hextet_ok in H. destruct H as (_ & Hall & _).
  apply all_hex_no; [reflexivity | exact Hall].
Qed.

Lemma parsed_list_no_colon (ps : list string) (vs : list Z) :
  Forall2 parsed ps vs -> Forall (fun p => Py.contains ":" p = false) ps.
Proof.
  induction 1 as [| p v ps vs Hp _ IH]; constructor;
    [eapply parsed_no_colon; eauto | exact IH].
Qed.

(** Eight accepted parts, joined with colons, give the number made of their
    values. *)
Lemma ip_int_from_eight_parts (ps : list string) (vs : list Z) :
  Forall2 parsed ps vs -> List.length ps = 8%nat ->
  ipaddress._BaseV6._ip_int_from_string (Py.join ":" ps) = Ok (groups_value vs 0).
Proof.
  intros Hall Hlen.
  pose proof (parsed_list_nonempty _ _ Hall) as Hne.
  pose proof (parsed_list_no_colon _ _ Hall) as Hcolon.
  destruct ps as [| p0 ps']; [discriminate |].
  destruct (exists_last (l := ps')) as (M & pl & EM);
    [destruct ps'; [discriminate | congruence] |].
  subst ps'.
  assert (Hpl : exists v, parsed pl v).
  { clear - Hall. inversion Hall as [| ? v0 ? vs0 _ Hrest]; subst.
    apply Forall2_app_inv_l in Hrest.
    destruct Hrest as (l1 & l2 & _ & H2 & _).
    inversion H2; subst. eauto. }
  destruct Hpl as (vl & Hpl).
  rewrite ip_int_from_joined_parts.
  - inversion Hne as [| ? ? Hp0 HM]; subst.
    apply Forall_app in HM. destruct HM as [HM Hl]. inversion Hl; subst.
    rewrite ip_int_from_parts_nogap by exact HM.
    rewrite length_cons, length_app in Hlen. cbn [List.length] in Hlen.
    destruct (Z.eqb_spec (Z.of_nat (List.length M)) 6); [| lia]. cbn [negb].
    unfold nonempty in *.
    rewrite Hp0. match goal with H : Py.is_empty pl = false |- _ => rewrite H end.
    rewrite (parse_hextets_parsed _ _ Hall). reflexivity.
  - lia.
  - exact Hcolon.
  - rewrite app_comm_cons, last_last. eapply parsed_no_dot; eauto.
Qed.

(** The parts of a compressed text: the hextets before and after the run
    that [::] stands for, an empty part for the run, and one more empty
    part where the run is at an end. *)
Definition with_gap (A B : list string) : list string :=
  ((if is_nil A then [""] else A) ++ "" :: (if is_nil B then [""] else B))%list.

Lemma with_gap_ends (A B : list string) :
  exists p0 X1 X2 pl,
    with_gap A B = (p0 :: X1 ++ "" :: X2 ++ [pl])%list
    /\ (A = [] /\ p0 = "" /\ X1 = [] \/ A = p0 :: X1)
    /\ (B = [] /\ pl = "" /\ X2 = [] \/ B = (X2 ++ [pl])%list).
Proof.
  unfold with_gap.
  destruct A as [| a A'].
  - destruct B as [| b B'].
    + exists "", [], [], "". cbn. repeat split; left; repeat split.
    + destruct (exists_last (l := b :: B')) as (X2 & pl & E); [discriminate |].
      exists "", [], X2, pl. rewrite E. cbn [is_nil app].
      destruct (X2 ++ [pl])%list eqn:E2; [destruct X2; discriminate |].
      split; [reflexivity |]. split; [left; repeat split | right; reflexivity].
  - destruct B as [| b B'].
    + exists a, A', [], "". cbn [is_nil app].
      split; [reflexivity |]. split; [right; reflexivity | left; repeat split].
    + destruct (exists_last (l := b :: B')) as (X2 & pl & E); [discriminate |].
      exists a, A', X2, pl. rewrite E. cbn [is_nil app].
      destruct (X2 ++ [pl])%list eqn:E2; [destruct X2; discriminate |].
      split; [reflexivity |]. split; right; reflexivity.
Qed.

Lemma shiftl_groups (x k : Z) :
  0 <= k -> Z.shiftl x (16 * k) = x * 65536 ^ k.
Proof.
  intros Hk. rewrite Z.shiftl_mul_pow2 by lia.
  rewrite Z.pow_mul_r by lia. reflexivity.
Qed.

(** The parser on a compressed text. *)
Lemma ip_int_from_parts_with_gap (ps qs : list string) (vs ws : list Z) :
  Forall2 parsed ps vs -> Forall2 parsed qs ws ->
  (List.length ps + List.length qs <= 7)%nat ->
  ipaddress._BaseV6._ip_int_from_string (Py.join ":" (with_gap ps qs))
  = Ok (groups_value ws
          (groups_value vs 0
           * 65536 ^ (8 - Z.of_nat (List.length ps + List.length qs)))).
Proof.
  intros Hps Hqs Hlen.
  pose proof (parsed_list_nonempty _ _ Hps) as Hne1.
  pose proof (parsed_list_nonempty _ _ Hqs) as Hne2.
  pose proof (parsed_list_no_colon _ _ Hps) as Hc1.
  pose proof (parsed_list_no_colon _ _ Hqs) as Hc2.
  destruct (with_gap_ends ps qs) as (p0 & X1 & X2 & pl & E & HA & HB).
  assert (HX1 : Forall nonempty X1).
  { destruct HA as [(_ & _ & ->) | ->]; [constructor |].
    inversion Hne1; assumption. }
  assert (HX2 : Forall nonempty X2).
  { destruct HB as [(_ & _ & ->) | ->]; [constructor |].
    apply Forall_app in Hne2. apply Hne2. }
  assert (Hdot : Py.contains "." pl = false).
  { destruct HB as [(_ & -> & _) | ->]; [reflexivity |].
    apply Forall2_app_inv_l in Hqs.
    destruct Hqs as (l1 & l2 & _ & H2 & _).
    inversion H2; subst. eapply parsed_no_dot; eauto. }
  assert (Hcolon : Forall (fun p => Py.contains ":" p = false) (with_gap ps qs)).
  { unfold with_gap. apply Forall_app. split.
    - destruct ps; cbn [is_nil]; [repeat constructor | exact Hc1].
    - constructor; [reflexivity |].
      destruct qs; cbn [is_nil]; [repeat constructor | exact Hc2]. }
  rewrite ip_int_from_joined_parts; try assumption.
  2:{ rewrite E, length_cons, length_app, length_cons, length_app.
      cbn [List.length]. lia. }
  2:{ rewrite E.
      replace (p0 :: X1 ++ "" :: X2 ++ [pl])%list
        with ((p0 :: X1 ++ "" :: X2) ++ [pl])%list
        by (cbn [app]; rewrite <- app_assoc; reflexivity).
      rewrite last_last. exact Hdot. }
  rewrite E, ip_int_from_parts_gap by assumption.
  assert (Ehi : (if Py.is_empty p0 then [] else p0 :: X1) = ps
                /\ Py.is_empty p0 && negb (is_nil X1) = false).
  { destruct HA as [(-> & -> & ->) | ->]; [split; reflexivity |].
    inversion Hne1 as [| ? ? Hp0 _]; subst. unfold nonempty in Hp0.
    rewrite Hp0. split; reflexivity. }
  assert (Elo : (if Py.is_empty pl then [] else (X2 ++ [pl])%list) = qs
                /\ Py.is_empty pl && negb (is_nil X2) = false).
  { destruct HB as [(-> & -> & ->) | ->]; [split; reflexivity |].
    apply Forall_app in Hne2. destruct Hne2 as [_ Hl].
    inversion Hl as [| ? ? Hpl _]; subst. unfold nonempty in Hpl.
    rewrite Hpl. split; reflexivity. }
  destruct Ehi as [Ehi ->], Elo as [Elo ->]. cbv zeta. rewrite Ehi, Elo.
  assert (HlenX : Z.of_nat (List.length X1) + Z.of_nat (List.length X2) <= 6).
  { destruct HA as [(-> & _ & ->) | ->], HB as [(-> & _ & ->) | ->];
      rewrite ?length_cons, ?length_app in Hlen; cbn [List.length] in *; lia. }
  destruct (Z.ltb_spec 6 (Z.of_nat (List.length X1) + Z.of_nat (List.length X2)));
    [lia |].
  destruct (Z.ltb_spec
              (8 - (Z.of_nat (List.length ps) + Z.of_nat (List.length qs))) 1);
    [lia |].
  rewrite (parse_hextets_parsed _ _ Hps). cbn [bind].
  rewrite (parse_hextets_parsed _ _ Hqs). cbn [reraise_ValueError_as].
  rewrite shiftl_groups by lia. rewrite Nat2Z.inj_add. reflexivity.
Qed.

(** *** The compression of a list of hextets *)

(** What the scan of [_compress_hextets] knows after the hextets [P]: the
    current run of ["0"] ends [P], and the best run so far lies in [P]. *)
Definition scan_invariant (P : list string) (st : Z * Z * Z * Z) : Prop :=
  let '(best_start, best_len, start, len) := st in
  0 <= best_len /\ 0 <= len
  /\ (exists P1,
        P = (P1 ++ repeat "0" (Z.to_nat len))%list
        /\ (len = 0 /\ start = -1
            \/ 0 < len /\ start = Z.of_nat (List.length P1)))
  /\ (best_len = 0
      \/ exists A B,
           P = (A ++ repeat "0" (Z.to_nat best_len) ++ B)%list
           /\ best_start = Z.of_nat (List.length A)).

Lemma repeat_snoc {A : Type} (x : A) (n : nat) :
  (repeat x n ++ [x])%list = repeat x (S n).
Proof. symmetry. apply repeat_cons. Qed.

Lemma scan_step_invariant (P : list string) (st : Z * Z * Z * Z) (h : string) :
  scan_invariant P st ->
  scan_invariant (P ++ [h])
    (ipaddress._BaseV6.scan_step st (Z.of_nat (List.length P), h)).
Proof.
  destruct st as [[[bs bl] s] l].
  intros (Hbl & Hl & (P1 & EP & Hcur) & Hbest).
  unfold ipaddress._BaseV6.scan_step.
  destruct (String.eqb_spec h "0") as [-> | Hne].
  - assert (EP' : (P ++ ["0"])%list
                  = (P1 ++ repeat "0" (Z.to_nat (l + 1)))%list).
    { rewrite EP, <- app_assoc, repeat_snoc. f_equal. f_equal. lia. }
    assert (Hs : (if s =? -1 then Z.of_nat (List.length P) else s)
                 = Z.of_nat (List.length P1)).
    { destruct Hcur as [[-> ->] | [Hpos ->]].
      - cbn. rewrite EP. cbn [Z.to_nat repeat]. rewrite app_nil_r. reflexivity.
      - destruct (Z.eqb_spec (Z.of_nat (List.length P1)) (-1)); [lia | reflexivity]. }
    rewrite Hs.
    assert (Hcur' : exists P1',
               (P ++ ["0"])%list = (P1' ++ repeat "0" (Z.to_nat (l + 1)))%list
               /\ (l + 1 = 0 /\ Z.of_nat (List.length P1) = -1
                   \/ 0 < l + 1
                      /\ Z.of_nat (List.length P1) = Z.of_nat (List.length P1'))).
    { exists P1. split; [exact EP' |]. right. split; [lia | reflexivity]. }
    destruct (Z.ltb_spec bl (l + 1)).
    + split; [lia |]. split; [lia |]. split; [exact Hcur' |].
      right. exists P1, []. rewrite app_nil_r. split; [exact EP' | reflexivity].
    + split; [lia |]. split; [lia |]. split; [exact Hcur' |].
      destruct Hbest as [-> | (A & B & EB & ->)]; [lia |].
      right. exists A, (B ++ ["0"])%list. split; [| reflexivity].
      rewrite EB, <- !app_assoc. reflexivity.
  - split; [lia |]. split; [lia |]. split.
    + exists (P ++ [h])%list. cbn [Z.to_nat repeat]. rewrite app_nil_r.
      split; [reflexivity | left; split; reflexivity].
    + destruct Hbest as [-> | (A & B & EB & ->)]; [left; reflexivity |].
      right. exists A, (B ++ [h])%list. split; [| reflexivity].
      rewrite EB, <- !app_assoc. reflexivity.
Qed.

Lemma scan_invariant_fold (R : list string) :
  forall (P : list string) (st : Z * Z * Z * Z),
    scan_invariant P st ->
    scan_invariant (P ++ R)
      (fold_left ipaddress._BaseV6.scan_step
         (ipaddress._BaseV6.enumerate_from (Z.of_nat (List.length P)) R) st).
Proof.
  induction R as [| h R IH]; intros P st H.
  - rewrite app_nil_r. exact H.
  - cbn [ipaddress._BaseV6.enumerate_from fold_left].
    replace (P ++ h :: R)%list with ((P ++ [h]) ++ R)%list
      by (rewrite <- app_assoc; reflexivity).
    replace (Z.of_nat (List.length P) + 1)
      with (Z.of_nat (List.length (P ++ [h])%list))
      by (rewrite length_app; cbn [List.length]; lia).
    apply IH. apply scan_step_invariant. exact H.
Qed.

(** [_compress_hextets] leaves the hextets as they are, or replaces one run
    of two or more ["0"] by the parts that make [::]. *)
Lemma compress_hextets_shape (hs : list string) :
  ipaddress._BaseV6._compress_hextets hs = hs
  \/ exists (A B : list string) (k : nat),
       (2 <= k)%nat
       /\ hs = (A ++ repeat "0" k ++ B)%list
       /\ ipaddress._BaseV6._compress_hextets hs = with_gap A B.
Proof.
  unfold ipaddress._BaseV6._compress_hextets.
  assert (Hinv : scan_invariant ([] ++ hs)
                   (fold_left ipaddress._BaseV6.scan_step
                      (ipaddress._BaseV6.enumerate_from
                         (Z.of_nat (List.length (@nil string))) hs)
                      (-1, 0, -1, 0))).
  { apply scan_invariant_fold. split; [lia |]. split; [lia |]. split.
    - exists []. split; [reflexivity | left; split; reflexivity].
    - left. reflexivity. }
  cbn [app List.length Z.of_nat] in Hinv.
  destruct (fold_left _ _ _) as [[[bs bl] s] l].
  destruct Hinv as (Hbl & _ & _ & Hbest).
  destruct (Z.ltb_spec 1 bl) as [Hlt | Hge]; [| left; reflexivity].
  right. destruct Hbest as [-> | (A & B & EB & ->)]; [lia |].
  exists A, B, (Z.to_nat bl). split; [lia |]. split; [exact EB |].
  set (k := Z.to_nat bl) in *.
  assert (Ebl : bl = Z.of_nat k) by lia.
  assert (Hlen : Z.of_nat (List.length hs)
                 = Z.of_nat (List.length A) + Z.of_nat k
                   + Z.of_nat (List.length B)).
  { rewrite EB, !length_app, repeat_length. lia. }
  assert (Hfirst : forall T : list string,
             firstn (Z.to_nat (Z.of_nat (List.length A)))
               (A ++ T)%list = A).
  { intros T. rewrite Nat2Z.id.
    replace (List.length A) with (List.length A + 0)%nat at 1 by lia.
    rewrite firstn_app_2. cbn [firstn]. apply app_nil_r. }
  assert (Hskip : forall T : list string,
             skipn (Z.to_nat (Z.of_nat (List.length A) + bl))
               (A ++ repeat "0" k ++ T)%list = T).
  { intros T. rewrite app_assoc. 
    replace (Z.to_nat (Z.of_nat (List.length A) + bl))
      with (List.length (A ++ repeat "0" k)%list)
      by (rewrite length_app, repeat_length; lia).
    rewrite skipn_app, skipn_all, Nat.sub_diag. reflexivity. }
  unfold with_gap.
  destruct (Z.eqb_spec (Z.of_nat (List.length A) + bl)
              (Z.of_nat (List.length hs))) as [Eend | Eend].
  - assert (B = []) by (destruct B; [reflexivity | cbn [List.length] in Hlen; lia]).
    subst B. cbn [is_nil]. rewrite EB, app_nil_r, <- app_assoc.
    rewrite Hfirst, Hskip.
    destruct A as [| a A']; reflexivity.
  - assert (B <> []) by (intros ->; cbn [List.length] in Hlen; lia).
    rewrite EB, Hfirst, Hskip.
    destruct B as [| b B']; [congruence |]. cbn [is_nil].
    destruct A as [| a A']; reflexivity.
Qed.

(** *** The text of an address parses back to the address *)

Lemma parsed_format_x (v : Z) : 0 <= v < 65536 -> parsed (Py.format_x v) v.
Proof. apply parse_hextet_format_x. Qed.

Lemma groups_value_app (vs ws : list Z) (acc : Z) :
  groups_value (vs ++ ws) acc = groups_value ws (groups_value vs acc).
Proof. apply fold_left_app. Qed.

Lemma groups_value_zeros (vs : list Z) :
  Forall (fun v => v = 0) vs ->
  forall acc : Z,
    groups_value vs acc = acc * 65536 ^ Z.of_nat (List.length vs).
Proof.
  induction 1 as [| v vs -> _ IH]; intros acc.
  - cbn. lia.
  - cbn [groups_value fold_left]. fold (groups_value vs (acc * 65536 + 0)).
    rewrite IH, length_cons, Nat2Z.inj_succ, Z.pow_succ_r by lia. lia.
Qed.

(** The hextets whose text is ["0"] are the zero hextets. *)
Lemma format_x_zero (v : Z) :
  0 <= v < 65536 -> Py.format_x v = "0" -> v = 0.
Proof.
  intros Hv E. pose proof (parse_hextet_format_x v Hv) as Hp.
  rewrite E in Hp. vm_compute in Hp. congruence.
Qed.

Lemma string_from_ip_int_groups (ip : Z) :
  0 <= ip < 2 ^ 128 ->
  ipaddress._BaseV6._string_from_ip_int ip
  = Py.join ":"
      (ipaddress._BaseV6._compress_hextets (map Py.format_x (hextet_values ip))).
Proof.
  intros Hip. unfold ipaddress._BaseV6._string_from_ip_int. cbv zeta.
  rewrite hextets_of_format_032x by exact Hip. reflexivity.
Qed.

(** [_ip_int_from_string(_string_from_ip_int(ip)) == ip]. *)
Lemma ip_int_from_string_from_ip_int (ip : Z) :
  0 <= ip < 2 ^ 128 ->
  ipaddress._BaseV6._ip_int_from_string (ipaddress._BaseV6._string_from_ip_int ip)
  = Ok ip.
Proof.
  intros Hip. rewrite string_from_ip_int_groups by exact Hip.
  pose proof (hextet_values_range ip) as Hrange.
  pose proof (hextet_values_length ip) as Hlen.
  pose proof (groups_value_hextet_values ip Hip) as Hval.
  revert Hrange Hlen Hval. generalize (hextet_values ip) as vs.
  intros vs Hrange Hlen Hval.
  destruct (compress_hextets_shape (map Py.format_x vs))
    as [E | (A & B & k & Hk & EAB & E)]; rewrite E.
  - rewrite (ip_int_from_eight_parts _ vs).
    + rewrite Hval. reflexivity.
    + apply parsed_map; [exact parsed_format_x | exact Hrange].
    + rewrite length_map. exact Hlen.
  - apply map_eq_app in EAB. destruct EAB as (v1 & v23 & -> & <- & E23).
    apply map_eq_app in E23. destruct E23 as (v2 & v3 & -> & E2 & <-).
    apply Forall_app in Hrange. destruct Hrange as [Hr1 Hr23].
    apply Forall_app in Hr23. destruct Hr23 as [Hr2 Hr3].
    assert (Hk2 : List.length v2 = k).
    { apply (f_equal (@List.length string)) in E2.
      rewrite length_map, repeat_length in E2. exact E2. }
    assert (Hz : Forall (fun v => v = 0) v2).
    { apply Forall_forall. intros v Hin.
      rewrite Forall_forall in Hr2. apply format_x_zero; [apply Hr2; exact Hin |].
      apply (repeat_spec k). rewrite <- E2. apply in_map. exact Hin. }
    rewrite !length_app in Hlen.
    rewrite (ip_int_from_parts_with_gap _ _ v1 v3).
    + rewrite !length_map. f_equal. rewrite <- Hval.
      rewrite !groups_value_app, (groups_value_zeros v2 Hz). f_equal. f_equal.
      f_equal. lia.
    + apply parsed_map; [exact parsed_format_x | exact Hr1].
    + apply parsed_map; [exact parsed_format_x | exact Hr3].
    + rewrite !length_map. lia.
Qed.

(** *** What the parser accepts *)

Lemma reraise_ok {A : Type} (e : exn) (r : result A) (x : A) :
  reraise_ValueError_as e r = Ok x -> r = Ok x.
Proof.
  destruct r as [y | e0]; simpl; [auto |].
  destruct (is_ValueError e0); discriminate.
Qed.

Lemma bind_ok {A B : Type} (r : result A) (k : A -> result B) (y : B) :
  bind r k = Ok y -> exists x, r = Ok x /\ k x = Ok y.
Proof. destruct r as [x | e]; simpl; [eauto | discriminate]. Qed.

(** Where the parser succeeds on a list of parts, the parts are eight
    accepted hextets, or accepted hextets around one gap that stands for
    the missing ones. *)
Lemma ip_int_from_parts_ok (parts : list string) (ip : Z) :
  (3 <= List.length parts)%nat ->
  _ip_int_from_parts parts = Ok ip ->
  exists (hi lo : list string) (vs ws : list Z) (k : Z),
    Forall2 parsed hi vs /\ Forall2 parsed lo ws
    /\ 0 <= k
    /\ Z.of_nat (List.length hi) + k + Z.of_nat (List.length lo) = 8
    /\ ip = groups_value ws (groups_value vs 0 * 65536 ^ k)
    /\ (parts = hi /\ lo = [] /\ k = 0
        \/ parts = with_gap hi lo /\ 1 <= k).
Proof.
  intros Hlen H.
  destruct parts as [| p0 rest]; [simpl in Hlen; lia |].
  destruct (exists_last (l := rest)) as (M & pl & ->);
    [destruct rest; [simpl in Hlen; lia | congruence] |].
  destruct (ipaddress._BaseV6.find_skip_index M 1 None) as [r | e] eqn:Hf.
  2:{ unfold _ip_int_from_parts in H. rewrite (slice_middle p0 pl M), Hf in H.
      destruct (_ <? _); discriminate. }
  destruct (find_skip_index_ok _ _ _ _ Hf)
    as [[-> HM] | (_ & X1 & X2 & -> & H1 & H2 & ->)].
  - rewrite ip_int_from_parts_nogap in H by exact HM.
    destruct (Z.eqb_spec (Z.of_nat (List.length M)) 6) as [E6 |];
      [| discriminate].
    cbn [negb] in H.
    destruct (Py.is_empty p0); [discriminate |].
    destruct (Py.is_empty pl); [discriminate |].
    apply reraise_ok in H. apply parse_hextets_ok in H.
    destruct H as (vs & Hall & ->).
    exists (p0 :: M ++ [pl])%list, [], vs, [], 0.
    split; [exact Hall |]. split; [constructor |]. split; [lia |].
    split; [rewrite length_cons, length_app; cbn [List.length]; lia |].
    split; [cbn [groups_value fold_left]; lia |].
    left. repeat split.
  - replace (p0 :: (X1 ++ "" :: X2) ++ [pl])%list
      with (p0 :: X1 ++ "" :: X2 ++ [pl])%list in *
      by (rewrite <- app_assoc; reflexivity).
    rewrite ip_int_from_parts_gap in H by assumption.
    destruct (Z.ltb_spec 6 (Z.of_nat (List.length X1) + Z.of_nat (List.length X2)));
      [discriminate |].
    destruct (Py.is_empty p0 && negb (is_nil X1)) eqn:E0; [discriminate |].
    destruct (Py.is_empty pl && negb (is_nil X2)) eqn:El; [discriminate |].
    cbv zeta in H.
    set (hi := if Py.is_empty p0 then [] else p0 :: X1) in *.
    set (lo := if Py.is_empty pl then [] else (X2 ++ [pl])%list) in *.
    destruct (Z.ltb_spec
                (8 - (Z.of_nat (List.length hi) + Z.of_nat (List.length lo))) 1);
      [discriminate |].
    apply reraise_ok in H. apply bind_ok in H. destruct H as (x & Hhi & Hlo).
    apply parse_hextets_ok in Hhi. destruct Hhi as (vs & Hvs & ->).
    apply parse_hextets_ok in Hlo. destruct Hlo as (ws & Hws & ->).
    exists hi, lo, vs, ws,
      (8 - (Z.of_nat (List.length hi) + Z.of_nat (List.length lo))).
    split; [exact Hvs |]. split; [exact Hws |]. split; [lia |].
    split; [lia |]. split; [rewrite shiftl_groups by lia; reflexivity |].
    right. split; [| lia].
    unfold with_gap, hi, lo.
    destruct (Py.is_empty p0) eqn:Ep0.
    + apply is_empty_spec in Ep0. subst p0.
      destruct X1; [| discriminate]. cbn [is_nil app].
      destruct (Py.is_empty pl) eqn:Epl.
      * apply is_empty_spec in Epl. subst pl.
        destruct X2; [reflexivity | discriminate].
      * destruct X2; reflexivity.
    + cbn [is_nil].
      destruct (Py.is_empty pl) eqn:Epl.
      * apply is_empty_spec in Epl. subst pl.
        destruct X2; [reflexivity | discriminate].
      * destruct X2; reflexivity.
Qed.

Lemma groups_value_bounds (vs : list Z) :
  Forall (fun v => 0 <= v < 65536) vs ->
  forall acc : Z,
    acc * 65536 ^ Z.of_nat (List.length vs)
    <= groups_value vs acc
    < (acc + 1) * 65536 ^ Z.of_nat (List.length vs).
Proof.
  induction 1 as [| v vs Hv _ IH]; intros acc.
  - cbn. lia.
  - cbn [groups_value fold_left]. fold (groups_value vs (acc * 65536 + v)).
    rewrite length_cons, Nat2Z.inj_succ, Z.pow_succ_r by lia.
    specialize (IH (acc * 65536 + v)).
    assert (0 < 65536 ^ Z.of_nat (List.length vs))
      by (apply Z.pow_pos_nonneg; lia).
    nia.
Qed.

Lemma parsed_list_range (ps : list string) (vs : list Z) :
  Forall2 parsed ps vs -> Forall (fun v => 0 <= v < 65536) vs.
Proof.
  induction 1 as [| p v ps vs Hp _ IH]; constructor;
    [eapply parse_hextet_range; exact Hp | exact IH].
Qed.

Lemma ip_int_from_parts_range (parts : list string) (ip : Z) :
  (3 <= List.length parts)%nat ->
  _ip_int_from_parts parts = Ok ip -> 0 <= ip < 2 ^ 128.
Proof.
  intros Hlen H.
  destruct (ip_int_from_parts_ok _ _ Hlen H)
    as (hi & lo & vs & ws & k & Hvs & Hws & Hk & Hsum & -> & _).
  pose proof (groups_value_bounds vs (parsed_list_range _ _ Hvs) 0) as B1.
  pose proof (groups_value_bounds ws (parsed_list_range _ _ Hws)
                (groups_value vs 0 * 65536 ^ k)) as B2.
  rewrite (parsed_list_length _ _ Hvs) in B1.
  rewrite (parsed_list_length _ _ Hws) in B2.
  assert (Hpow : 65536 ^ Z.of_nat (List.length hi) * 65536 ^ k
                 * 65536 ^ Z.of_nat (List.length lo) = 2 ^ 128).
  { rewrite <- !Z.pow_add_r by lia. rewrite Hsum. reflexivity. }
  revert B1 B2 Hpow.
  generalize (groups_value ws (groups_value vs 0 * 65536 ^ k)) as r.
  generalize (groups_value vs 0) as x.
  assert (Ha : 0 < 65536 ^ Z.of_nat (List.length hi))
    by (apply Z.pow_pos_nonneg; lia).
  assert (Hb : 0 < 65536 ^ Z.of_nat (List.length lo))
    by (apply Z.pow_pos_nonneg; lia).
  assert (Hc : 0 < 65536 ^ k) by (apply Z.pow_pos_nonneg; lia).
  revert Ha Hb Hc.
  generalize (65536 ^ Z.of_nat (List.length hi)) as a.
  generalize (65536 ^ Z.of_nat (List.length lo)) as b.
  generalize (65536 ^ k) as c.
  intros c b a Ha Hb Hc x r B1 B2 Hpow.
  rewrite <- Hpow. split; [nia |].
  assert (x + 1 <= a) by lia.
  assert ((x * c + 1) * b <= (x + 1) * c * b) by nia.
  assert ((x + 1) * c * b <= a * c * b) by nia.
  lia.
Qed.

(** *** The alphabet and the range of an accepted text *)

Lemma all_chars_weaken (p q : ascii -> bool) (s : string) :
  (forall c, p c = true -> q c = true) ->
  Py.all_chars p s = true -> Py.all_chars q s = true.
Proof.
  intros Hpq. induction s as [| c r IH]; simpl; [reflexivity |].
  intros H. apply andb_true_iff in H. destruct H as [H1 H2].
  rewrite (Hpq _ H1), (IH H2). reflexivity.
Qed.

Lemma IPv4Address_ok_chars (s : string) (a : ipaddress.address) :
  ipaddress.IPv4Address s = Ok a ->
  Py.all_chars (fun c => Py.is_digit c || Ascii.eqb c ".") s = true.
Proof.
  unfold ipaddress.IPv4Address.
  destruct (Py.contains "/" s); [discriminate |].
  unfold ipaddress._BaseV4._ip_int_from_string.
  destruct (Py.is_empty s); [discriminate |].
  destruct (negb _); [discriminate |].
  destruct (mapM ipaddress._BaseV4._parse_octet (Py.split "." s)) as [bs | e] eqn:Hm;
    simpl.
  2:{ destruct (is_ValueError e); discriminate. }
  intros _. apply mapM_ok in Hm.
  apply all_chars_of_split.
  clear - Hm. induction Hm; constructor; auto.
  eapply parse_octet_ok_digits; eauto.
Qed.

(** The two hextets that stand for an IPv4-style suffix. *)
Definition ipv4_suffix_hextets (a : ipaddress.address) : list string :=
  [ Py.format_x (Z.land (Z.shiftr (ipaddress._ip a) 16) 65535);
    Py.format_x (Z.land (ipaddress._ip a) 65535) ].

(** Where [_ip_int_from_string] succeeds: the text splits into at least
    three parts on [:], the last of which may be an IPv4 address. *)
Lemma ip_int_from_string_ok (s : string) (ip : Z) :
  ipaddress._BaseV6._ip_int_from_string s = Ok ip ->
  exists parts : list string,
    (3 <= List.length parts)%nat
    /\ _ip_int_from_parts parts = Ok ip
    /\ (parts = Py.split ":" s
        \/ exists a,
             ipaddress.IPv4Address (last (Py.split ":" s) "") = Ok a
             /\ parts = (removelast (Py.split ":" s) ++ ipv4_suffix_hextets a)%list).
Proof.
  rewrite ip_int_from_string_parts.
  destruct (Py.is_empty s); [discriminate |]. cbv zeta.
  destruct (Z.ltb_spec (Z.of_nat (List.length (Py.split ":" s))) 3) as [| H3];
    [discriminate |].
  destruct (Py.contains "." (last (Py.split ":" s) "")).
  - destruct (ipaddress.IPv4Address (last (Py.split ":" s) "")) as [a | e] eqn:H4;
      cbn [bind]; [| discriminate].
    intros H. exists (removelast (Py.split ":" s) ++ ipv4_suffix_hextets a)%list.
    split.
    { rewrite length_app, removelast_firstn_len, length_firstn.
      unfold ipv4_suffix_hextets. cbn [List.length]. lia. }
    split; [exact H |]. right. exists a. split; reflexivity.
  - cbn [bind]. intros H. exists (Py.split ":" s).
    split; [lia |]. split; [exact H | left; reflexivity].
Qed.

(** [_ip_int_from_string] returns a 128-bit integer. *)
Lemma ip_int_from_string_range (s : string) (ip : Z) :
  ipaddress._BaseV6._ip_int_from_string s = Ok ip -> 0 <= ip < 2 ^ 128.
Proof.
  intros H. apply ip_int_from_string_ok in H.
  destruct H as (parts & Hlen & Hparts & _).
  eapply ip_int_from_parts_range; eauto.
Qed.

(** The characters of an IPv6 address text without scope id. *)
Definition is_address_char (c : ascii) : bool :=
  (Py.is_hex_digit c || Ascii.eqb c ".") || Ascii.eqb c ":".

Lemma with_gap_members (A B : list string) (p : string) :
  In p (with_gap A B) -> p = "" \/ In p A \/ In p B.
Proof.
  unfold with_gap. intros H. apply in_app_or in H. destruct H as [H | [H | H]].
  - destruct A; cbn [is_nil] in H; [destruct H as [<- | []]; auto | auto].
  - auto.
  - destruct B; cbn [is_nil] in H; [destruct H as [<- | []]; auto | auto].
Qed.

Lemma ip_int_from_string_chars (s : string) (ip : Z) :
  ipaddress._BaseV6._ip_int_from_string s = Ok ip ->
  Py.all_chars is_address_char s = true.
Proof.
  intros H. apply ip_int_from_string_ok in H.
  destruct H as (parts & Hlen & Hparts & Hsplit).
  destruct (ip_int_from_parts_ok _ _ Hlen Hparts)
    as (hi & lo & vs & ws & k & Hvs & Hws & _ & _ & _ & Hshape).
  assert (Hhex : forall p, In p parts ->
             Py.all_chars Py.is_hex_digit p = true).
  { assert (Hin : forall (l : list string) (us : list Z) (p : string),
               Forall2 parsed l us -> In p l ->
               Py.all_chars Py.is_hex_digit p = true).
    { intros l us p Hl. induction Hl as [| q u l us Hq _ IH]; [intros [] |].
      intros [<- | Hp]; [| exact (IH Hp)].
      apply parse_hextet_ok in Hq. apply Hq. }
    intros p Hp.
    destruct Hshape as [(-> & _ & _) | [-> _]]; [exact (Hin _ _ _ Hvs Hp) |].
    apply with_gap_members in Hp.
    destruct Hp as [-> | [Hp | Hp]]; [reflexivity | |];
      [exact (Hin _ _ _ Hvs Hp) | exact (Hin _ _ _ Hws Hp)]. }
  unfold is_address_char. apply all_chars_of_split.
  apply Forall_forall. intros p Hp.
  assert (Hweak : Py.all_chars Py.is_hex_digit p = true ->
                  Py.all_chars (fun c => Py.is_hex_digit c || Ascii.eqb c ".") p
                  = true).
  { apply all_chars_weaken. intros c Hc. rewrite Hc. reflexivity. }
  destruct Hsplit as [-> | (a & H4 & ->)]; [apply Hweak, Hhex, Hp |].
  rewrite (app_removelast_last "" (split_not_nil ":" s)) in Hp.
  apply in_app_or in Hp. destruct Hp as [Hp | [<- | []]].
  - apply Hweak, Hhex. apply in_or_app. left. exact Hp.
  - apply IPv4Address_ok_chars in H4. revert H4. apply all_chars_weaken.
    intros c Hc. apply orb_true_iff in Hc. destruct Hc as [Hc | Hc].
    + unfold Py.is_hex_digit. rewrite Hc. reflexivity.
    + rewrite Hc. apply orb_true_r.
Qed.

Lemma ip_int_from_string_excludes (s : string) (ip : Z) (c : ascii) :
  ipaddress._BaseV6._ip_int_from_string s = Ok ip ->
  is_address_char c = false -> Py.contains c s = false.
Proof.
  intros H Hc. apply ip_int_from_string_chars in H.
  eapply all_chars_excludes; eauto.
Qed.

Lemma string_from_ip_int_excludes (ip : Z) (c : ascii) :
  0 <= ip < 2 ^ 128 -> is_address_char c = false ->
  Py.contains c (ipaddress._BaseV6._string_from_ip_int ip) = false.
Proof.
  intros Hip. apply ip_int_from_string_excludes with (ip := ip).
  apply ip_int_from_string_from_ip_int. exact Hip.
Qed.

(** *** [IPv6Address] on texts with and without a scope id *)

Lemma contains_app (c : ascii) (x y : string) :
  Py.contains c (x ++ y) = Py.contains c x || Py.contains c y.
Proof.
  induction x as [| a x IH]; simpl; [reflexivity |].
  rewrite IH. apply orb_assoc.
Qed.

Lemma partition_without_sep (sep : ascii) (s : string) :
  Py.contains sep s = false -> Py.partition sep s = (s, "", "").
Proof.
  induction s as [| c r IH]; simpl; [reflexivity |].
  intros H. apply orb_false_iff in H. destruct H as [H1 H2].
  rewrite H1, (IH H2). reflexivity.
Qed.

Lemma partition_app_sep (sep : ascii) (x y : string) :
  Py.contains sep x = false ->
  Py.partition sep (x ++ String sep y) = (x, String sep "", y).
Proof.
  induction x as [| c x IH]; simpl.
  - rewrite Ascii.eqb_refl. reflexivity.
  - intros H. apply orb_false_iff in H. destruct H as [H1 H2].
    rewrite H1, (IH H2). reflexivity.
Qed.

(** [s.partition(sep)] cuts [s] at its first [sep], if it has one. *)
Lemma partition_spec (sep : ascii) (s : string) :
  (Py.contains sep s = false /\ Py.partition sep s = (s, "", ""))
  \/ exists x y,
       s = x ++ String sep y /\ Py.contains sep x = false
       /\ Py.partition sep s = (x, String sep "", y).
Proof.
  induction s as [| c r IH]; [left; split; reflexivity |].
  destruct (Ascii.eqb_spec c sep) as [-> | Hne].
  - right. exists "", r. simpl. rewrite Ascii.eqb_refl. repeat split.
  - assert (Hc : Ascii.eqb c sep = false) by (apply Ascii.eqb_neq; exact Hne).
    destruct IH as [[H1 H2] | (x & y & -> & Hx & Hp)].
    + left. simpl. rewrite Hc, H1, H2. split; reflexivity.
    + right. exists (String c x), y. simpl. rewrite Hc, Hx, Hp. repeat split.
Qed.

Lemma IPv6Address_without_scope_id (s : string) :
  Py.contains "/" s = false -> Py.contains "%" s = false ->
  ipaddress.IPv6Address s
  = (ip <- ipaddress._BaseV6._ip_int_from_string s ;;
     Ok (ipaddress.mkAddress ipaddress.v6 ip None)).
Proof.
  intros Hs Hp. unfold ipaddress.IPv6Address, ipaddress._BaseV6._split_scope_id.
  rewrite Hs, (partition_without_sep _ _ Hp). reflexivity.
Qed.

Lemma IPv6Address_with_scope_id (addr z : string) :
  Py.contains "/" (addr ++ "%" ++ z) = false ->
  Py.contains "%" addr = false ->
  Py.is_empty z = false -> Py.contains "%" z = false ->
  ipaddress.IPv6Address (addr ++ "%" ++ z)
  = (ip <- ipaddress._BaseV6._ip_int_from_string addr ;;
     Ok (ipaddress.mkAddress ipaddress.v6 ip (Some z))).
Proof.
  intros Hs Ha Hz Hzp.
  unfold ipaddress.IPv6Address, ipaddress._BaseV6._split_scope_id.
  rewrite Hs. change ("%" ++ z) with (String "%" z).
  rewrite (partition_app_sep _ _ _ Ha). cbn [Py.is_empty].
  rewrite Hz, Hzp. reflexivity.
Qed.

(** The texts [IPv6Address] accepts: an address text alone, or an address
    text, [%] and a scope id that is not empty and has no [%]; no [/]
    anywhere. *)
Lemma IPv6Address_ok (s : string) (a : ipaddress.address) :
  ipaddress.IPv6Address s = Ok a ->
  Py.contains "/" s = false
  /\ ((Py.contains "%" s = false
       /\ exists ip,
            ipaddress._BaseV6._ip_int_from_string s = Ok ip
            /\ a = ipaddress.mkAddress ipaddress.v6 ip None)
      \/ exists addr z ip,
           s = addr ++ "%" ++ z
           /\ Py.contains "%" addr = false
           /\ Py.is_empty z = false /\ Py.contains "%" z = false
           /\ ipaddress._BaseV6._ip_int_from_string addr = Ok ip
           /\ a = ipaddress.mkAddress ipaddress.v6 ip (Some z)).
Proof.
  unfold ipaddress.IPv6Address, ipaddress._BaseV6._split_scope_id.
  destruct (Py.contains "/" s) eqn:Hs; [discriminate |].
  split; [reflexivity |].
  destruct (partition_spec "%" s) as [[Hc Hp] | (x & y & E & Hx & Hp)];
    rewrite Hp in H; cbn [Py.is_empty bind] in H.
  - left. split; [exact Hc |].
    destruct (ipaddress._BaseV6._ip_int_from_string s) as [ip |];
      cbn [bind] in H; [| discriminate].
    exists ip. split; [reflexivity | congruence].
  - right.
    destruct (Py.is_empty y) eqn:Hy; cbn [orb bind] in H; [discriminate |].
    destruct (Py.contains "%" y) eqn:Hyp; cbn [bind] in H; [discriminate |].
    destruct (ipaddress._BaseV6._ip_int_from_string x) as [ip |] eqn:Hip;
      cbn [bind] in H; [| discriminate].
    exists x, y, ip. repeat split; try assumption; congruence.
Qed.

Lemma is_address_char_slash : is_address_char "/" = false.
Proof. reflexivity. Qed.

Lemma is_address_char_percent : is_address_char "%" = false.
Proof. reflexivity. Qed.

(** The text of an address is accepted and gives the address back. *)
Lemma IPv6Address_str (a : ipaddress.address) :
  ipaddress.addr_version a = ipaddress.v6 ->
  0 <= ipaddress._ip a < 2 ^ 128 ->
  match ipaddress._scope_id a with
  | Some z =>
      Py.is_empty z = false /\ Py.contains "%" z = false
      /\ Py.contains "/" z = false
  | None => True
  end ->
  ipaddress.IPv6Address (ipaddress.str a) = Ok a.
Proof.
  destruct a as [v ip sc]. cbn [ipaddress.addr_version ipaddress._ip
                                  ipaddress._scope_id].
  intros -> Hip Hsc. unfold ipaddress.str.
  cbn [ipaddress.addr_version ipaddress._ip ipaddress._scope_id].
  pose proof (string_from_ip_int_excludes ip "/" Hip is_address_char_slash) as Hs.
  pose proof (string_from_ip_int_excludes ip "%" Hip is_address_char_percent) as Hp.
  destruct sc as [z |].
  - destruct Hsc as (Hz & Hzp & Hzs). rewrite Hz.
    rewrite IPv6Address_with_scope_id; try assumption.
    + rewrite ip_int_from_string_from_ip_int by exact Hip. reflexivity.
    + rewrite !contains_app, Hs, Hzs. reflexivity.
  - rewrite IPv6Address_without_scope_id by assumption.
    rewrite ip_int_from_string_from_ip_int by exact Hip. reflexivity.
Qed.

(** An address that [IPv6Address] returned has the shape the previous
    lemma asks for. *)
Lemma IPv6Address_ok_shape (s : string) (a : ipaddress.address) :
  ipaddress.IPv6Address s = Ok a ->
  ipaddress.addr_version a = ipaddress.v6
  /\ 0 <= ipaddress._ip a < 2 ^ 128
  /\ match ipaddress._scope_id a with
     | Some z =>
         Py.is_empty z = false /\ Py.contains "%" z = false
         /\ Py.contains "/" z = false
     | None => True
     end.
Proof.
  intros H. apply IPv6Address_ok in H.
  destruct H as [Hs [(Hp & ip & Hip & ->) | (addr & z & ip & -> & Ha & Hz & Hzp & Hip & ->)]];
    cbn [ipaddress.addr_version ipaddress._ip ipaddress._scope_id].
  - split; [reflexivity |]. split; [| exact I].
    eapply ip_int_from_string_range; eauto.
  - split; [reflexivity |]. split; [eapply ip_int_from_string_range; eauto |].
    rewrite !contains_app in Hs. apply orb_false_iff in Hs.
    destruct Hs as [_ Hs]. apply orb_false_iff in Hs. destruct Hs as [_ Hs].
    repeat split; assumption.
Qed.

(** The exploded text: eight groups of four digits. *)
Definition exploded_text (ip : Z) : string :=
  Py.join ":" (map hex4 (hextet_values ip)).

Lemma ip_int_from_exploded_text (ip : Z) :
  0 <= ip < 2 ^ 128 ->
  ipaddress._BaseV6._ip_int_from_string (exploded_text ip) = Ok ip.
Proof.
  intros Hip. unfold exploded_text.
  rewrite (ip_int_from_eight_parts _ (hextet_values ip)).
  - rewrite groups_value_hextet_values by exact Hip. reflexivity.
  - apply parsed_map; [exact parse_hextet_hex4 | apply hextet_values_range].
  - reflexivity.
Qed.

Lemma IPv6Address_exploded_text (ip : Z) :
  0 <= ip < 2 ^ 128 ->
  ipaddress.IPv6Address (exploded_text ip)
  = Ok (ipaddress.mkAddress ipaddress.v6 ip None).
Proof.
  intros Hip. pose proof (ip_int_from_exploded_text ip Hip) as H.
  rewrite IPv6Address_without_scope_id.
  - rewrite H. reflexivity.
  - eapply ip_int_from_string_excludes; [exact H | reflexivity].
  - eapply ip_int_from_string_excludes; [exact H | reflexivity].
Qed.

(** [exploded] of an address without scope id. *)
Lemma exploded_without_scope_id (ip : Z) :
  0 <= ip < 2 ^ 128 ->
  ipaddress.exploded (ipaddress.mkAddress ipaddress.v6 ip None)
  = Ok (exploded_text ip).
Proof.
  intros Hip. unfold ipaddress.exploded, ipaddress.str.
  cbn [ipaddress.addr_version ipaddress._ip ipaddress._scope_id].
  rewrite ip_int_from_string_from_ip_int by exact Hip. cbn [bind].
  rewrite chunks4_format_032x by exact Hip. reflexivity.
Qed.

(** [exploded] of an address with a scope id. *)
Lemma exploded_with_scope_id (ip : Z) (z : string) :
  Py.is_empty z = false ->
  ipaddress.exploded (ipaddress.mkAddress ipaddress.v6 ip (Some z))
  = Raise AddressValueError.
Proof.
  intros Hz. unfold ipaddress.exploded, ipaddress.str.
  cbn [ipaddress.addr_version ipaddress._ip ipaddress._scope_id].
  rewrite Hz.
  destruct (ipaddress._BaseV6._ip_int_from_string _) as [ip' | e] eqn:H.
  - apply ip_int_from_string_excludes with (c := "%"%char) in H; [| reflexivity].
    rewrite !contains_app in H. cbn in H. rewrite orb_true_r in H. discriminate.
  - apply v6_ip_int_from_string_raises in H. subst. reflexivity.
Qed.

(** *** The formatters of the module *)

Lemma ipv6_compress_ok (s c : string) :
  ipv6_compress s = Ok c <->
  exists a, ipaddress.IPv6Address s = Ok a /\ c = ipaddress.str a.
Proof.
  unfold ipv6_compress, ipaddress.compressed. split.
  - destruct (ipaddress.IPv6Address s) as [a |]; cbn [bind]; [| discriminate].
    intros H. exists a. split; [reflexivity | congruence].
  - intros (a & -> & ->). reflexivity.
Qed.

Lemma ipv6_expand_ok (s e : string) :
  ipv6_expand s = Ok e <->
  exists ip,
    0 <= ip < 2 ^ 128
    /\ ipaddress.IPv6Address s = Ok (ipaddress.mkAddress ipaddress.v6 ip None)
    /\ e = exploded_text ip.
Proof.
  unfold ipv6_expand. split.
  - destruct (ipaddress.IPv6Address s) as [a |] eqn:Ha; cbn [bind];
      [| discriminate].
    destruct (IPv6Address_ok_shape _ _ Ha) as (Hv & Hip & Hsc).
    destruct a as [v ip [z |]];
      cbn [ipaddress.addr_version ipaddress._ip ipaddress._scope_id] in *;
      subst v.
    + rewrite exploded_with_scope_id by apply Hsc. discriminate.
    + rewrite exploded_without_scope_id by exact Hip.
      intros H. exists ip. repeat split; try lia. congruence.
  - intros (ip & Hip & -> & ->). cbn [bind].
    apply exploded_without_scope_id. exact Hip.
Qed.

Lemma exploded_text_length (ip : Z) : String.length (exploded_text ip) = 39%nat.
Proof.
  unfold exploded_text, hextet_values. cbn [map].
  generalize ((ip / 65536 ^ 0) mod 65536) ((ip / 65536 ^ 1) mod 65536)
             ((ip / 65536 ^ 2) mod 65536) ((ip / 65536 ^ 3) mod 65536)
             ((ip / 65536 ^ 4) mod 65536) ((ip / 65536 ^ 5) mod 65536)
             ((ip / 65536 ^ 6) mod 65536) ((ip / 65536 ^ 7) mod 65536).
  intros h0 h1 h2 h3 h4 h5 h6 h7. reflexivity.
Qed.

(** X13.  A scope id breaks the expansion: on every text with a [%] that
    [ipv6_compress] accepts, [ipv6_expand] raises [AddressValueError],
    because the [exploded] property parses [str(address)] again, scope id
    included; [ipv6_threatconnect_form], which expands first, raises as
    well. *)
Theorem ipv6_expand_raises_on_scope_id (ip_v6 compressed : string) :
  Py.contains "%" ip_v6 = true ->
  ipv6_compress ip_v6 = Ok compressed ->
  ipv6_expand ip_v6 = Raise AddressValueError
  /\ ipv6_threatconnect_form ip_v6 = Raise AddressValueError.
Proof.
  intros Hp Hc. apply ipv6_compress_ok in Hc. destruct Hc as (a & Ha & _).
  assert (He : ipv6_expand ip_v6 = Raise AddressValueError).
  { unfold ipv6_expand. rewrite Ha. cbn [bind].
    apply IPv6Address_ok in Ha.
    destruct Ha as [_ [(Hno & _) | (addr & z & ip & _ & _ & Hz & _ & _ & ->)]];
      [congruence |].
    apply exploded_with_scope_id. exact Hz. }
  split; [exact He |].
  unfold ipv6_threatconnect_form. rewrite He. reflexivity.
Qed.

Lemma ipv6_expand_raises_on_scope_id_witness :
  ipv6_expand "fe80::1%eth0" = Raise AddressValueError
  /\ ipv6_threatconnect_form "fe80::1%eth0" = Raise AddressValueError.
Proof.
  apply (ipv6_expand_raises_on_scope_id "fe80::1%eth0" "fe80::1%eth0").
  - reflexivity.
  - vm_compute. reflexivity.
Defined.

(** X14.  Without a scope id the round trip loses nothing: on every text
    without [%] that [ipv6_compress] accepts, [ipv6_expand] returns a text,
    and [ipv6_compress] of that text is [ipv6_compress] of the original. *)
Theorem ipv6_compress_after_expand (ip_v6 compressed : string) :
  Py.contains "%" ip_v6 = false ->
  ipv6_compress ip_v6 = Ok compressed ->
  exists expanded,
    ipv6_expand ip_v6 = Ok expanded
    /\ ipv6_compress expanded = Ok compressed.
Proof.
  intros Hp Hc. apply ipv6_compress_ok in Hc. destruct Hc as (a & Ha & ->).
  pose proof (IPv6Address_ok_shape _ _ Ha) as (_ & Hip & _).
  pose proof (IPv6Address_ok _ _ Ha) as
    [_ [(_ & ip & _ & ->) | (addr & z & ip & -> & _)]].
  2:{ rewrite !contains_app in Hp. cbn in Hp. rewrite orb_true_r in Hp.
      discriminate. }
  cbn [ipaddress._ip] in Hip.
  exists (exploded_text ip). split.
  - apply ipv6_expand_ok. exists ip. repeat split; try lia. exact Ha.
  - apply ipv6_compress_ok. eexists. split; [| reflexivity].
    apply IPv6Address_exploded_text. exact Hip.
Qed.

Lemma ipv6_compress_after_expand_witness :
  exists expanded,
    ipv6_expand "2001:DB8:0:0:0:0:0:1" = Ok expanded
    /\ ipv6_compress expanded = Ok "2001:db8::1".
Proof.
  apply (ipv6_compress_after_expand "2001:DB8:0:0:0:0:0:1" "2001:db8::1").
  - reflexivity.
  - vm_compute. reflexivity.
Defined.

(** X15.  The compressed form is a fixed point: whatever [ipv6_compress]
    returns, with or without a scope id, [ipv6_compress] returns it
    unchanged. *)
Theorem ipv6_compress_idempotent (ip_v6 compressed : string) :
  ipv6_compress ip_v6 = Ok compressed ->
  ipv6_compress compressed = Ok compressed.
Proof.
  intros Hc. apply ipv6_compress_ok in Hc. destruct Hc as (a & Ha & ->).
  apply ipv6_compress_ok. exists a. split; [| reflexivity].
  destruct (IPv6Address_ok_shape _ _ Ha) as (Hv & Hip & Hsc).
  apply IPv6Address_str; assumption.
Qed.

Lemma ipv6_compress_idempotent_witness :
  ipv6_compress "fe80::a:0:0:1%eth0" = Ok "fe80::a:0:0:1%eth0".
Proof.
  apply (ipv6_compress_idempotent "FE80:0:0:0:A:0:0:1%eth0").
  vm_compute. reflexivity.
Defined.

(** X16.  What [ipv6_expand] returns is 39 characters long and is a fixed
    point of [ipv6_expand]; it is also what [ipv6_expand] returns on the
    compressed form of the original text. *)
Theorem ipv6_expand_fixed_point (ip_v6 expanded : string) :
  ipv6_expand ip_v6 = Ok expanded ->
  ipv6_expand expanded = Ok expanded
  /\ String.length expanded = 39%nat
  /\ exists compressed,
       ipv6_compress ip_v6 = Ok compressed
       /\ ipv6_expand compressed = Ok expanded.
Proof.
  intros He. apply ipv6_expand_ok in He. destruct He as (ip & Hip & Ha & ->).
  split; [| split].
  - apply ipv6_expand_ok. exists ip. repeat split; try lia.
    apply IPv6Address_exploded_text. exact Hip.
  - apply exploded_text_length.
  - exists (ipaddress.str (ipaddress.mkAddress ipaddress.v6 ip None)). split.
    + apply ipv6_compress_ok. eexists. split; [exact Ha | reflexivity].
    + apply ipv6_expand_ok. exists ip. repeat split; try lia.
      apply IPv6Address_str; [reflexivity | exact Hip | exact I].
Qed.

Lemma ipv6_expand_fixed_point_witness :
  ipv6_expand "0000:0000:0000:0000:0000:ffff:0102:0304"
  = Ok "0000:0000:0000:0000:0000:ffff:0102:0304"
  /\ String.length "0000:0000:0000:0000:0000:ffff:0102:0304" = 39%nat
  /\ exists compressed,
       ipv6_compress "::ffff:1.2.3.4" = Ok compressed
       /\ ipv6_expand compressed = Ok "0000:0000:0000:0000:0000:ffff:0102:0304".
Proof.
  apply (ipv6_expand_fixed_point "::ffff:1.2.3.4").
  vm_compute. reflexivity.
Defined.

(** X17.  The two forms determine each other: for two texts that
    [ipv6_expand] accepts, the expanded forms are equal exactly when the
    compressed forms are. *)
Theorem ipv6_expand_and_compress_agree (a b expanded_a expanded_b : string) :
  ipv6_expand a = Ok expanded_a ->
  ipv6_expand b = Ok expanded_b ->
  (expanded_a = expanded_b <-> ipv6_compress a = ipv6_compress b).
Proof.
  intros Ha Hb.
  apply ipv6_expand_ok in Ha. destruct Ha as (ipa & Hipa & Ha & ->).
  apply ipv6_expand_ok in Hb. destruct Hb as (ipb & Hipb & Hb & ->).
  unfold ipv6_compress. rewrite Ha, Hb. cbn [bind].
  unfold ipaddress.compressed, ipaddress.str.
  cbn [ipaddress.addr_version ipaddress._ip ipaddress._scope_id].
  split; intros E.
  - assert (ipa = ipb); [| subst; reflexivity].
    pose proof (ip_int_from_exploded_text ipa Hipa) as H1.
    pose proof (ip_int_from_exploded_text ipb Hipb) as H2.
    rewrite E in H1. congruence.
  - assert (ipa = ipb); [| subst; reflexivity].
    pose proof (ip_int_from_string_from_ip_int ipa Hipa) as H1.
    pose proof (ip_int_from_string_from_ip_int ipb Hipb) as H2.
    inversion E as [E']. rewrite E' in H1. congruence.
Qed.

Lemma ipv6_expand_and_compress_agree_witness :
  "0000:0000:0000:0000:0000:0000:0000:0001"
  = "0000:0000:0000:0000:0000:0000:0000:0001"
  <-> ipv6_compress "::1" = ipv6_compress "0:0:0:0:0:0:0:1".
Proof.
  apply (ipv6_expand_and_compress_agree "::1" "0:0:0:0:0:0:0:1");
    vm_compute; reflexivity.
Defined.

(** X18.  What the formatters return is itself an IPv6 address text: on
    every output of [ipv6_compress] or [ipv6_expand], [ip_version] returns
    6 and [is_ip_address] returns [True]. *)
Theorem ipv6_formatter_output_has_version_6 (ip_v6 out : string) :
  ipv6_compress ip_v6 = Ok out \/ ipv6_expand ip_v6 = Ok out ->
  ip_version out = Ok 6 /\ is_ip_address out = Ok true.
Proof.
  intros H.
  assert (H6 : exists a, ipaddress.IPv6Address out = Ok a).
  { destruct H as [Hc | He].
    - apply ipv6_compress_ok in Hc. destruct Hc as (a & Ha & ->).
      destruct (IPv6Address_ok_shape _ _ Ha) as (Hv & Hip & Hsc).
      exists a. apply IPv6Address_str; assumption.
    - apply ipv6_expand_ok in He. destruct He as (ip & Hip & _ & ->).
      eexists. apply IPv6Address_exploded_text. exact Hip. }
  destruct H6 as (a & Ha).
  pose proof (IPv6Address_ok_not_IPv4 _ _ Ha) as H4.
  pose proof (IPv6Address_version _ _ Ha) as Hv.
  unfold ip_version, is_ip_address, ipaddress.ip_address, ipaddress.try_or_else.
  rewrite H4, Ha. cbn. unfold ipaddress.version_of. rewrite Hv. split; reflexivity.
Qed.

Lemma ipv6_formatter_output_has_version_6_witness :
  ip_version "::ffff:102:304" = Ok 6 /\ is_ip_address "::ffff:102:304" = Ok true.
Proof.
  apply (ipv6_formatter_output_has_version_6 "::ffff:1.2.3.4").
  left. vm_compute. reflexivity.
Defined.

(** *** The ThreatConnect form, group by group *)

Lemma last_cons_nonempty {A : Type} (x d : A) (l : list A) :
  l <> [] -> last (x :: l) d = last l d.
Proof. destruct l; [congruence | reflexivity]. Qed.

(** The most significant digit that [Py.digits_rev] produces for a positive
    number is not zero. *)
Lemma digits_rev_last_nonzero (fuel : nat) :
  forall n : Z,
    0 < n < 2 ^ Z.of_nat fuel ->
    Py.digits_rev 16 fuel n <> [] /\ last (Py.digits_rev 16 fuel n) 0 <> 0.
Proof.
  induction fuel as [| fuel IH]; intros n Hn; [simpl in Hn; lia |].
  cbn [Py.digits_rev]. split; [discriminate |].
  destruct (Z.eqb_spec (n / 16) 0) as [Hz | Hnz].
  - cbn [last]. rewrite Z.mod_small; [lia |].
    destruct (Z.lt_ge_cases n 16) as [Hlt | Hge]; [lia |].
    assert (1 <= n / 16) by (apply Z.div_le_lower_bound; lia). lia.
  - rewrite Nat2Z.inj_succ, Z.pow_succ_r in Hn by lia.
    assert (Hq : 0 < n / 16 < 2 ^ Z.of_nat fuel).
    { assert (0 <= n / 16) by (apply Z.div_pos; lia).
      split; [lia |]. apply Z.div_lt_upper_bound; [lia |].
      assert (0 < 2 ^ Z.of_nat fuel) by (apply Z.pow_pos_nonneg; lia). lia. }
    destruct (IH _ Hq) as [Hne Hlast].
    rewrite last_cons_nonempty by exact Hne. exact Hlast.
Qed.

Lemma digit_char_zero (d : Z) :
  0 <= d < 16 -> Ascii.eqb (Py.digit_char d) "0" = (d =? 0).
Proof. intros H. by_digit H. Qed.

(** ['%x' % v] does not start with a zero when [v] is positive. *)
Lemma format_x_leading_digit (v : Z) :
  0 < v < 65536 ->
  exists (c : ascii) (r : string),
    Py.format_x v = String c r /\ Ascii.eqb c "0" = false.
Proof.
  intros Hv. unfold Py.format_x, Py.digits.
  set (fuel := S (Z.to_nat (Z.log2 v))).
  assert (Hfuel : 0 < v < 2 ^ Z.of_nat fuel).
  { split; [lia |]. unfold fuel.
    rewrite Nat2Z.inj_succ, Z2Nat.id by apply Z.log2_nonneg.
    apply Z.log2_spec. lia. }
  destruct (digits_rev_last_nonzero fuel v Hfuel) as [Hne Hlast].
  destruct (digits_rev_spec 4 v) as (_ & Hall & _);
    [change (16 ^ Z.of_nat 4) with 65536; lia | lia |].
  fold fuel in Hall.
  rewrite (app_removelast_last 0 Hne), rev_app_distr. cbn [rev app map].
  cbn [string_of_list_ascii]. eexists. eexists. split; [reflexivity |].
  rewrite digit_char_zero.
  - apply Z.eqb_neq. exact Hlast.
  - rewrite Forall_forall in Hall. apply Hall.
    rewrite (app_removelast_last 0 Hne) at 2.
    apply in_or_app. right. left. reflexivity.
Qed.

Lemma lstrip_zeros_app (k : nat) (t : string) :
  Py.lstrip "0" (string_of_list_ascii (repeat "0"%char k) ++ t)
  = Py.lstrip "0" t.
Proof. induction k as [| k IH]; [reflexivity |]. simpl. exact IH. Qed.

(** A group in four digits is ['%x'] of the group, padded with zeros. *)
Lemma hex4_padded (v : Z) :
  0 <= v < 65536 ->
  exists k : nat,
    hex4 v = string_of_list_ascii (repeat "0"%char k) ++ Py.format_x v.
Proof.
  intros Hv. unfold hex4, Py.format_x, Py.digits.
  set (fuel := S (Z.to_nat (Z.log2 v))).
  assert (Hfuel : 0 <= v < 2 ^ Z.of_nat fuel).
  { split; [lia |]. unfold fuel.
    rewrite Nat2Z.inj_succ, Z2Nat.id by apply Z.log2_nonneg.
    destruct (Z.eq_dec v 0) as [-> | Hnz]; [reflexivity |].
    apply Z.log2_spec. lia. }
  destruct (digits_rev_pad fuel 4 v Hfuel) as [_ Hpad];
    [change (16 ^ Z.of_nat 4) with 65536; lia | unfold fuel; lia | lia |].
  rewrite <- Hpad, rev_app_distr, rev_repeat, map_app, string_of_list_ascii_app.
  exists (4 - List.length (Py.digits_rev 16 fuel v))%nat. f_equal.
  generalize (4 - List.length (Py.digits_rev 16 fuel v))%nat as k.
  induction k as [| k IH]; simpl; [reflexivity |]. rewrite IH. reflexivity.
Qed.

(** A section of the expanded text after the two steps that
    [ipv6_threatconnect_form] applies to it. *)
Definition marked (v : Z) : string :=
  if v =? 0 then "xxxx" else Py.format_x v.

Lemma section_marked (v : Z) :
  0 <= v < 65536 ->
  Py.lstrip "0" (Py.replace "0000" "xxxx" (hex4 v)) = marked v.
Proof.
  intros Hv. unfold marked.
  destruct (Z.eqb_spec v 0) as [-> | Hnz]; [reflexivity |].
  assert (Hsame : Py.replace "0000" "xxxx" (hex4 v) = hex4 v).
  { change "0000"
      with (String "0" (String "0" (String "0" (String "0" EmptyString)))).
    rewrite replace_runs_of_four.
    destruct (fixed_rev_spec 4 v) as (_ & Hall & Hval);
      [change (16 ^ Z.of_nat 4) with 65536; lia |].
    unfold hex4. revert Hall Hval. cbn [fixed_rev].
    generalize (v mod 16) (v / 16 mod 16) (v / 16 / 16 mod 16)
               (v / 16 / 16 / 16 mod 16).
    intros d0 d1 d2 d3 Hall Hval.
    cbn [rev app map string_of_list_ascii].
    rewrite substitute_runs_of_four_unfold.
    rewrite !Forall_cons_iff in Hall. destruct Hall as (H0 & H1 & H2 & H3 & _).
    rewrite !digit_char_zero by assumption.
    destruct (Z.eqb_spec d3 0), (Z.eqb_spec d2 0), (Z.eqb_spec d1 0),
      (Z.eqb_spec d0 0); cbn [andb]; try reflexivity.
    cbn [value_rev] in Hval. lia. }
  rewrite Hsame.
  destruct (hex4_padded v Hv) as (k & ->). rewrite lstrip_zeros_app.
  destruct (format_x_leading_digit v ltac:(lia)) as (c & r & -> & Hc).
  cbn [Py.lstrip]. rewrite Hc. reflexivity.
Qed.

Lemma substitute_other (c a : ascii) (new r : string) :
  Ascii.eqb a c = false ->
  threatconnect_spec.substitute_runs_of_four c new (String a r)
  = String a (threatconnect_spec.substitute_runs_of_four c new r).
Proof.
  intros H. destruct r as [| a2 [| a3 [| a4 r4]]]; try reflexivity.
  rewrite substitute_runs_of_four_unfold, H. reflexivity.
Qed.

Lemma substitute_without (c : ascii) (new t rest : string) :
  Py.contains c t = false ->
  threatconnect_spec.substitute_runs_of_four c new (t ++ rest)
  = t ++ threatconnect_spec.substitute_runs_of_four c new rest.
Proof.
  induction t as [| a t IH]; intros H; [reflexivity |].
  simpl in H. apply orb_false_iff in H. destruct H as [H1 H2].
  change (String a t ++ rest) with (String a (t ++ rest)).
  rewrite substitute_other by exact H1. rewrite (IH H2). reflexivity.
Qed.

Lemma append_empty_r (s : string) : s ++ "" = s.
Proof. induction s as [| c s IH]; simpl; [reflexivity |]. rewrite IH. reflexivity. Qed.

Lemma format_x_no_x (v : Z) :
  0 <= v < 65536 -> Py.contains "x" (Py.format_x v) = false.
Proof.
  intros Hv. pose proof (parse_hextet_format_x v Hv) as H.
  apply parse_hextet_ok in H. destruct H as (_ & Hall & _).
  apply all_hex_no; [reflexivity | exact Hall].
Qed.

(** The last step: each placeholder becomes a single zero, and nothing else
    changes. *)
Lemma unmark_sections (vs : list Z) :
  Forall (fun v => 0 <= v < 65536) vs ->
  Py.replace "xxxx" "0" (Py.join ":" (map marked vs))
  = Py.join ":" (map Py.format_x vs).
Proof.
  change "xxxx"
    with (String "x" (String "x" (String "x" (String "x" EmptyString)))).
  rewrite replace_runs_of_four.
  assert (Hone : forall v rest,
             0 <= v < 65536 ->
             threatconnect_spec.substitute_runs_of_four "x" "0"
               (marked v ++ rest)
             = Py.format_x v
               ++ threatconnect_spec.substitute_runs_of_four "x" "0" rest).
  { intros v rest Hv. unfold marked.
    destruct (Z.eqb_spec v 0) as [-> | Hnz]; [reflexivity |].
    apply substitute_without. apply format_x_no_x. exact Hv. }
  induction 1 as [| v vs Hv Hvs IH]; [reflexivity |].
  destruct vs as [| w vs'].
  - cbn [map Py.join String.concat].
    rewrite <- (append_empty_r (marked v)), (Hone v "" Hv).
    apply append_empty_r.
  - cbn [map]. cbn [map] in IH. rewrite !join_cons.
    rewrite (Hone v _ Hv). f_equal.
    change (":" ++ ?t) with (String ":" t).
    rewrite substitute_other by reflexivity. rewrite IH. reflexivity.
Qed.

(** X19.  For every address without scope id, [ipv6_threatconnect_form]
    returns the eight 16-bit groups of the address, each written as
    ['%x'] writes it (lowercase hexadecimal digits, no leading zeros, ["0"]
    for a zero group), joined with colons; no [::] is used. *)
Theorem ipv6_threatconnect_form_groups (ip_v6 : string) (ip : Z) :
  ipaddress.IPv6Address ip_v6 = Ok (ipaddress.mkAddress ipaddress.v6 ip None) ->
  ipv6_threatconnect_form ip_v6
  = Ok (Py.join ":" (map Py.format_x (hextet_values ip))).
Proof.
  intros Ha.
  destruct (IPv6Address_ok_shape _ _ Ha) as (_ & Hip & _).
  cbn [ipaddress._ip] in Hip.
  assert (He : ipv6_expand ip_v6 = Ok (exploded_text ip)).
  { apply ipv6_expand_ok. exists ip. repeat split; try lia. exact Ha. }
  unfold ipv6_threatconnect_form. rewrite He. cbn [bind]. f_equal.
  pose proof (hextet_values_range ip) as Hrange.
  unfold exploded_text.
  rewrite split_join.
  - rewrite map_map.
    rewrite (map_ext_in _ marked).
    + apply unmark_sections. exact Hrange.
    + intros v Hv. apply section_marked.
      rewrite Forall_forall in Hrange. apply Hrange. exact Hv.
  - discriminate.
  - apply (parsed_list_no_colon _ (hextet_values ip)).
    apply parsed_map; [exact parse_hextet_hex4 | exact Hrange].
Qed.

Lemma ipv6_threatconnect_form_groups_witness :
  ipv6_threatconnect_form "2001:db8::a00:1"
  = Ok (Py.join ":"
          (map Py.format_x
             (hextet_values 42540766411282592856903984951821598721))).
Proof.
  apply (ipv6_threatconnect_form_groups "2001:db8::a00:1").
  vm_compute. reflexivity.
Defined.

(** ** Public, private, multicast and reserved addresses *)

(** An address in two networks: the two network addresses agree under both
    masks. *)
Lemma contains_both (n1 n2 : ipaddress.network) (a : ipaddress.address) :
  ipaddress.contains n1 a = true -> ipaddress.contains n2 a = true ->
  Z.land (ipaddress._ip (ipaddress.network_address n1)) (ipaddress.netmask n2)
  = Z.land (ipaddress._ip (ipaddress.network_address n2)) (ipaddress.netmask n1).
Proof.
  unfold ipaddress.contains. intros H1 H2.
  apply andb_true_iff in H1. destruct H1 as [_ H1]. apply Z.eqb_eq in H1.
  apply andb_true_iff in H2. destruct H2 as [_ H2]. apply Z.eqb_eq in H2.
  rewrite <- H1, <- H2, <- !Z.land_assoc.
  f_equal. apply Z.land_comm.
Qed.

Lemma in_any_ok (a : ipaddress.address) (nets : list ipaddress.network) :
  ipaddress.in_any a nets = true ->
  exists n, In n nets /\ ipaddress.contains n a = true.
Proof. unfold ipaddress.in_any. apply existsb_exists. Qed.

Ltac no_common_address :=
  match goal with
  | H1 : ipaddress.contains ?n1 ?a = true,
    H2 : ipaddress.contains ?n2 ?a = true |- _ =>
      pose proof (contains_both n1 n2 a H1 H2) as Hboth;
      vm_compute in Hboth; discriminate Hboth
  end.

(** No IPv4 multicast address is in one of the private networks. *)
Lemma multicast_not_private_v4 (a : ipaddress.address) :
  ipaddress.contains ipaddress._IPv4Constants._multicast_network a = true ->
  ipaddress.in_any a ipaddress._IPv4Constants._private_networks = false.
Proof.
  intros Hm.
  destruct (ipaddress.in_any a ipaddress._IPv4Constants._private_networks)
    eqn:Hp; [| reflexivity].
  apply in_any_ok in Hp. destruct Hp as (n & Hin & Hn).
  unfold ipaddress._IPv4Constants._private_networks in Hin.
  cbn [map In] in Hin.
  repeat (destruct Hin as [<- | Hin]; [no_common_address |]).
  destruct Hin.
Qed.

(** No IPv6 multicast address is in one of the private networks. *)
Lemma multicast_not_private_v6 (a : ipaddress.address) :
  ipaddress.contains ipaddress._IPv6Constants._multicast_network a = true ->
  ipaddress.in_any a ipaddress._IPv6Constants._private_networks = false.
Proof.
  intros Hm.
  destruct (ipaddress.in_any a ipaddress._IPv6Constants._private_networks)
    eqn:Hp; [| reflexivity].
  apply in_any_ok in Hp. destruct Hp as (n & Hin & Hn).
  unfold ipaddress._IPv6Constants._private_networks in Hin.
  cbn [map In] in Hin.
  repeat (destruct Hin as [<- | Hin]; [no_common_address |]).
  destruct Hin.
Qed.

(** No IPv6 multicast address is an IPv4-mapped address. *)
Lemma multicast_not_ipv4_mapped (a : ipaddress.address) :
  ipaddress.contains ipaddress._IPv6Constants._multicast_network a = true ->
  ipaddress.ipv4_mapped a = None.
Proof.
  unfold ipaddress.contains, ipaddress.ipv4_mapped. intros H.
  apply andb_true_iff in H. destruct H as [_ H]. apply Z.eqb_eq in H.
  destruct (Z.eqb_spec (Z.shiftr (ipaddress._ip a) 32) 65535) as [E |];
    [| reflexivity].
  exfalso.
  apply (f_equal (fun z => Z.testbit z 127)) in H.
  rewrite Z.land_spec in H.
  replace (Z.testbit (ipaddress._ip a) 127)
    with (Z.testbit (Z.shiftr (ipaddress._ip a) 32) 95) in H
    by (rewrite Z.shiftr_spec by lia; reflexivity).
  rewrite E in H. vm_compute in H. discriminate.
Qed.

(** A multicast address is not private, whatever its version. *)
Lemma multicast_not_private (a : ipaddress.address) :
  ipaddress.is_multicast a = true -> ipaddress.is_private a = false.
Proof.
  unfold ipaddress.is_multicast, ipaddress.is_private, ipaddress.is_private_v4.
  destruct (ipaddress.addr_version a); intros Hm.
  - rewrite multicast_not_private_v4 by exact Hm. reflexivity.
  - rewrite multicast_not_ipv4_mapped by exact Hm.
    rewrite multicast_not_private_v6 by exact Hm. reflexivity.
Qed.

(** X20.  On every text that parses as an IP address, exactly one of
    [ip_is_public], [ip_is_private] and [ip_is_multicast] returns [True]:
    the networks that make an address private contain no multicast
    address, for version 4 and for version 6. *)
Theorem public_private_multicast_partition (ip : string) (a : ipaddress.address) :
  ipaddress.ip_address ip = Ok a ->
  (ip_is_public ip = Ok true
   /\ ip_is_private ip = Ok false /\ ip_is_multicast ip = Ok false)
  \/ (ip_is_public ip = Ok false
      /\ ip_is_private ip = Ok true /\ ip_is_multicast ip = Ok false)
  \/ (ip_is_public ip = Ok false
      /\ ip_is_private ip = Ok false /\ ip_is_multicast ip = Ok true).
Proof.
  intros Ha. unfold ip_is_public, ip_is_private, ip_is_multicast.
  rewrite Ha. cbn [bind].
  pose proof (multicast_not_private a) as Hmp.
  destruct (ipaddress.is_multicast a), (ipaddress.is_private a); cbn [negb andb].
  - specialize (Hmp eq_refl). discriminate.
  - right. right. repeat split.
  - right. left. repeat split.
  - left. repeat split.
Qed.

Lemma public_private_multicast_partition_witness :
  (ip_is_public "ff02::1" = Ok true
   /\ ip_is_private "ff02::1" = Ok false /\ ip_is_multicast "ff02::1" = Ok false)
  \/ (ip_is_public "ff02::1" = Ok false
      /\ ip_is_private "ff02::1" = Ok true /\ ip_is_multicast "ff02::1" = Ok false)
  \/ (ip_is_public "ff02::1" = Ok false
      /\ ip_is_private "ff02::1" = Ok false /\ ip_is_multicast "ff02::1" = Ok true).
Proof.
  apply (public_private_multicast_partition "ff02::1"
           (ipaddress.mkAddress ipaddress.v6
              338963523518870617245727861364146307073 None)).
  vm_compute. reflexivity.
Defined.

(** X21.  On every text that parses as an IPv4 address, [ip_is_reserved]
    implies [ip_is_private]: the reserved block [240.0.0.0/4] is one of the
    private networks and contains neither exception; such an address is
    neither multicast nor public. *)
Theorem ipv4_reserved_is_private (ip : string) (a : ipaddress.address) :
  ipaddress.IPv4Address ip = Ok a ->
  ip_is_reserved ip = Ok true ->
  ip_is_private ip = Ok true
  /\ ip_is_multicast ip = Ok false /\ ip_is_public ip = Ok false.
Proof.
  intros H4 Hr.
  assert (Ha : ipaddress.ip_address ip = Ok a).
  { unfold ipaddress.ip_address. rewrite H4. reflexivity. }
  pose proof (IPv4Address_version _ _ H4) as Hv.
  assert (Hres : ipaddress.contains ipaddress._IPv4Constants._reserved_network a
                 = true).
  { unfold ip_is_reserved in Hr. rewrite Ha in Hr. cbn [bind] in Hr.
    unfold ipaddress.is_reserved in Hr. rewrite Hv in Hr. congruence. }
  unfold ip_is_private, ip_is_multicast, ip_is_public.
  rewrite Ha. cbn [bind].
  assert (Hp : ipaddress.is_private a = true).
  { unfold ipaddress.is_private, ipaddress.is_private_v4. rewrite Hv.
    apply andb_true_iff. split.
    - unfold ipaddress.in_any. apply existsb_exists.
      exists ipaddress._IPv4Constants._reserved_network. split; [| exact Hres].
      unfold ipaddress._IPv4Constants._private_networks,
        ipaddress._IPv4Constants._reserved_network.
      apply in_map. cbn [In]. tauto.
    - apply negb_true_iff.
      destruct (ipaddress.in_any a
                  ipaddress._IPv4Constants._private_networks_exceptions)
        eqn:He; [| reflexivity].
      apply in_any_ok in He. destruct He as (n & Hin & Hn).
      unfold ipaddress._IPv4Constants._private_networks_exceptions in Hin.
      cbn [map In] in Hin.
      repeat (destruct Hin as [<- | Hin]; [no_common_address |]).
      destruct Hin. }
  assert (Hm : ipaddress.is_multicast a = false).
  { destruct (ipaddress.is_multicast a) eqn:Hm; [| reflexivity].
    apply multicast_not_private in Hm. congruence. }
  rewrite Hp, Hm. repeat split.
Qed.

Lemma ipv4_reserved_is_private_witness :
  ip_is_private "255.255.255.255" = Ok true
  /\ ip_is_multicast "255.255.255.255" = Ok false
  /\ ip_is_public "255.255.255.255" = Ok false.
Proof.
  apply (ipv4_reserved_is_private "255.255.255.255"
           (ipaddress.mkAddress ipaddress.v4 4294967295 None));
    vm_compute; reflexivity.
Defined.

(** X22.  On every text that parses as an IP address, of either version,
    [ip_is_reserved] excludes [ip_is_multicast]: none of the reserved
    networks meets the multicast network.  So on a reserved address
    [ip_is_public] is the negation of [ip_is_private]. *)
Theorem reserved_is_not_multicast (ip : string) (a : ipaddress.address) :
  ipaddress.ip_address ip = Ok a ->
  ip_is_reserved ip = Ok true ->
  ip_is_multicast ip = Ok false
  /\ ip_is_public ip = Ok (negb (ipaddress.is_private a)).
Proof.
  intros Ha Hr.
  unfold ip_is_reserved in Hr. rewrite Ha in Hr. cbn [bind] in Hr.
  unfold ip_is_multicast, ip_is_public. rewrite Ha. cbn [bind].
  assert (Hm : ipaddress.is_multicast a = false).
  { destruct (ipaddress.is_multicast a) eqn:Hm; [| reflexivity]. exfalso.
    assert (Hres : ipaddress.is_reserved a = true) by congruence.
    unfold ipaddress.is_multicast in Hm. unfold ipaddress.is_reserved in Hres.
    destruct (ipaddress.addr_version a).
    - no_common_address.
    - apply in_any_ok in Hres. destruct Hres as (n & Hin & Hn).
      unfold ipaddress._IPv6Constants._reserved_networks in Hin.
      cbn [map In] in Hin.
      repeat (destruct Hin as [<- | Hin]; [no_common_address |]).
      destruct Hin. }
  rewrite Hm. split; reflexivity.
Qed.

Lemma reserved_is_not_multicast_witness :
  ip_is_multicast "4000::1" = Ok false
  /\ ip_is_public "4000::1"
     = Ok (negb (ipaddress.is_private
                   (ipaddress.mkAddress ipaddress.v6
                      85070591730234615865843651857942052865 None))).
Proof.
  apply (reserved_is_not_multicast "4000::1"
           (ipaddress.mkAddress ipaddress.v6
              85070591730234615865843651857942052865 None));
    vm_compute; reflexivity.
Defined.

(** ** Membership in an IPv6 block *)

(** Two IPv6 addresses written alike are the same address. *)
Lemma v6_string_injective (x y : Z) :
  0 <= x < 2 ^ 128 -> 0 <= y < 2 ^ 128 ->
  ipaddress._BaseV6._string_from_ip_int x = ipaddress._BaseV6._string_from_ip_int y ->
  x = y.
Proof.
  intros Hx Hy Heq.
  pose proof (ip_int_from_string_from_ip_int x Hx) as Px.
  pose proof (ip_int_from_string_from_ip_int y Hy) as Py.
  rewrite Heq in Px. congruence.
Qed.

Lemma ipv6_network_address (s : string) (n : ipaddress.network) :
  ipaddress.ip_network s = Ok n ->
  ipaddress.net_version n = ipaddress.v6 ->
  0 <= ipaddress._ip (ipaddress.network_address n) < 2 ^ 128
  /\ (ipaddress._scope_id (ipaddress.network_address n) = None ->
      ipaddress.network_address n
      = ipaddress._address_class ipaddress.v6
          (ipaddress._ip (ipaddress.network_address n))).
Proof.
  intros Hn Hv. apply ip_network_inv in Hn. rewrite Hv in Hn.
  destruct (make_network_inv _ _ _ Hn) as (addr & mask & _ & Ha & _ & _).
  destruct (IPv6Address_ok_shape _ _ Ha) as (Hva & Hip & _).
  split; [exact Hip |].
  destruct (ipaddress.network_address n) as [v ip sc].
  cbn [ipaddress.addr_version ipaddress._scope_id ipaddress._ip] in *.
  intros ->. subst v. reflexivity.
Qed.

(** What an accepted IPv6 block without scope id yields, as integers: the
    network address, the hosts, the broadcast address. *)
Lemma ipv6_yields (s : string) (n : ipaddress.network) :
  ipaddress.ip_network s = Ok n ->
  ipaddress.net_version n = ipaddress.v6 ->
  ipaddress._scope_id (ipaddress.network_address n) = None ->
  let net := ipaddress._ip (ipaddress.network_address n) in
  let broadcast := ipaddress.broadcast_int n in
  exists lo hi : Z,
    yields (ip_network_block_enumerate s)
    = Ok (map ipaddress._BaseV6._string_from_ip_int
              (net :: zrange lo hi ++ [broadcast]))
    /\ 0 <= net /\ net <= broadcast < 2 ^ 128
    /\ net <= lo <= net + 1 /\ broadcast <= hi <= broadcast + 1
    /\ (ipaddress._prefixlen n <= 126 -> lo = net + 1 /\ hi = broadcast + 1).
Proof.
  intros Hn Hv Hsc net broadcast.
  pose proof (ip_network_wf _ _ Hn) as Hwf.
  destruct (ipv6_network_address _ _ Hn Hv) as (Hnet & Hobj).
  specialize (Hobj Hsc).
  assert (Hnet' : 0 <= net < 2 ^ ipaddress._max_prefixlen (ipaddress.net_version n))
    by (rewrite Hv; exact Hnet).
  pose proof (block_fits n Hwf Hnet') as Hfit.
  pose proof (broadcast_int_block n Hwf) as Hb.
  destruct (block_size_pos n Hwf) as [Hk Hpos].
  cbv zeta in Hfit, Hb, Hk, Hpos. rewrite Hv in Hfit, Hb, Hk, Hpos.
  fold net broadcast in Hfit, Hb.
  assert (Hstr : forall x, ipaddress.str (ipaddress._address_class ipaddress.v6 x)
                           = ipaddress._BaseV6._string_from_ip_int x)
    by reflexivity.
  assert (Hitems : forall lo hi,
             map ipaddress.str
               (map (ipaddress._address_class ipaddress.v6) (zrange lo hi))
             = map ipaddress._BaseV6._string_from_ip_int (zrange lo hi)).
  { intros lo hi. rewrite map_map. reflexivity. }
  assert (Hshape : forall lo hi,
             iterator_items (ipaddress.hosts n)
             = map (ipaddress._address_class ipaddress.v6) (zrange lo hi) ->
             yields (ip_network_block_enumerate s)
             = Ok (map ipaddress._BaseV6._string_from_ip_int
                       (net :: zrange lo hi ++ [broadcast]))).
  { intros lo hi Hi. cbn [yields ip_network_block_enumerate]. rewrite Hn.
    cbn [bind]. unfold rest_of_hosts.
    rewrite Hi, Hitems, Hobj, Hstr. fold net.
    unfold ipaddress.broadcast_address. rewrite Hv, Hstr. fold broadcast.
    cbn [map]. rewrite map_app. reflexivity. }
  unfold ipaddress.hosts in Hshape. rewrite Hv in Hshape. fold net broadcast in Hshape.
  change (ipaddress._max_prefixlen ipaddress.v6) with 128 in *.
  destruct (Z.eqb_spec (ipaddress._prefixlen n) (128 - 1)) as [H127 | H127].
  - exists net, (broadcast + 1). split; [apply Hshape; reflexivity |].
    replace (128 - ipaddress._prefixlen n) with 1 in * by lia.
    change (2 ^ 1) with 2 in *. lia.
  - destruct (Z.eqb_spec (ipaddress._prefixlen n) 128) as [H128 | H128].
    + exists net, (net + 1). split.
      * apply Hshape. rewrite zrange_cons, zrange_empty by lia.
        cbn [iterator_items map]. rewrite Hobj at 1. reflexivity.
      * replace (128 - ipaddress._prefixlen n) with 0 in * by lia.
        change (2 ^ 0) with 1 in *. lia.
    + exists (net + 1), (broadcast + 1). split; [apply Hshape; reflexivity |].
      lia.
Qed.

(** X23.  For an IPv6 block and an IPv6 address, both accepted and without
    scope id, [ip_in_network_block] applied to the compressed form of the
    address returns what arithmetic containment gives: the scan compares
    texts, and the texts the block yields are compressed forms. *)
Theorem ip_in_network_block_ipv6_compressed
        (ip_v6 compressed network_block : string)
        (a : ipaddress.address) (n : ipaddress.network) :
  ipaddress.IPv6Address ip_v6 = Ok a ->
  ipaddress._scope_id a = None ->
  ipv6_compress ip_v6 = Ok compressed ->
  ipaddress.ip_network network_block = Ok n ->
  ipaddress.net_version n = ipaddress.v6 ->
  ipaddress._scope_id (ipaddress.network_address n) = None ->
  ip_in_network_block compressed network_block
  = Some (Ok (ipaddress.contains n a)).
Proof.
  intros Ha Hsa Hc Hn Hvn Hsn.
  destruct (IPv6Address_ok_shape _ _ Ha) as (Hva & Hrange & _).
  assert (Hstr : compressed = ipaddress._BaseV6._string_from_ip_int (ipaddress._ip a)).
  { unfold ipv6_compress in Hc. rewrite Ha in Hc. cbn [bind] in Hc.
    inversion Hc. unfold ipaddress.compressed, ipaddress.str.
    rewrite Hva, Hsa. reflexivity. }
  pose proof (ip_network_wf _ _ Hn) as Hwf.
  destruct (ipv6_yields _ _ Hn Hvn Hsn) as (lo & hi & Hy & Hnet & Hb & Hlo & Hhi & _).
  rewrite ip_in_network_block_total, Hy. unfold found_in. cbn [bind].
  f_equal. f_equal.
  set (net := ipaddress._ip (ipaddress.network_address n)) in *.
  set (broadcast := ipaddress.broadcast_int n) in *.
  assert (Hnet' : 0 <= net < 2 ^ ipaddress._max_prefixlen (ipaddress.net_version n)).
  { rewrite Hvn. change (ipaddress._max_prefixlen ipaddress.v6) with 128. lia. }
  pose proof (contains_iff_range n Hwf Hnet' a) as Hcr. cbv zeta in Hcr.
  rewrite Hvn in Hcr. specialize (Hcr Hva Hrange). fold net broadcast in Hcr.
  apply eq_true_iff_eq. split.
  - intros Hex. apply Hcr. apply existsb_exists in Hex.
    destruct Hex as (t & Hin & Heq). apply String.eqb_eq in Heq. subst t.
    apply in_map_iff in Hin. destruct Hin as (x & Hx & Hin).
    assert (Hxr : net <= x <= broadcast).
    { destruct Hin as [<- | Hin]; [lia |].
      apply in_app_iff in Hin. destruct Hin as [Hin | [<- | []]]; [| lia].
      apply In_zrange in Hin. lia. }
    rewrite Hstr in Hx. apply v6_string_injective in Hx; lia.
  - intros Hr. apply Hcr in Hr. apply existsb_exists.
    exists compressed. split; [| apply String.eqb_refl].
    apply in_map_iff. exists (ipaddress._ip a). split; [symmetry; exact Hstr |].
    destruct (Z.eq_dec (ipaddress._ip a) net) as [-> | Hne1]; [left; reflexivity |].
    right. apply in_app_iff.
    destruct (Z.eq_dec (ipaddress._ip a) broadcast) as [-> | Hne2];
      [right; left; reflexivity |].
    left. apply In_zrange. lia.
Qed.

Lemma ip_in_network_block_ipv6_compressed_witness :
  ip_in_network_block "::1" "::/127"
  = Some (Ok (ipaddress.contains
                (ipaddress.mkNetwork ipaddress.v6
                   (ipaddress.mkAddress ipaddress.v6 0 None) 127)
                (ipaddress.mkAddress ipaddress.v6 1 None))).
Proof.
  apply (ip_in_network_block_ipv6_compressed "0:0:0:0:0:0:0:1" "::1" "::/127").
  - vm_compute. reflexivity.
  - reflexivity.
  - vm_compute. reflexivity.
  - vm_compute. reflexivity.
  - reflexivity.
  - reflexivity.
Defined.

(** X24.  For every accepted IPv6 block without scope id and with a prefix
    length of at most 126, the enumeration yields the addresses of the
    block in increasing order, each once, and then the last address a
    second time: one element more than [ip_network_block_ip_count]. *)
Theorem ipv6_enumeration_repeats_last_address
        (network_block_string : string) (ip : ipaddress.network) :
  ipaddress.ip_network network_block_string = Ok ip ->
  ipaddress.net_version ip = ipaddress.v6 ->
  ipaddress._scope_id (ipaddress.network_address ip) = None ->
  ipaddress._prefixlen ip <= 126 ->
  let first := ipaddress._ip (ipaddress.network_address ip) in
  let size := 2 ^ (128 - ipaddress._prefixlen ip) in
  let addresses :=
    map ipaddress._BaseV6._string_from_ip_int (zrange first (first + size)) in
  list_of (ip_network_block_enumerate network_block_string)
  = Some (Ok (addresses
              ++ [ipaddress._BaseV6._string_from_ip_int (first + size - 1)])%list)
  /\ NoDup addresses
  /\ ip_network_block_ip_count network_block_string
     = Ok (Z.of_nat (List.length addresses)).
Proof.
  intros Hn Hv Hsc Hp first size addresses.
  pose proof (ip_network_wf _ _ Hn) as Hwf.
  destruct (ipv6_yields _ _ Hn Hv Hsc)
    as (lo & hi & Hy & Hnet & Hb & _ & _ & Hlohi).
  destruct (Hlohi Hp) as [-> ->]. clear Hlohi.
  pose proof (broadcast_int_add ip Hwf) as Hadd. rewrite Hv in Hadd.
  change (ipaddress._max_prefixlen ipaddress.v6) with 128 in Hadd.
  fold first size in Hy, Hnet, Hb, Hadd.
  assert (Hpos : 0 < size).
  { apply Z.pow_pos_nonneg; [lia |]. destruct Hwf as [_ Hpl _].
    rewrite Hv in Hpl. change (ipaddress._max_prefixlen ipaddress.v6) with 128 in Hpl.
    lia. }
  assert (Hrange : (first :: zrange (first + 1) (ipaddress.broadcast_int ip + 1)
                    ++ [ipaddress.broadcast_int ip])%list
                   = (zrange first (first + size) ++ [first + size - 1])%list).
  { replace (first + size) with (ipaddress.broadcast_int ip + 1) by lia.
    replace (ipaddress.broadcast_int ip + 1 - 1)
      with (ipaddress.broadcast_int ip) by lia.
    rewrite (zrange_cons first) by lia. reflexivity. }
  rewrite Hrange, map_app in Hy. fold addresses in Hy.
  split; [rewrite list_of_total, Hy; reflexivity |].
  split.
  - apply NoDup_map_on; [| apply NoDup_zrange].
    intros x y Hx Hy'. apply In_zrange in Hx, Hy'.
    apply v6_string_injective; lia.
  - pose proof (ip_count_of_block _ _ Hn) as Hc.
    rewrite Hc, Hv. change (ipaddress._max_prefixlen ipaddress.v6) with 128.
    f_equal. unfold addresses. rewrite length_map, zrange_length. lia.
Qed.

Lemma ipv6_enumeration_repeats_last_address_witness :
  let first := 0 in
  let size := 2 ^ (128 - 126) in
  let addresses :=
    map ipaddress._BaseV6._string_from_ip_int (zrange first (first + size)) in
  list_of (ip_network_block_enumerate "::/126")
  = Some (Ok (addresses
              ++ [ipaddress._BaseV6._string_from_ip_int (first + size - 1)])%list)
  /\ NoDup addresses
  /\ ip_network_block_ip_count "::/126" = Ok (Z.of_nat (List.length addresses)).
Proof.
  apply (ipv6_enumeration_repeats_last_address "::/126"
           (ipaddress.mkNetwork ipaddress.v6
              (ipaddress.mkAddress ipaddress.v6 0 None) 126)).
  - vm_compute. reflexivity.
  - reflexivity.
  - reflexivity.
  - simpl. lia.
Defined.

(** ** The boundary addresses of a block *)

Lemma v4_ip_int_from_string_chars (s : string) (ip : Z) :
  ipaddress._BaseV4._ip_int_from_string s = Ok ip ->
  Py.all_chars (fun c => Py.is_digit c || Ascii.eqb c ".") s = true.
Proof.
  unfold ipaddress._BaseV4._ip_int_from_string.
  destruct (Py.is_empty s); [discriminate |].
  destruct (negb _); [discriminate |].
  destruct (mapM ipaddress._BaseV4._parse_octet (Py.split "." s)) as [bs | e] eqn:Hm;
    simpl.
  2:{ destruct (is_ValueError e); discriminate. }
  intros _. apply mapM_ok in Hm.
  apply all_chars_of_split.
  clear - Hm. induction Hm; constructor; auto.
  eapply parse_octet_ok_digits; eauto.
Qed.

(** The text of an IPv4 address is accepted and gives the address back. *)
Lemma IPv4Address_string_from_ip_int (ip : Z) :
  0 <= ip < 2 ^ 32 ->
  ipaddress.IPv4Address (ipaddress._BaseV4._string_from_ip_int ip)
  = Ok (ipaddress.mkAddress ipaddress.v4 ip None).
Proof.
  intros Hip. pose proof (v4_parse_str ip Hip) as Hp.
  unfold ipaddress.IPv4Address. rewrite Hp.
  apply v4_ip_int_from_string_chars in Hp.
  rewrite (all_chars_excludes _ "/" _ Hp) by reflexivity. reflexivity.
Qed.

(** The text of an address of either version is accepted by [ip_address]
    and gives the address back. *)
Lemma ip_address_str (a : ipaddress.address) :
  0 <= ipaddress._ip a
       < 2 ^ ipaddress._max_prefixlen (ipaddress.addr_version a) ->
  match ipaddress.addr_version a, ipaddress._scope_id a with
  | ipaddress.v4, sc => sc = None
  | ipaddress.v6, Some z =>
      Py.is_empty z = false /\ Py.contains "%" z = false
      /\ Py.contains "/" z = false
  | ipaddress.v6, None => True
  end ->
  ipaddress.ip_address (ipaddress.str a) = Ok a.
Proof.
  destruct a as [v ip sc].
  cbn [ipaddress.addr_version ipaddress._ip ipaddress._scope_id].
  intros Hip Hsc. unfold ipaddress.ip_address, ipaddress.try_or_else.
  destruct v.
  - subst sc. change (ipaddress.str _)
      with (ipaddress._BaseV4._string_from_ip_int ip).
    rewrite IPv4Address_string_from_ip_int by exact Hip. reflexivity.
  - assert (H6 : ipaddress.IPv6Address
                   (ipaddress.str (ipaddress.mkAddress ipaddress.v6 ip sc))
                 = Ok (ipaddress.mkAddress ipaddress.v6 ip sc)).
    { apply IPv6Address_str; [reflexivity | exact Hip |].
      cbn [ipaddress._scope_id]. destruct sc; exact Hsc. }
    rewrite (IPv6Address_ok_not_IPv4 _ _ H6), H6. reflexivity.
Qed.

(** The network address of an accepted block, as [ip_address_str] needs
    it. *)
Lemma network_address_shape (s : string) (n : ipaddress.network) :
  ipaddress.ip_network s = Ok n ->
  let a := ipaddress.network_address n in
  ipaddress.addr_version a = ipaddress.net_version n
  /\ 0 <= ipaddress._ip a < 2 ^ ipaddress._max_prefixlen (ipaddress.addr_version a)
  /\ match ipaddress.addr_version a, ipaddress._scope_id a with
     | ipaddress.v4, sc => sc = None
     | ipaddress.v6, Some z =>
         Py.is_empty z = false /\ Py.contains "%" z = false
         /\ Py.contains "/" z = false
     | ipaddress.v6, None => True
     end.
Proof.
  intros Hn a. pose proof (ip_network_wf _ _ Hn) as [Hv _ _]. fold a in Hv.
  split; [exact Hv |].
  apply ip_network_inv in Hn.
  destruct (make_network_inv _ _ _ Hn) as (addr & mask & _ & Ha & _ & _).
  fold a in Ha.
  destruct (ipaddress.net_version n).
  - destruct (IPv4Address_str _ _ Ha) as [_ Hr].
    destruct (IPv4Address_inv _ _ Ha) as [Hobj _].
    rewrite Hv. split; [exact Hr |]. rewrite Hobj. reflexivity.
  - destruct (IPv6Address_ok_shape _ _ Ha) as (_ & Hr & Hsc).
    rewrite Hv. split; [exact Hr |]. exact Hsc.
Qed.

(** X25.  The boundary addresses of a block pass back through the module:
    for every accepted network block, of either version, the texts that
    [ip_network_block_first_address] and [ip_network_block_last_address]
    return are found in the block by [ip_in_network_block], and
    [ip_version] returns the version of the block on both. *)
Theorem boundary_addresses_belong_to_block
        (network_block : string) (n : ipaddress.network) :
  ipaddress.ip_network network_block = Ok n ->
  exists first last : string,
    ip_network_block_first_address network_block = Ok first
    /\ ip_network_block_last_address network_block = Ok last
    /\ ip_in_network_block first network_block = Some (Ok true)
    /\ ip_in_network_block last network_block = Some (Ok true)
    /\ ip_version first = Ok (ipaddress.version_number (ipaddress.net_version n))
    /\ ip_version last = Ok (ipaddress.version_number (ipaddress.net_version n)).
Proof.
  intros Hn.
  exists (ipaddress.str (ipaddress.network_address n)),
    (ipaddress.str (ipaddress.broadcast_address n)).
  unfold ip_network_block_first_address, ip_network_block_last_address.
  rewrite Hn. cbn [bind].
  split; [reflexivity |]. split; [reflexivity |].
  rewrite !ip_in_network_block_total.
  cbn [yields ip_network_block_enumerate]. rewrite Hn. cbn [bind found_in].
  split.
  { cbn [existsb]. rewrite String.eqb_refl. reflexivity. }
  split.
  { f_equal. f_equal. apply existsb_exists.
    exists (ipaddress.str (ipaddress.broadcast_address n)).
    split; [| apply String.eqb_refl].
    right. unfold rest_of_hosts. apply in_or_app. right. left. reflexivity. }
  pose proof (ip_network_wf _ _ Hn) as Hwf.
  destruct (network_address_shape _ _ Hn) as (Hv & Hr & Hsc).
  unfold ip_version. split.
  - rewrite ip_address_str by assumption. cbn [bind].
    unfold ipaddress.version_of. rewrite Hv. reflexivity.
  - rewrite ip_address_str.
    + reflexivity.
    + unfold ipaddress.broadcast_address, ipaddress._address_class.
      cbn [ipaddress.addr_version ipaddress._ip].
      rewrite Hv in Hr.
      pose proof (block_fits n Hwf Hr) as Hfit.
      pose proof (broadcast_int_block n Hwf) as Hb.
      destruct (block_size_pos n Hwf) as [_ Hpos].
      cbv zeta in Hfit, Hb, Hpos. lia.
    + unfold ipaddress.broadcast_address, ipaddress._address_class.
      cbn [ipaddress.addr_version ipaddress._scope_id].
      destruct (ipaddress.net_version n); [reflexivity | exact I].
Qed.

Lemma boundary_addresses_belong_to_block_witness :
  exists first last : string,
    ip_network_block_first_address "2001:db8::/120" = Ok first
    /\ ip_network_block_last_address "2001:db8::/120" = Ok last
    /\ ip_in_network_block first "2001:db8::/120" = Some (Ok true)
    /\ ip_in_network_block last "2001:db8::/120" = Some (Ok true)
    /\ ip_version first = Ok (ipaddress.version_number ipaddress.v6)
    /\ ip_version last = Ok (ipaddress.version_number ipaddress.v6).
Proof.
  apply (boundary_addresses_belong_to_block "2001:db8::/120"
           (ipaddress.mkNetwork ipaddress.v6
              (ipaddress.mkAddress ipaddress.v6
                 42540766411282592856903984951653826560 None) 120)).
  vm_compute. reflexivity.
Defined.

(** ** The specification of the ThreatConnect form *)

Lemma string_append_assoc (x y z : string) : (x ++ y) ++ z = x ++ (y ++ z).
Proof. induction x as [| c x IH]; simpl; [reflexivity |]. rewrite IH. reflexivity. Qed.

Lemma split_at_colons_split (s : string) :
  forall current : string,
    threatconnect_spec.split_at_colons current s
    = (current ++ hd EmptyString (Py.split ":" s)) :: tl (Py.split ":" s).
Proof.
  induction s as [| c r IH]; intros current.
  - cbn. rewrite append_empty_r. reflexivity.
  - cbn [threatconnect_spec.split_at_colons Py.split].
    destruct (Ascii.eqb c ":").
    + cbn [hd tl]. rewrite append_empty_r, IH.
      pose proof (split_not_nil ":" r) as Hne.
      destruct (Py.split ":" r) as [| h t]; [congruence | reflexivity].
    + rewrite IH. pose proof (split_not_nil ":" r) as Hne.
      destruct (Py.split ":" r) as [| h t]; [congruence |]. cbn [hd tl].
      f_equal. rewrite string_append_assoc. reflexivity.
Qed.

(** Splitting on colons as the specification says it is [str.split(":")]. *)
Lemma split_on_colons_split (s : string) :
  threatconnect_spec.split_on_colons s = Py.split ":" s.
Proof.
  unfold threatconnect_spec.split_on_colons. rewrite split_at_colons_split.
  pose proof (split_not_nil ":" s) as Hne.
  destruct (Py.split ":" s) as [| h t]; [congruence | reflexivity].
Qed.

Lemma hex_digit_digit_char (d : Z) :
  0 <= d < 16 -> threatconnect_spec.hex_digit d = Py.digit_char d.
Proof. intros H. by_digit H. Qed.

Lemma four_digits_hex4 (g : Z) : threatconnect_spec.four_digits g = hex4 g.
Proof.
  unfold threatconnect_spec.four_digits, hex4.
  cbn [fixed_rev rev app map string_of_list_ascii].
  rewrite !hex_digit_digit_char by (apply Z.mod_pos_bound; lia).
  rewrite !Z.div_div by lia. reflexivity.
Qed.

(** The fully written form of the specification is the text [exploded]
    builds. *)
Lemma fully_written_exploded_text (ip : Z) :
  threatconnect_spec.fully_written ip = exploded_text ip.
Proof.
  unfold threatconnect_spec.fully_written, exploded_text, hextet_values.
  rewrite join_colons. f_equal. cbn [map].
  rewrite !four_digits_hex4. reflexivity.
Qed.

(** C3.  For every valid IPv6 literal without a scope id,
    [ipv6_threatconnect_form] returns exactly what the algorithm of the
    specification gives on the address the literal denotes: the fully
    written form (eight groups of four hexadecimal digits), split on
    colons, in each segment the placeholder for each run of four zero
    digits and the leading zeros stripped, the segments joined with colons,
    a single zero for each placeholder.  The specification's side is
    written on the address itself, without the functions of the module. *)
Theorem ipv6_threatconnect_form_without_scope_id
        (ip_v6 : string) (a : ipaddress.address) :
  ipaddress.IPv6Address ip_v6 = Ok a ->
  ipaddress._scope_id a = None ->
  ipv6_threatconnect_form ip_v6
  = Ok (threatconnect_spec.threatconnect_form (ipaddress._ip a)).
Proof.
  intros Ha Hsc.
  destruct (IPv6Address_ok_shape _ _ Ha) as (Hv & Hip & _).
  assert (He : ipv6_expand ip_v6 = Ok (exploded_text (ipaddress._ip a))).
  { apply ipv6_expand_ok. exists (ipaddress._ip a).
    split; [exact Hip |]. split; [| reflexivity].
    rewrite Ha. destruct a as [v ip sc].
    cbn [ipaddress.addr_version ipaddress._scope_id ipaddress._ip] in *.
    subst. reflexivity. }
  unfold ipv6_threatconnect_form. rewrite He. cbn [bind]. f_equal.
  unfold threatconnect_spec.threatconnect_form. cbv zeta.
  rewrite fully_written_exploded_text, split_on_colons_split.
  apply threatconnect_pipeline.
Qed.

Lemma ipv6_threatconnect_form_without_scope_id_witness :
  ipv6_threatconnect_form "2001:DB8::0A00:1"
  = Ok (threatconnect_spec.threatconnect_form
          42540766411282592856903984951821598721).
Proof.
  apply (ipv6_threatconnect_form_without_scope_id "2001:DB8::0A00:1"
           (ipaddress.mkAddress ipaddress.v6
              42540766411282592856903984951821598721 None)).
  - vm_compute. reflexivity.
  - reflexivity.
Defined.

(** A valid literal with a scope id: [IPv6Address] accepts it,
    [is_ip_address] returns [True], and [ipv6_threatconnect_form] raises
    instead of returning. *)
Lemma ipv6_threatconnect_form_raises_on_scoped_literal :
  ipaddress.IPv6Address "fe80::1%eth0"
  = Ok (ipaddress.mkAddress ipaddress.v6
          338288524927261089654018896841347694593 (Some "eth0"))
  /\ is_ip_address "fe80::1%eth0" = Ok true
  /\ ipv6_threatconnect_form "fe80::1%eth0" = Raise AddressValueError.
Proof. repeat split; vm_compute; reflexivity. Qed.

(** ** The expand-then-compress round trip *)

(** C6.  For every valid IPv6 literal without a scope id, [ipv6_expand]
    returns the fully written form of the address, [ipv6_compress] accepts
    that form, and [ipv6_compress(ipv6_expand(addr))] is
    [ipv6_compress(addr)], the text [str] writes for the address. *)
Theorem ipv6_compress_expand_round_trip
        (addr : string) (a : ipaddress.address) :
  ipaddress.IPv6Address addr = Ok a ->
  ipaddress._scope_id a = None ->
  ipv6_expand addr = Ok (threatconnect_spec.fully_written (ipaddress._ip a))
  /\ ipv6_compress addr = Ok (ipaddress.str a)
  /\ (expanded <- ipv6_expand addr ;; ipv6_compress expanded)
     = ipv6_compress addr.
Proof.
  intros Ha Hsc.
  destruct (IPv6Address_ok_shape _ _ Ha) as (Hv & Hip & _).
  assert (Hobj : a = ipaddress.mkAddress ipaddress.v6 (ipaddress._ip a) None).
  { destruct a as [v ip sc].
    cbn [ipaddress.addr_version ipaddress._scope_id ipaddress._ip] in *.
    subst. reflexivity. }
  assert (He : ipv6_expand addr = Ok (exploded_text (ipaddress._ip a))).
  { apply ipv6_expand_ok. exists (ipaddress._ip a).
    split; [exact Hip |]. split; [| reflexivity]. rewrite Ha. f_equal. exact Hobj. }
  assert (Hc : ipv6_compress addr = Ok (ipaddress.str a)).
  { apply ipv6_compress_ok. exists a. split; [exact Ha | reflexivity]. }
  rewrite fully_written_exploded_text.
  split; [exact He |]. split; [exact Hc |].
  rewrite He, Hc. cbn [bind].
  apply ipv6_compress_ok.
  exists (ipaddress.mkAddress ipaddress.v6 (ipaddress._ip a) None).
  split; [apply IPv6Address_exploded_text; exact Hip |].
  rewrite <- Hobj. reflexivity.
Qed.

Lemma ipv6_compress_expand_round_trip_witness :
  ipv6_expand "::FFFF:1.2.3.4"
  = Ok (threatconnect_spec.fully_written 281470698652420)
  /\ ipv6_compress "::FFFF:1.2.3.4"
     = Ok (ipaddress.str (ipaddress.mkAddress ipaddress.v6 281470698652420 None))
  /\ (expanded <- ipv6_expand "::FFFF:1.2.3.4" ;; ipv6_compress expanded)
     = ipv6_compress "::FFFF:1.2.3.4".
Proof.
  apply (ipv6_compress_expand_round_trip "::FFFF:1.2.3.4"
           (ipaddress.mkAddress ipaddress.v6 281470698652420 None)).
  - vm_compute. reflexivity.
  - reflexivity.
Defined.

(** A valid literal with a scope id: [ipv6_compress] returns its compressed
    form, while expanding it first raises. *)
Lemma ipv6_round_trip_raises_on_scoped_literal :
  ipv6_compress "FE80:0:0:0:0:0:0:2%3" = Ok "fe80::2%3"
  /\ is_ip_address "FE80:0:0:0:0:0:0:2%3" = Ok true
  /\ (expanded <- ipv6_expand "FE80:0:0:0:0:0:0:2%3" ;; ipv6_compress expanded)
     = Raise AddressValueError.
Proof. repeat split; vm_compute; reflexivity. Qed.
